(** * Cleaning-schedule management: the models of [webinterface/models.py]

    A shallow embedding of the Django models that carry the scheduling
    logic: the epoch-week time model, the fair-share assignment engine
    ([Schedule.create_assignment]), the invalidation cascade of the
    [save] methods and the duty-switch transaction.

    The relational store is a record of tables; a table is the list of its
    rows in storage order, a many-to-many relation is a finite set of
    primary-key pairs.  Model instances are records that carry a copy of the
    row together with the attributes [__init__] adds to it. *)

From Stdlib Require Import ZArith QArith List Bool Lia Sorted Permutation.
From stdpp Require Import gmap.
Import ListNotations.

Local Open Scope Z_scope.

(** ** Python values *)

(** The three messages of [Affiliation.date_validator]. *)
Inductive validation_message :=
| EndBeforeBeginning
| BeginningOverlaps
| EndOverlaps.

(** The exceptions the modelled code can raise. *)
Inductive exn :=
| IndexError
| MultipleObjectsReturned
| OverflowError
| ValueError
| KeyError
| DoesNotExist
| ValidationError (message : validation_message).

Inductive result (A : Type) :=
| Ok (a : A)
| Raise (e : exn).
Arguments Ok {A} a.
Arguments Raise {A} e.

(** An exception raised in an operand leaves the expression. *)
Definition bind {A B : Type} (r : result A) (f : A -> result B) : result B :=
  match r with
  | Ok a => f a
  | Raise e => Raise e
  end.

(** What [a / b] gives on integers: a float, or [ZeroDivisionError]. *)
Inductive division (A : Type) :=
| Quotient (q : A)
| ZeroDivisionError.
Arguments Quotient {A} q.
Arguments ZeroDivisionError {A}.

Definition true_div (a b : Z) : division Q :=
  if b =? 0 then ZeroDivisionError else Quotient (inject_Z a / inject_Z b)%Q.

(** [int(x)] on a float truncates toward zero.  A float is modelled by the
    rational it denotes: every quotient taken below is either exact or far
    from an integer compared with the rounding error of a double. *)
Definition int_of_Q (q : Q) : Z := Z.quot (Qnum q) (Zpos (Qden q)).

(** ** Time model *)

Module Time.

(** A [datetime.date], represented by its day number counted from
    1970-01-01 (the proleptic Gregorian ordinal minus 719163). *)
Definition date := Z.

(** [datetime.date.min] is 0001-01-01 and [datetime.date.max] 9999-12-31. *)
Definition date_min : date := -719162.
Definition date_max : date := 2932896.

Definition valid_date (d : date) : bool := (date_min <=? d) && (d <=? date_max).

(** [date.weekday()]: Monday is 0; 1970-01-01 was a Thursday. *)
Definition weekday (d : date) : Z := (d + 3) mod 7.

(** [time.struct_time], as far as it is used: the day, the second in it and
    the flag [tm_isdst] (1 for daylight-saving time, 0 for the time of the
    zone that is not, -1 for unknown). *)
Record struct_time := { tm_day : Z; tm_sec_of_day : Z; tm_isdst : Z }.

(** [date.timetuple()] is midnight of the date, with [tm_isdst = -1]. *)
Definition timetuple (d : date) : struct_time :=
  {| tm_day := d; tm_sec_of_day := 0; tm_isdst := -1 |}.

(** [calendar.timegm]: seconds since the epoch of a UTC time tuple. *)
Definition timegm (t : struct_time) : Z := tm_day t * 86400 + tm_sec_of_day t.

(** [time.gmtime]: the UTC time tuple of a number of seconds; UTC has no
    daylight-saving time, so [tm_isdst = 0]. *)
Definition gmtime (seconds : Z) : struct_time :=
  {| tm_day := seconds / 86400; tm_sec_of_day := seconds mod 86400; tm_isdst := 0 |}.

(** The local time zone, as the C library knows it.  [utcoffset ts] is the
    offset of local time from UTC, in seconds, at the timestamp [ts]: what
    [localtime] adds.  [mktime_offset isdst local] is the offset [mktime]
    takes a time tuple to be in, which depends on the flag [tm_isdst] of the
    tuple and on the local seconds [local] it denotes: for [tm_isdst = 0] it
    is the offset of the time of the zone that is not flagged as
    daylight-saving time, whether or not that time is in force.  The two
    need not agree; [mktime_near] says that at the instant [mktime] returns
    the local clock shows a time less than a day away from the tuple.
    Timestamps beyond the range of the platform's [time_t] are not
    modelled. *)
Record timezone := {
  utcoffset : Z -> Z;
  mktime_offset : Z -> Z -> Z;
  mktime_near : forall isdst local : Z,
    -86400 < utcoffset (local - mktime_offset isdst local) - mktime_offset isdst local
    < 86400 }.

Section LocalTime.

(** The time zone of the process. *)
Variable tz : timezone.

(** [time.mktime]: the time tuple is read as local time, in the offset its
    [tm_isdst] asks for. *)
Definition mktime (t : struct_time) : Z :=
  let local := tm_day t * 86400 + tm_sec_of_day t in
  local - mktime_offset tz (tm_isdst t) local.

(** [datetime.date.fromtimestamp]: the local date of a timestamp; a date
    outside [date.min .. date.max] raises [ValueError] (year out of
    range). *)
Definition fromtimestamp (ts : Z) : result date :=
  let d := (ts + utcoffset tz ts) / 86400 in
  if valid_date d then Ok d else Raise ValueError.

Definition epoch_week_to_monday (week : Z) : result date :=
  let epoch_seconds := ((week * 7) - 3) * 24 * 60 * 60 in
  fromtimestamp (mktime (gmtime epoch_seconds)).

Definition epoch_week_to_sunday (week : Z) : result date :=
  let epoch_seconds := ((week * 7) + 3) * 24 * 60 * 60 in
  fromtimestamp (mktime (gmtime epoch_seconds)).

(** By how many seconds the local clock, at the instant [mktime] returns for
    the tuple [gmtime seconds], is ahead of that tuple. *)
Definition ahead (seconds : Z) : Z :=
  let ts := mktime (gmtime seconds) in
  ts + utcoffset tz ts - seconds.

(** The local clock is never behind the time tuples [mktime] is given with
    [tm_isdst = 0], and less than a day ahead of them: the zone has no
    daylight-saving time, or one that moves the clock forward. *)
Definition clock_not_behind : Prop :=
  forall seconds, 0 <= ahead seconds < 86400.

End LocalTime.

(** [d + datetime.timedelta(days=n)]; a date outside [date.min .. date.max]
    raises. *)
Definition add_days (d : date) (n : Z) : result date :=
  if valid_date (d + n) then Ok (d + n) else Raise OverflowError.

Definition date_to_epoch_week (d : date) : Z :=
  let epoch_seconds := timegm (timetuple d) in
  int_of_Q (((inject_Z epoch_seconds / 60 / 60 / 24) + 3) / 7)%Q.

(** [current_epoch_week()] reads the clock: [today] is [datetime.date.today()]. *)
Definition current_epoch_week (today : date) : Z := date_to_epoch_week today.


End Time.

(** ** Python lists *)

(** [list.sort()] and [sorted]: a stable sort, by insertion. *)
Fixpoint insert_by {A : Type} (le : A -> A -> bool) (x : A) (l : list A) : list A :=
  match l with
  | [] => [x]
  | y :: l' => if le x y then x :: l else y :: insert_by le x l'
  end.

Definition sorted_by {A : Type} (le : A -> A -> bool) (l : list A) : list A :=
  fold_right (insert_by le) [] l.

(** [list(set(l))]: the distinct values of [l]. *)
Fixpoint distinct {A : Type} (eqb : A -> A -> bool) (l : list A) : list A :=
  match l with
  | [] => []
  | x :: l' => if existsb (eqb x) l' then distinct eqb l' else x :: distinct eqb l'
  end.

(** [random.choice(seq)]: [rnd] is the draw of the generator. *)
Definition random_choice {A : Type} (rnd : nat) (seq : list A) : result A :=
  match seq with
  | [] => Raise IndexError
  | _ :: _ =>
      match nth_error seq (rnd mod length seq)%nat with
      | Some x => Ok x
      | None => Raise IndexError
      end
  end.

(** [range(lo, hi)] *)
Definition range (lo hi : Z) : list Z :=
  map (fun i => lo + Z.of_nat i) (seq 0 (Z.to_nat (hi - lo))).

(** ** The store *)

(** Primary keys. *)
Definition pk := Z.

(** Rows of [Schedule]. *)
Record schedule := {
  sch_pk : pk;
  sch_cleaners_per_date : Z;
  sch_frequency : Z;
  sch_disabled : bool }.

(** Rows of [Affiliation]; [aff_cleaner] and [aff_group] are foreign keys. *)
Record affiliation := {
  aff_pk : pk;
  aff_cleaner : pk;
  aff_group : pk;
  aff_beginning : Z;
  aff_end : Z }.

(** Rows of [CleaningWeek]; the many-to-many field [excluded] is a relation
    of the store. *)
Record cleaningweek := {
  cw_pk : pk;
  cw_week : Z;
  cw_schedule : pk;
  cw_tasks_valid : bool;
  cw_assignments_valid : bool;
  cw_disabled : bool }.

(** Rows of [Assignment]. *)
Record assignment := {
  asg_pk : pk;
  asg_cleaner : pk;
  asg_cleaning_week : pk;
  asg_schedule : pk }.

(** Rows of [TaskTemplate]. *)
Record tasktemplate := {
  tt_pk : pk;
  tt_schedule : pk;
  tt_task_disabled : bool }.

(** Rows of [Task]. *)
Record task := {
  task_pk : pk;
  task_cleaning_week : pk;
  task_cleaned_by : option pk;
  task_template : pk }.

(** Rows of [DutySwitch]. *)
Record dutyswitch := {
  ds_pk : pk;
  ds_requester_assignment : pk;
  ds_acceptor_assignment : option pk }.

(** The columns of day numbers that the rows above leave out, by the primary
    key of the row: [Schedule.weekday], [TaskTemplate.start_days_before] and
    [TaskTemplate.end_days_after].  No modelled function writes them. *)
Record day_columns := {
  schedule_weekday : pk -> Z;
  tasktemplate_start_days_before : pk -> Z;
  tasktemplate_end_days_after : pk -> Z }.

(** The database.  [schedulegroup_schedules] holds the pairs (group,
    schedule) of [ScheduleGroup.schedules], [cleaningweek_excluded] the pairs
    (cleaning week, cleaner) of [CleaningWeek.excluded]; [sequence] is the
    next primary key handed out. *)
Record db := {
  schedules : list schedule;
  schedulegroup_schedules : gset (pk * pk);
  affiliations : list affiliation;
  cleaningweeks : list cleaningweek;
  cleaningweek_excluded : gset (pk * pk);
  assignments : list assignment;
  tasktemplates : list tasktemplate;
  tasks : list task;
  dutyswitches : list dutyswitch;
  sequence : pk }.

Definition with_schedules (v : list schedule) (st : db) : db :=
  {| schedules := v; schedulegroup_schedules := schedulegroup_schedules st;
     affiliations := affiliations st; cleaningweeks := cleaningweeks st;
     cleaningweek_excluded := cleaningweek_excluded st; assignments := assignments st;
     tasktemplates := tasktemplates st; tasks := tasks st;
     dutyswitches := dutyswitches st; sequence := sequence st |}.

Definition with_affiliations (v : list affiliation) (st : db) : db :=
  {| schedules := schedules st; schedulegroup_schedules := schedulegroup_schedules st;
     affiliations := v; cleaningweeks := cleaningweeks st;
     cleaningweek_excluded := cleaningweek_excluded st; assignments := assignments st;
     tasktemplates := tasktemplates st; tasks := tasks st;
     dutyswitches := dutyswitches st; sequence := sequence st |}.

Definition with_cleaningweeks (v : list cleaningweek) (st : db) : db :=
  {| schedules := schedules st; schedulegroup_schedules := schedulegroup_schedules st;
     affiliations := affiliations st; cleaningweeks := v;
     cleaningweek_excluded := cleaningweek_excluded st; assignments := assignments st;
     tasktemplates := tasktemplates st; tasks := tasks st;
     dutyswitches := dutyswitches st; sequence := sequence st |}.

Definition with_cleaningweek_excluded (v : gset (pk * pk)) (st : db) : db :=
  {| schedules := schedules st; schedulegroup_schedules := schedulegroup_schedules st;
     affiliations := affiliations st; cleaningweeks := cleaningweeks st;
     cleaningweek_excluded := v; assignments := assignments st;
     tasktemplates := tasktemplates st; tasks := tasks st;
     dutyswitches := dutyswitches st; sequence := sequence st |}.

Definition with_assignments (v : list assignment) (st : db) : db :=
  {| schedules := schedules st; schedulegroup_schedules := schedulegroup_schedules st;
     affiliations := affiliations st; cleaningweeks := cleaningweeks st;
     cleaningweek_excluded := cleaningweek_excluded st; assignments := v;
     tasktemplates := tasktemplates st; tasks := tasks st;
     dutyswitches := dutyswitches st; sequence := sequence st |}.

Definition with_tasks (v : list task) (st : db) : db :=
  {| schedules := schedules st; schedulegroup_schedules := schedulegroup_schedules st;
     affiliations := affiliations st; cleaningweeks := cleaningweeks st;
     cleaningweek_excluded := cleaningweek_excluded st; assignments := assignments st;
     tasktemplates := tasktemplates st; tasks := v;
     dutyswitches := dutyswitches st; sequence := sequence st |}.

Definition with_dutyswitches (v : list dutyswitch) (st : db) : db :=
  {| schedules := schedules st; schedulegroup_schedules := schedulegroup_schedules st;
     affiliations := affiliations st; cleaningweeks := cleaningweeks st;
     cleaningweek_excluded := cleaningweek_excluded st; assignments := assignments st;
     tasktemplates := tasktemplates st; tasks := tasks st;
     dutyswitches := v; sequence := sequence st |}.

Definition with_tasktemplates (v : list tasktemplate) (st : db) : db :=
  {| schedules := schedules st; schedulegroup_schedules := schedulegroup_schedules st;
     affiliations := affiliations st; cleaningweeks := cleaningweeks st;
     cleaningweek_excluded := cleaningweek_excluded st; assignments := assignments st;
     tasktemplates := v; tasks := tasks st;
     dutyswitches := dutyswitches st; sequence := sequence st |}.

(** Draw the next primary key. *)
Definition next_pk (st : db) : pk * db :=
  (sequence st,
   {| schedules := schedules st; schedulegroup_schedules := schedulegroup_schedules st;
      affiliations := affiliations st; cleaningweeks := cleaningweeks st;
      cleaningweek_excluded := cleaningweek_excluded st; assignments := assignments st;
      tasktemplates := tasktemplates st; tasks := tasks st;
      dutyswitches := dutyswitches st; sequence := sequence st + 1 |}).

(** [Model.save()] of an instance that has a primary key: the row with that
    key is overwritten, and inserted when there is none. *)
Definition save_row {R : Type} (key : R -> pk) (row : R) (table : list R) : list R :=
  if existsb (fun r => key r =? key row) table
  then map (fun r => if key r =? key row then row else r) table
  else table ++ [row].

(** Following a foreign key: [assignment.cleaning_week]. *)
Definition cleaning_week_of (st : db) (a : assignment) : option cleaningweek :=
  find (fun c => cw_pk c =? asg_cleaning_week a) (cleaningweeks st).

(** The lookup [cleaning_week__week] of a query on assignments; a row whose
    join partner is missing is not selected. *)
Definition cleaning_week__week (st : db) (sel : Z -> bool) (a : assignment) : bool :=
  match cleaning_week_of st a with
  | Some c => sel (cw_week c)
  | None => false
  end.

Definition cleaning_week__schedule (st : db) (sel : pk -> bool) (a : assignment) : bool :=
  match cleaning_week_of st a with
  | Some c => sel (cw_schedule c)
  | None => false
  end.

(** [QuerySet.count()] *)
Definition count {A : Type} (l : list A) : Z := Z.of_nat (length l).

(** ** Cleaner *)

Module Cleaner.

Definition deployment_ratio (st : db) (self : pk) (schedule : schedule)
    (from_week to_week : Z) : Q :=
  let all_assignments :=
    List.filter (fun a =>
      cleaning_week__week st (fun w => from_week <=? w) a
      && cleaning_week__week st (fun w => w <=? to_week) a
      && cleaning_week__schedule st (fun s => s =? sch_pk schedule) a)
      (assignments st) in
  let all_assignment_count := count all_assignments in
  let own_assignment_count :=
    count (List.filter (fun a => asg_cleaner a =? self) all_assignments) in
  if negb (all_assignment_count =? 0)
  then (inject_Z own_assignment_count / inject_Z all_assignment_count)%Q
  else 0%Q.

Definition nr_assignments_in_week (st : db) (self : pk) (week : Z) : Z :=
  count (List.filter (fun a =>
           (asg_cleaner a =? self) && cleaning_week__week st (fun w => w =? week) a)
           (assignments st)).

(** [self.affiliation_set.get(beginning__lte=week, end__gte=week)], with
    [Affiliation.DoesNotExist] caught. *)
Definition affiliation_in_week (st : db) (self : pk) (week : Z) : result (option affiliation) :=
  match List.filter (fun a =>
          (aff_cleaner a =? self) && (aff_beginning a <=? week) && (week <=? aff_end a))
          (affiliations st) with
  | [] => Ok None
  | [current_affiliation] => Ok (Some current_affiliation)
  | _ :: _ :: _ => Raise MultipleObjectsReturned
  end.

Definition current_affiliation (today : Time.date) (st : db) (self : pk)
    : result (option affiliation) :=
  affiliation_in_week st self (Time.current_epoch_week today).

Definition is_active (today : Time.date) (st : db) (self : pk) : result bool :=
  match current_affiliation today st self with
  | Ok (Some _) => Ok true
  | Ok None => Ok false
  | Raise e => Raise e
  end.

End Cleaner.

(** ** AffiliationQuerySet *)

Module AffiliationQuerySet.

(** [Meta.ordering = ('-end',)]; rows with the same [end] keep their
    storage order. *)
Definition ordering (l : list affiliation) : list affiliation :=
  sorted_by (fun a b => aff_end b <=? aff_end a) l.

Definition active_in_week (st : db) (week : Z) : list affiliation :=
  List.filter (fun a => (aff_beginning a <=? week) && (week <=? aff_end a))
    (affiliations st).

Definition active_in_week_for_schedule (st : db) (week : Z) (schedule : schedule)
    : list affiliation :=
  ordering
    (List.filter (fun a =>
       bool_decide ((aff_group a, sch_pk schedule) ∈ schedulegroup_schedules st))
       (active_in_week st week)).

End AffiliationQuerySet.

(** ** Assignment *)

Module Assignment.

Definition save (st : db) (self : assignment) : db :=
  with_assignments (save_row asg_pk self (assignments st)) st.

(** [QuerySet.delete()] on assignments.  [DutySwitch.requester_assignment]
    is [on_delete=CASCADE], [DutySwitch.acceptor_assignment] is
    [on_delete=SET_NULL]. *)
Definition delete (st : db) (doomed : assignment -> bool) : db :=
  let gone := map asg_pk (List.filter doomed (assignments st)) in
  let is_gone (k : pk) := existsb (Z.eqb k) gone in
  let switches :=
    map (fun d =>
           match ds_acceptor_assignment d with
           | Some k =>
               if is_gone k
               then {| ds_pk := ds_pk d;
                       ds_requester_assignment := ds_requester_assignment d;
                       ds_acceptor_assignment := None |}
               else d
           | None => d
           end)
      (List.filter (fun d => negb (is_gone (ds_requester_assignment d)))
         (dutyswitches st)) in
  with_dutyswitches switches
    (with_assignments (List.filter (fun a => negb (doomed a)) (assignments st)) st).

(** [DutySwitch.objects.filter(requester_assignment=self)
    .filter(acceptor_assignment__isnull=True)], and [first()] of it. *)
Definition switch_requested (st : db) (self : assignment) : option dutyswitch :=
  let duty_switch :=
    List.filter (fun d => match ds_acceptor_assignment d with None => true | Some _ => false end)
      (List.filter (fun d => ds_requester_assignment d =? asg_pk self) (dutyswitches st)) in
  match duty_switch with
  | first :: _ => Some first
  | [] => None
  end.

End Assignment.

(** ** CleaningWeek *)

Module CleaningWeek.

Definition save (st : db) (self : cleaningweek) : db :=
  with_cleaningweeks (save_row cw_pk self (cleaningweeks st)) st.

Definition task_set (st : db) (self : cleaningweek) : list task :=
  List.filter (fun t => task_cleaning_week t =? cw_pk self) (tasks st).

Definition assignment_set (st : db) (self : cleaningweek) : list assignment :=
  List.filter (fun a => asg_cleaning_week a =? cw_pk self) (assignments st).

Definition task_templates_missing (st : db) (self : cleaningweek) : list tasktemplate :=
  List.filter (fun tt =>
    (tt_schedule tt =? cw_schedule self)
    && negb (tt_task_disabled tt)
    && negb (existsb (fun t => task_template t =? tt_pk tt) (task_set st self)))
    (tasktemplates st).

(** [self.task_set.create(template=task_template)] *)
Definition create_task (self : cleaningweek) (st : db) (template : tasktemplate) : db :=
  let (k, st) := next_pk st in
  with_tasks (tasks st ++ [ {| task_pk := k; task_cleaning_week := cw_pk self;
                               task_cleaned_by := None; task_template := tt_pk template |} ]) st.

(** The methods that assign to [self] return the instance they leave. *)
Definition create_missing_tasks (st : db) (self : cleaningweek) : cleaningweek * db :=
  let missing_task_templates := task_templates_missing st self in
  let st := fold_left (create_task self)
              (List.filter (fun tt => negb (tt_task_disabled tt)) missing_task_templates) st in
  let self := {| cw_pk := cw_pk self; cw_week := cw_week self; cw_schedule := cw_schedule self;
                 cw_tasks_valid := true; cw_assignments_valid := cw_assignments_valid self;
                 cw_disabled := cw_disabled self |} in
  (self, save st self).

Definition set_assignments_valid_field (st : db) (self : cleaningweek) (value : bool)
    : cleaningweek * db :=
  let self := {| cw_pk := cw_pk self; cw_week := cw_week self; cw_schedule := cw_schedule self;
                 cw_tasks_valid := cw_tasks_valid self; cw_assignments_valid := value;
                 cw_disabled := cw_disabled self |} in
  (self, save st self).

Definition set_tasks_valid_field (st : db) (self : cleaningweek) (value : bool)
    : cleaningweek * db :=
  let self := {| cw_pk := cw_pk self; cw_week := cw_week self; cw_schedule := cw_schedule self;
                 cw_tasks_valid := value; cw_assignments_valid := cw_assignments_valid self;
                 cw_disabled := cw_disabled self |} in
  (self, save st self).

(** [Model.delete()]: the assignments and tasks of the week go with it
    ([on_delete=CASCADE]), and so do its pairs in [excluded]. *)
Definition delete (st : db) (self : cleaningweek) : db :=
  let st := Assignment.delete st (fun a => asg_cleaning_week a =? cw_pk self) in
  let st := with_tasks (List.filter (fun t => negb (task_cleaning_week t =? cw_pk self)) (tasks st)) st in
  let st := with_cleaningweek_excluded
              (filter (fun p => p.1 ≠ cw_pk self) (cleaningweek_excluded st)) st in
  with_cleaningweeks (List.filter (fun c => negb (cw_pk c =? cw_pk self)) (cleaningweeks st)) st.

Definition is_current_week (today : Time.date) (self : cleaningweek) : bool :=
  Time.current_epoch_week today =? cw_week self.

Definition is_in_future (today : Time.date) (self : cleaningweek) : bool :=
  Time.current_epoch_week today <? cw_week self.

Definition completed_tasks (st : db) (self : cleaningweek) : list task :=
  List.filter (fun t => negb (match task_cleaned_by t with None => true | Some _ => false end))
    (task_set st self).

Definition open_tasks (st : db) (self : cleaningweek) : list task :=
  List.filter (fun t => match task_cleaned_by t with None => true | Some _ => false end)
    (task_set st self).

Definition ratio_of_completed_tasks (st : db) (self : cleaningweek) : division Q :=
  true_div (count (completed_tasks st self)) (count (task_set st self)).

Definition all_tasks_are_completed (st : db) (self : cleaningweek) : division bool :=
  match ratio_of_completed_tasks st self with
  | Quotient ratio => Quotient (Qeq_bool ratio 1)
  | ZeroDivisionError => ZeroDivisionError
  end.

Definition week_start (tz : Time.timezone) (self : cleaningweek) : result Time.date :=
  Time.epoch_week_to_monday tz (cw_week self).

Definition week_end (tz : Time.timezone) (self : cleaningweek) : result Time.date :=
  Time.epoch_week_to_sunday tz (cw_week self).

Definition assignment_date (tz : Time.timezone) (days : day_columns) (self : cleaningweek)
    : result Time.date :=
  bind (Time.epoch_week_to_monday tz (cw_week self)) (fun monday =>
  Time.add_days monday (schedule_weekday days (cw_schedule self))).

End CleaningWeek.

(** ** Task *)

Module Task.

(** Following the foreign key [task.cleaning_week]. *)
Definition cleaning_week (st : db) (self : task) : result cleaningweek :=
  match find (fun c => cw_pk c =? task_cleaning_week self) (cleaningweeks st) with
  | Some c => Ok c
  | None => Raise DoesNotExist
  end.

Definition start_date (tz : Time.timezone) (days : day_columns) (st : db) (self : task)
    : result Time.date :=
  bind (cleaning_week st self) (fun cw =>
  bind (CleaningWeek.week_start tz cw) (fun d =>
  bind (Time.add_days d (schedule_weekday days (cw_schedule cw))) (fun d =>
  Time.add_days d (- tasktemplate_start_days_before days (task_template self))))).

Definition end_date (tz : Time.timezone) (days : day_columns) (st : db) (self : task)
    : result Time.date :=
  bind (cleaning_week st self) (fun cw =>
  bind (CleaningWeek.week_start tz cw) (fun d =>
  bind (Time.add_days d (schedule_weekday days (cw_schedule cw))) (fun d =>
  Time.add_days d (tasktemplate_end_days_after days (task_template self))))).

(** [self.start_date() <= timezone.now().date() <= self.end_date()]: the
    second comparison is made only when the first one holds. *)
Definition my_time_has_come (tz : Time.timezone) (days : day_columns) (today : Time.date)
    (st : db) (self : task) : result bool :=
  bind (start_date tz days st self) (fun s =>
  if s <=? today
  then bind (end_date tz days st self) (fun e => Ok (today <=? e))
  else Ok false).

Definition has_passed (tz : Time.timezone) (days : day_columns) (today : Time.date)
    (st : db) (self : task) : result bool :=
  bind (end_date tz days st self) (fun e => Ok (e <? today)).

End Task.

(** ** Schedule *)

(** What [create_assignment] returns: [False] or the new [Assignment]. *)
Inductive returned :=
| ReturnFalse
| ReturnAssignment (a : assignment).

(** A [Schedule] instance: the row (without a primary key until it is
    saved) and the two attributes [__init__] adds. *)
Record schedule_instance := {
  si_pk : option pk;
  si_cleaners_per_date : Z;
  si_frequency : Z;
  si_disabled : bool;
  previous_cleaners_per_date : Z;
  previous_frequency : Z }.

Module Schedule.

(** [__init__] on a row read from the store. *)
Definition init (row : schedule) : schedule_instance :=
  {| si_pk := Some (sch_pk row);
     si_cleaners_per_date := sch_cleaners_per_date row;
     si_frequency := sch_frequency row;
     si_disabled := sch_disabled row;
     previous_cleaners_per_date := sch_cleaners_per_date row;
     previous_frequency := sch_frequency row |}.

Definition cleaningweek_set (st : db) (self : pk) : list cleaningweek :=
  List.filter (fun c => cw_schedule c =? self) (cleaningweeks st).

(** The dict of [constant_affiliation_timespan]: [None] is [{}], [Some (b, e)]
    is [{'beginning': b, 'end': e}]. *)
Definition constant_affiliation_timespan (st : db) (self : schedule) (week : Z)
    : option (Z * Z) :=
  let active_affiliations := AffiliationQuerySet.active_in_week_for_schedule st week self in
  fold_left (fun minimal_week_set affiliation =>
               match minimal_week_set with
               | None => Some (aff_beginning affiliation, aff_end affiliation)
               | Some (b, e) =>
                   let b := if b <? aff_beginning affiliation then aff_beginning affiliation else b in
                   let e := if aff_end affiliation <? e then aff_end affiliation else e in
                   Some (b, e)
               end)
    active_affiliations None.

Definition deployment_ratios (st : db) (self : schedule) (week : Z)
    : result (list (pk * Q)) :=
  let minimal_week_set := constant_affiliation_timespan st self week in
  let active_affiliations := AffiliationQuerySet.active_in_week_for_schedule st week self in
  match active_affiliations with
  | [] => Ok []
  | _ :: _ =>
      match minimal_week_set with
      | None => Raise KeyError
      | Some (beginning, end_) =>
          let ratios :=
            map (fun affiliation =>
                   let cleaner := aff_cleaner affiliation in
                   (cleaner, Cleaner.deployment_ratio st cleaner self beginning end_))
              active_affiliations in
          Ok (sorted_by (fun x y => Qle_bool (snd x) (snd y)) ratios)
      end
  end.

Definition occurs_in_week (self : schedule) (week : Z) : bool :=
  (sch_frequency self =? 1)
  || ((sch_frequency self =? 2) && (week mod 2 =? 0))
  || ((sch_frequency self =? 3) && (week mod 2 =? 1)).

(** [self.cleaningweek_set.get_or_create(week=week)] *)
Definition get_or_create (st : db) (self : schedule) (week : Z)
    : result cleaningweek * db :=
  match List.filter (fun c => cw_week c =? week) (cleaningweek_set st (sch_pk self)) with
  | [c] => (Ok c, st)
  | [] =>
      let (k, st) := next_pk st in
      let c := {| cw_pk := k; cw_week := week; cw_schedule := sch_pk self;
                  cw_tasks_valid := false; cw_assignments_valid := false;
                  cw_disabled := false |} in
      (Ok c, with_cleaningweeks (cleaningweeks st ++ [c]) st)
  | _ :: _ :: _ => (Raise MultipleObjectsReturned, st)
  end.

(** [self.assignment_set.create(cleaner=..., cleaning_week=...)] *)
Definition assignment_set_create (st : db) (self : schedule) (cleaner : pk)
    (cleaning_week : cleaningweek) : assignment * db :=
  let (k, st) := next_pk st in
  let a := {| asg_pk := k; asg_cleaner := cleaner;
              asg_cleaning_week := cw_pk cleaning_week; asg_schedule := sch_pk self |} in
  (a, with_assignments (assignments st ++ [a]) st).

(** The inner loop [for same_assignment_count in grouped_by_assignment_count]:
    its body returns, so only the first group is ever seen.  [None] says that
    the loop ended without returning. *)
Definition for_same_assignment_count (rnd : nat)
    (grouped_by_assignment_count : list (list pk)) : option (result pk) :=
  match grouped_by_assignment_count with
  | [] => None
  | same_assignment_count :: _ => Some (random_choice rnd same_assignment_count)
  end.

(** The outer loop [for same_ratio in grouped_by_ratios]; [None] says that
    the loop ended without returning, which is when its [else] runs. *)
Fixpoint for_same_ratio (rnd : nat) (st : db) (cleaning_week : cleaningweek) (week : Z)
    (grouped_by_ratios : list (list pk)) : option (result pk) :=
  match grouped_by_ratios with
  | [] => None
  | same_ratio :: rest =>
      let non_excluded :=
        List.filter (fun x =>
          negb (bool_decide ((cw_pk cleaning_week, x) ∈ cleaningweek_excluded st)))
          same_ratio in
      let nr_assignments :=
        sorted_by Z.leb
          (distinct Z.eqb (map (fun x => Cleaner.nr_assignments_in_week st x week) same_ratio)) in
      let grouped_by_assignment_count :=
        map (fun count =>
               List.filter (fun x => Cleaner.nr_assignments_in_week st x week =? count)
                 non_excluded)
          nr_assignments in
      match for_same_assignment_count rnd grouped_by_assignment_count with
      | Some r => Some r
      | None => for_same_ratio rnd st cleaning_week week rest
      end
  end.

Definition grouped_by_ratios (ratios : list (pk * Q)) : list (list pk) :=
  let distinct_ratio_values := sorted_by Qle_bool (distinct Qeq_bool (map snd ratios)) in
  map (fun val => map fst (List.filter (fun x => Qeq_bool (snd x) val) ratios))
    distinct_ratio_values.

Definition create_assignment (rnd : nat) (st : db) (self : schedule) (week : Z)
    : result returned * db :=
  if sch_disabled self then (Ok ReturnFalse, st)
  else if negb (occurs_in_week self week) then
    let cleaning_week_where_there_shouldnt_be_one :=
      List.filter (fun c => cw_week c =? week) (cleaningweek_set st (sch_pk self)) in
    let st := match cleaning_week_where_there_shouldnt_be_one with
              | c :: _ => CleaningWeek.delete st c
              | [] => st
              end in
    (Ok ReturnFalse, st)
  else
    match get_or_create st self week with
    | (Raise e, st) => (Raise e, st)
    | (Ok cleaning_week, st) =>
        let (cleaning_week, st) :=
          if negb (cw_tasks_valid cleaning_week)
          then CleaningWeek.create_missing_tasks st cleaning_week
          else (cleaning_week, st) in
        let (cleaning_week, st) :=
          if negb (cw_assignments_valid cleaning_week)
          then
            let st := Assignment.delete st
                        (fun a => asg_cleaning_week a =? cw_pk cleaning_week) in
            CleaningWeek.set_assignments_valid_field st cleaning_week true
          else (cleaning_week, st) in
        if sch_cleaners_per_date self <=? count (CleaningWeek.assignment_set st cleaning_week)
        then (Ok ReturnFalse, st)
        else
          match deployment_ratios st self week with
          | Raise e => (Raise e, st)
          | Ok [] => (Ok ReturnFalse, st)
          | Ok (((first, _) :: _) as ratios) =>
              match for_same_ratio rnd st cleaning_week week (grouped_by_ratios ratios) with
              | Some (Ok choice) =>
                  let (a, st) := assignment_set_create st self choice cleaning_week in
                  (Ok (ReturnAssignment a), st)
              | Some (Raise e) => (Raise e, st)
              | None =>
                  let (a, st) := assignment_set_create st self first cleaning_week in
                  (Ok (ReturnAssignment a), st)
              end
          end
    end.

(** The row an instance is written to. *)
Definition row (k : pk) (self : schedule_instance) : schedule :=
  {| sch_pk := k; sch_cleaners_per_date := si_cleaners_per_date self;
     sch_frequency := si_frequency self; sch_disabled := si_disabled self |}.

(** [save]: [today] is the date the clock shows.  The instance keeps the
    [previous_] attributes it was built with. *)
Definition save (today : Time.date) (st : db) (self : schedule_instance)
    : schedule_instance * db :=
  let (k, st) := match si_pk self with
                 | Some k => (k, st)
                 | None => next_pk st
                 end in
  let st := with_schedules (save_row sch_pk (row k self) (schedules st)) st in
  let self := {| si_pk := Some k; si_cleaners_per_date := si_cleaners_per_date self;
                 si_frequency := si_frequency self; si_disabled := si_disabled self;
                 previous_cleaners_per_date := previous_cleaners_per_date self;
                 previous_frequency := previous_frequency self |} in
  if negb (previous_frequency self =? si_frequency self)
     || negb (previous_cleaners_per_date self =? si_cleaners_per_date self)
  then
    (self,
     fold_left (fun st x => snd (CleaningWeek.set_assignments_valid_field st x false))
       (List.filter (fun c => Time.current_epoch_week today <? cw_week c)
          (cleaningweek_set st k))
       st)
  else (self, st).

(** [while self.create_assignment(week=week): pass].  An [Assignment] is
    true, [False] ends the loop and an exception leaves it.  The draw of the
    generator in the n-th call is [rnd n]; [fuel] bounds the number of
    calls, and [None] says that the bound was reached. *)
Fixpoint while_create_assignment (fuel : nat) (rnd : nat -> nat) (calls : nat) (st : db)
    (self : schedule) (week : Z) : option (result unit * (nat * db)) :=
  match fuel with
  | O => None
  | S fuel =>
      match create_assignment (rnd calls) st self week with
      | (Raise e, st) => Some (Raise e, (S calls, st))
      | (Ok ReturnFalse, st) => Some (Ok tt, (S calls, st))
      | (Ok (ReturnAssignment _), st) =>
          while_create_assignment fuel rnd (S calls) st self week
      end
  end.

(** [for week in range(min_week, max_week + 1)] *)
Fixpoint for_week (fuel : nat) (rnd : nat -> nat) (calls : nat) (st : db)
    (self : schedule) (weeks : list Z) : option (result unit * (nat * db)) :=
  match weeks with
  | [] => Some (Ok tt, (calls, st))
  | week :: weeks =>
      match while_create_assignment fuel rnd calls st self week with
      | None => None
      | Some (Raise e, s) => Some (Raise e, s)
      | Some (Ok _, (calls, st)) => for_week fuel rnd calls st self weeks
      end
  end.

Definition create_assignments_over_timespan (fuel : nat) (rnd : nat -> nat) (st : db)
    (self : schedule) (start_week end_week : Z) : option (result unit * (nat * db)) :=
  let min_week := Z.min start_week end_week in
  let max_week := Z.max start_week end_week in
  for_week fuel rnd 0 st self (range min_week (max_week + 1)).

End Schedule.

(** ** Affiliation *)

(** An [Affiliation] instance; [ai_pk] is [None] until the first save. *)
Record affiliation_instance := {
  ai_pk : option pk;
  ai_cleaner : pk;
  ai_group : pk;
  ai_beginning : Z;
  ai_end : Z;
  previous_beginning : Z;
  previous_end : Z }.

Module Affiliation.

Definition init (row : affiliation) : affiliation_instance :=
  {| ai_pk := Some (aff_pk row); ai_cleaner := aff_cleaner row; ai_group := aff_group row;
     ai_beginning := aff_beginning row; ai_end := aff_end row;
     previous_beginning := aff_beginning row; previous_end := aff_end row |}.

(** [Affiliation(cleaner=..., group=..., beginning=..., end=...)] *)
Definition new (cleaner group beginning end_ : Z) : affiliation_instance :=
  {| ai_pk := None; ai_cleaner := cleaner; ai_group := group;
     ai_beginning := beginning; ai_end := end_;
     previous_beginning := beginning; previous_end := end_ |}.

(** [field__range=(lo, hi)] is SQL's BETWEEN, inclusive at both ends. *)
Definition in_range (lo hi x : Z) : bool := (lo <=? x) && (x <=? hi).

Definition date_validator (st : db) (affiliation_pk : option pk) (cleaner : pk)
    (beginning end_ : Z) : result unit :=
  if end_ <? beginning then Raise (ValidationError EndBeforeBeginning)
  else
    let other_affiliations :=
      List.filter (fun a => aff_cleaner a =? cleaner) (affiliations st) in
    let other_affiliations :=
      match affiliation_pk with
      | Some k =>
          if k =? 0 then other_affiliations
          else List.filter (fun a => negb (aff_pk a =? k)) other_affiliations
      | None => other_affiliations
      end in
    if existsb (fun a => in_range beginning end_ (aff_beginning a)) other_affiliations
    then Raise (ValidationError BeginningOverlaps)
    else if existsb (fun a => in_range beginning end_ (aff_end a)) other_affiliations
    then Raise (ValidationError EndOverlaps)
    else Ok tt.

(** [set(a) ^ set(b)] on model instances, which compare by primary key.  The
    order in which a set is walked is not fixed; the elements of [a] come
    first here. *)
Definition symmetric_difference (a b : list cleaningweek) : list cleaningweek :=
  List.filter (fun x => negb (existsb (fun y => cw_pk y =? cw_pk x) b)) a
  ++ List.filter (fun y => negb (existsb (fun x => cw_pk x =? cw_pk y) a)) b.

Definition cleaning_weeks_invalidated (st : db) (self : affiliation_instance)
    : list cleaningweek :=
  let min_beginning := Z.min (previous_beginning self) (ai_beginning self) in
  let max_beginning := Z.max (previous_beginning self) (ai_beginning self) in
  let beginning_affects :=
    List.filter (fun c => negb (cw_week c =? max_beginning))
      (List.filter (fun c => in_range min_beginning max_beginning (cw_week c))
         (cleaningweeks st)) in
  let min_end := Z.min (previous_end self) (ai_end self) in
  let max_end := Z.max (previous_end self) (ai_end self) in
  let end_affects :=
    List.filter (fun c => negb (cw_week c =? min_end))
      (List.filter (fun c => in_range min_end max_end (cw_week c))
         (cleaningweeks st)) in
  symmetric_difference beginning_affects end_affects.

Definition row (k : pk) (self : affiliation_instance) : affiliation :=
  {| aff_pk := k; aff_cleaner := ai_cleaner self; aff_group := ai_group self;
     aff_beginning := ai_beginning self; aff_end := ai_end self |}.

Definition save (st : db) (self : affiliation_instance)
    : result affiliation_instance * db :=
  match date_validator st (ai_pk self) (ai_cleaner self) (ai_beginning self) (ai_end self) with
  | Raise e => (Raise e, st)
  | Ok _ =>
      let st :=
        if negb (previous_beginning self =? ai_beginning self)
           || negb (previous_end self =? ai_end self)
        then
          fold_left (fun st cleaning_week =>
                       snd (CleaningWeek.set_assignments_valid_field st cleaning_week false))
            (cleaning_weeks_invalidated st self) st
        else st in
      let (k, st) := match ai_pk self with
                     | Some k => (k, st)
                     | None => next_pk st
                     end in
      let st := with_affiliations (save_row aff_pk (row k self) (affiliations st)) st in
      (Ok {| ai_pk := Some k; ai_cleaner := ai_cleaner self; ai_group := ai_group self;
             ai_beginning := ai_beginning self; ai_end := ai_end self;
             previous_beginning := previous_beginning self;
             previous_end := previous_end self |}, st)
  end.

End Affiliation.

(** ** TaskTemplate *)

(** A [TaskTemplate] instance; [previous_disabled] is written by [__init__]. *)
Record tasktemplate_instance := {
  tti_pk : option pk;
  tti_schedule : pk;
  tti_task_disabled : bool;
  previous_disabled : bool }.

Module TaskTemplate.

Definition init (row : tasktemplate) : tasktemplate_instance :=
  {| tti_pk := Some (tt_pk row); tti_schedule := tt_schedule row;
     tti_task_disabled := tt_task_disabled row;
     previous_disabled := tt_task_disabled row |}.

(** Assigning [self.task_disabled = value]. *)
Definition set_task_disabled (self : tasktemplate_instance) (value : bool)
    : tasktemplate_instance :=
  {| tti_pk := tti_pk self; tti_schedule := tti_schedule self;
     tti_task_disabled := value; previous_disabled := previous_disabled self |}.

Definition row (k : pk) (self : tasktemplate_instance) : tasktemplate :=
  {| tt_pk := k; tt_schedule := tti_schedule self;
     tt_task_disabled := tti_task_disabled self |}.

Definition save (today : Time.date) (st : db) (self : tasktemplate_instance)
    : tasktemplate_instance * db :=
  let (k, st) := match tti_pk self with
                 | Some k => (k, st)
                 | None => next_pk st
                 end in
  let st := with_tasktemplates (save_row tt_pk (row k self) (tasktemplates st)) st in
  let self := {| tti_pk := Some k; tti_schedule := tti_schedule self;
                 tti_task_disabled := tti_task_disabled self;
                 previous_disabled := previous_disabled self |} in
  if negb (Bool.eqb (previous_disabled self) (tti_task_disabled self))
  then
    (self,
     fold_left (fun st x => snd (CleaningWeek.set_tasks_valid_field st x false))
       (List.filter (fun c => Time.current_epoch_week today <? cw_week c)
          (Schedule.cleaningweek_set st (tti_schedule self)))
       st)
  else (self, st).

End TaskTemplate.

(** ** DutySwitch *)

(** A [DutySwitch] instance.  [requester_assignment] and
    [acceptor_assignment] are the [Assignment] objects the instance holds;
    [previous_acceptor] is [__previous_acceptor], written by [__init__]
    only. *)
Record dutyswitch_instance := {
  dsi_pk : option pk;
  requester_assignment : assignment;
  acceptor_assignment : option assignment;
  previous_acceptor : option assignment }.

Module AssignmentQuerySet.

Definition eligible_switching_destination_candidates (st : db)
    (source_assignment : assignment) : result (list assignment) :=
  match cleaning_week_of st source_assignment with
  | None => Raise DoesNotExist
  | Some source_week =>
      Ok (List.filter (fun a =>
            negb (bool_decide ((asg_cleaning_week a, asg_cleaner source_assignment)
                                 ∈ cleaningweek_excluded st)))
            (List.filter (cleaning_week__week st (fun w => cw_week source_week <? w))
               (List.filter (fun a => asg_schedule a =? asg_schedule source_assignment)
                  (assignments st))))
  end.

End AssignmentQuerySet.

Module DutySwitchQuerySet.

(** The lookup [requester_assignment__schedule=schedule]. *)
Definition requester_assignment__schedule (st : db) (schedule : pk) (d : dutyswitch) : bool :=
  match find (fun a => asg_pk a =? ds_requester_assignment d) (assignments st) with
  | Some a => asg_schedule a =? schedule
  | None => false
  end.

(** [open] and [closed]; [schedule] is [None] or a [Schedule], which is
    true. *)
Definition open (st : db) (schedule : option pk) : list dutyswitch :=
  let unaccepted :=
    List.filter (fun d => match ds_acceptor_assignment d with None => true | Some _ => false end)
      (dutyswitches st) in
  match schedule with
  | Some schedule => List.filter (requester_assignment__schedule st schedule) unaccepted
  | None => unaccepted
  end.

Definition closed (st : db) (schedule : option pk) : list dutyswitch :=
  let accepted :=
    List.filter
      (fun d => negb (match ds_acceptor_assignment d with None => true | Some _ => false end))
      (dutyswitches st) in
  match schedule with
  | Some schedule => List.filter (requester_assignment__schedule st schedule) accepted
  | None => accepted
  end.

End DutySwitchQuerySet.

Module DutySwitch.

(** [__init__] with keyword arguments. *)
Definition new (requester : assignment) (acceptor : option assignment)
    : dutyswitch_instance :=
  {| dsi_pk := None; requester_assignment := requester;
     acceptor_assignment := acceptor; previous_acceptor := acceptor |}.

Definition find_assignment (st : db) (k : pk) : option assignment :=
  find (fun a => asg_pk a =? k) (assignments st).

(** [__init__] on a row read from the store: the related assignments are
    fetched through the foreign keys. *)
Definition init (st : db) (row : dutyswitch) : result dutyswitch_instance :=
  match find_assignment st (ds_requester_assignment row) with
  | None => Raise DoesNotExist
  | Some requester =>
      match ds_acceptor_assignment row with
      | None =>
          Ok {| dsi_pk := Some (ds_pk row); requester_assignment := requester;
                acceptor_assignment := None; previous_acceptor := None |}
      | Some k =>
          match find_assignment st k with
          | None => Raise DoesNotExist
          | Some acceptor =>
              Ok {| dsi_pk := Some (ds_pk row); requester_assignment := requester;
                    acceptor_assignment := Some acceptor;
                    previous_acceptor := Some acceptor |}
          end
      end
  end.

(** Assigning [self.acceptor_assignment = a]. *)
Definition set_acceptor_assignment (self : dutyswitch_instance) (a : option assignment)
    : dutyswitch_instance :=
  {| dsi_pk := dsi_pk self; requester_assignment := requester_assignment self;
     acceptor_assignment := a; previous_acceptor := previous_acceptor self |}.

Definition possible_acceptors (st : db) (self : dutyswitch_instance)
    : result (list assignment) :=
  match AssignmentQuerySet.eligible_switching_destination_candidates st
          (requester_assignment self) with
  | Raise e => Raise e
  | Ok candidates =>
      Ok (List.filter (fun a =>
            negb (asg_cleaner a =? asg_cleaner (requester_assignment self)))
            candidates)
  end.

Definition with_cleaner (a : assignment) (cleaner : pk) : assignment :=
  {| asg_pk := asg_pk a; asg_cleaner := cleaner;
     asg_cleaning_week := asg_cleaning_week a; asg_schedule := asg_schedule a |}.

Definition row (k : pk) (self : dutyswitch_instance) : dutyswitch :=
  {| ds_pk := k; ds_requester_assignment := asg_pk (requester_assignment self);
     ds_acceptor_assignment := option_map asg_pk (acceptor_assignment self) |}.

(** The body of the [if] of [save]. *)
Definition swap (st : db) (self : dutyswitch_instance) (acceptor : assignment)
    : dutyswitch_instance * db :=
  let requester := requester_assignment self in
  let st := with_cleaningweek_excluded
              ({[ (asg_cleaning_week requester, asg_cleaner requester) ]}
               ∪ cleaningweek_excluded st) st in
  let source_cleaner := asg_cleaner requester in
  let requester := with_cleaner requester (asg_cleaner acceptor) in
  let st := Assignment.save st requester in
  let acceptor := with_cleaner acceptor source_cleaner in
  let st := Assignment.save st acceptor in
  ({| dsi_pk := dsi_pk self; requester_assignment := requester;
      acceptor_assignment := Some acceptor;
      previous_acceptor := previous_acceptor self |}, st).

(** [super().save(...)] *)
Definition super_save (st : db) (self : dutyswitch_instance) : dutyswitch_instance * db :=
  let (k, st) := match dsi_pk self with
                 | Some k => (k, st)
                 | None => next_pk st
                 end in
  ({| dsi_pk := Some k; requester_assignment := requester_assignment self;
      acceptor_assignment := acceptor_assignment self;
      previous_acceptor := previous_acceptor self |},
   with_dutyswitches (save_row ds_pk (row k self) (dutyswitches st)) st).

Definition save (st : db) (self : dutyswitch_instance) : dutyswitch_instance * db :=
  let (self, st) :=
    match previous_acceptor self, acceptor_assignment self with
    | None, Some acceptor => swap st self acceptor
    | _, _ => (self, st)
    end in
  super_save st self.

End DutySwitch.

(** ** Methods that read the days of tasks *)

(** [CleaningWeek.tasks_are_ready_to_be_done] and the methods of
    [Assignment] that go through it.  They call [Task], which calls
    [CleaningWeek], so they come after both. *)
Module AssignmentDates.

(** The loop [for task in self.task_set.all()] of
    [CleaningWeek.tasks_are_ready_to_be_done]: it returns at the first open
    task whose time has come. *)
Fixpoint for_task (tz : Time.timezone) (days : day_columns) (today : Time.date) (st : db)
    (tasks : list task) : result bool :=
  match tasks with
  | [] => Ok false
  | task :: tasks =>
      bind (Task.my_time_has_come tz days today st task) (fun come =>
      if come && match task_cleaned_by task with None => true | Some _ => false end
      then Ok true
      else for_task tz days today st tasks)
  end.

Definition tasks_are_ready_to_be_done (tz : Time.timezone) (days : day_columns)
    (today : Time.date) (st : db) (self : cleaningweek) : result bool :=
  for_task tz days today st (CleaningWeek.task_set st self).

(** Following the foreign key [assignment.cleaning_week]. *)
Definition cleaning_week (st : db) (self : assignment) : result cleaningweek :=
  match cleaning_week_of st self with
  | Some c => Ok c
  | None => Raise DoesNotExist
  end.

(** [Assignment.assignment_date] *)
Definition assignment_date (tz : Time.timezone) (days : day_columns) (st : db)
    (self : assignment) : result Time.date :=
  bind (cleaning_week st self) (CleaningWeek.assignment_date tz days).

(** [Assignment.has_passed]: [and] asks for the tasks only when the date
    lies before today. *)
Definition has_passed (tz : Time.timezone) (days : day_columns) (today : Time.date) (st : db)
    (self : assignment) : result bool :=
  bind (assignment_date tz days st self) (fun date =>
  if date <? today
  then bind (cleaning_week st self) (fun cw =>
       bind (tasks_are_ready_to_be_done tz days today st cw) (fun ready =>
       Ok (negb ready)))
  else Ok false).

End AssignmentDates.

(** [Cleaner.switchable_assignments_for_request] and
    [Cleaner.can_accept_duty_switch_request]; they call [DutySwitch] and
    [Assignment.has_passed]. *)
Module CleanerSwitching.

Definition switchable_assignments_for_request (tz : Time.timezone) (days : day_columns)
    (today : Time.date) (st : db) (self : pk) (duty_switch : dutyswitch_instance)
    (look_weeks_into_future : Z) : result (list assignment) :=
  bind (AssignmentDates.has_passed tz days today st
          (requester_assignment duty_switch)) (fun passed =>
  if passed then Ok []
  else
    let from_week := Time.current_epoch_week today in
    let schedule_from_request := asg_schedule (requester_assignment duty_switch) in
    bind (AssignmentDates.cleaning_week st (requester_assignment duty_switch)) (fun cw =>
    let week_from_request := cw_week cw in
    bind (Cleaner.affiliation_in_week st self week_from_request)
      (fun own_affiliation_during_request_week =>
    match own_affiliation_during_request_week with
    | None => Ok []
    | Some own =>
        if negb (bool_decide ((aff_group own, schedule_from_request)
                                ∈ schedulegroup_schedules st))
        then Ok []
        else
          bind (DutySwitch.possible_acceptors st duty_switch) (fun requested =>
          Ok (List.filter (fun a =>
                (asg_cleaner a =? self)
                && cleaning_week__week st
                     (Affiliation.in_range from_week (from_week + look_weeks_into_future)) a)
                requested))
    end))).

Definition can_accept_duty_switch_request (tz : Time.timezone) (days : day_columns)
    (today : Time.date) (st : db) (self : pk) (duty_switch : dutyswitch_instance)
    : result bool :=
  bind (switchable_assignments_for_request tz days today st self duty_switch 12)
    (fun switchable => Ok (negb (Z.of_nat (length switchable) =? 0))).

End CleanerSwitching.

(** ** Vocabulary of the statements *)

(** What a swap makes of the row [y] of the assignments: the acceptor's row
    gets the requester's cleaner, the requester's row the acceptor's. *)
Definition swap_row (requester acceptor y : assignment) : assignment :=
  if asg_pk y =? asg_pk acceptor
  then DutySwitch.with_cleaner acceptor (asg_cleaner requester)
  else if asg_pk y =? asg_pk requester
  then DutySwitch.with_cleaner requester (asg_cleaner acceptor)
  else y.

(** The assignment [x] in the hands of [cleaner]: the row with the primary
    key, the cleaning week and the schedule of [x]. *)
Definition held_by (x : assignment) (cleaner : pk) : assignment :=
  {| asg_pk := asg_pk x; asg_cleaner := cleaner;
     asg_cleaning_week := asg_cleaning_week x; asg_schedule := asg_schedule x |}.

(** Marking a cleaning week: [assignments_valid = False]. *)
Definition invalidated (c : cleaningweek) : cleaningweek :=
  {| cw_pk := cw_pk c; cw_week := cw_week c; cw_schedule := cw_schedule c;
     cw_tasks_valid := cw_tasks_valid c; cw_assignments_valid := false;
     cw_disabled := cw_disabled c |}.


(** The weeks an affiliation change [b0, e0] to [b1, e1] touches: the
    symmetric difference of [min b0 b1, max b0 b1) and (min e0 e1, max e0 e1]. *)
Definition in_beginning_window (b0 b1 w : Z) : bool :=
  (Z.min b0 b1 <=? w) && (w <? Z.max b0 b1).

Definition in_end_window (e0 e1 w : Z) : bool :=
  (Z.min e0 e1 <? w) && (w <=? Z.max e0 e1).

Definition in_changed_weeks (b0 e0 b1 e1 w : Z) : bool :=
  xorb (in_beginning_window b0 b1 w) (in_end_window e0 e1 w).

(** Marking a cleaning week: [tasks_valid = False]. *)
Definition tasks_invalidated (c : cleaningweek) : cleaningweek :=
  {| cw_pk := cw_pk c; cw_week := cw_week c; cw_schedule := cw_schedule c;
     cw_tasks_valid := false; cw_assignments_valid := cw_assignments_valid c;
     cw_disabled := cw_disabled c |}.

(** [create_assignment] in two steps.  First the cleaning week of the week
    is fetched or created and brought up to date: its missing tasks are
    created, its assignments deleted when they are not valid. *)
Definition prepare_week (st : db) (self : schedule) (week : Z) : result cleaningweek * db :=
  match Schedule.get_or_create st self week with
  | (Raise e, st) => (Raise e, st)
  | (Ok cleaning_week, st) =>
      let (cleaning_week, st) :=
        if negb (cw_tasks_valid cleaning_week)
        then CleaningWeek.create_missing_tasks st cleaning_week
        else (cleaning_week, st) in
      let (cleaning_week, st) :=
        if negb (cw_assignments_valid cleaning_week)
        then
          let st := Assignment.delete st
                      (fun a => asg_cleaning_week a =? cw_pk cleaning_week) in
          CleaningWeek.set_assignments_valid_field st cleaning_week true
        else (cleaning_week, st) in
      (Ok cleaning_week, st)
  end.

(** Then, when the cleaning week has a free place, a cleaner is chosen and
    assigned. *)
Definition assign_cleaner (rnd : nat) (st : db) (self : schedule) (week : Z)
    (cleaning_week : cleaningweek) : result returned * db :=
  if sch_cleaners_per_date self <=? count (CleaningWeek.assignment_set st cleaning_week)
  then (Ok ReturnFalse, st)
  else
    match Schedule.deployment_ratios st self week with
    | Raise e => (Raise e, st)
    | Ok [] => (Ok ReturnFalse, st)
    | Ok (((first, _) :: _) as ratios) =>
        match Schedule.for_same_ratio rnd st cleaning_week week
                (Schedule.grouped_by_ratios ratios) with
        | Some (Ok choice) =>
            let (a, st) := Schedule.assignment_set_create st self choice cleaning_week in
            (Ok (ReturnAssignment a), st)
        | Some (Raise e) => (Raise e, st)
        | None =>
            let (a, st) := Schedule.assignment_set_create st self first cleaning_week in
            (Ok (ReturnAssignment a), st)
        end
    end.

(** The cleaners whose ratio is the lowest of a list of ratios, and those
    among them who have the fewest assignments in the week. *)
Definition lowest_ratio (ratios : list (pk * Q)) (x : pk) : Prop :=
  exists q, In (x, q) ratios /\ forall y q', In (y, q') ratios -> (q <= q')%Q.

Definition fewest_assignments (st : db) (week : Z) (ratios : list (pk * Q)) (x : pk) : Prop :=
  lowest_ratio ratios x
  /\ forall y, lowest_ratio ratios y ->
       Cleaner.nr_assignments_in_week st x week <= Cleaner.nr_assignments_in_week st y week.

(** The cleaning week [c] is in the store, and it is the only one of its
    schedule and week. *)
Definition only_week (st : db) (c : cleaningweek) : Prop :=
  In c (cleaningweeks st)
  /\ forall r, In r (cleaningweeks st) ->
       cw_schedule r = cw_schedule c -> cw_week r = cw_week c -> r = c.

(** Two stores with the same affiliations, groups and exclusions. *)
Definition same_people (st st' : db) : Prop :=
  affiliations st' = affiliations st
  /\ schedulegroup_schedules st' = schedulegroup_schedules st
  /\ cleaningweek_excluded st' = cleaningweek_excluded st.

(** ** Example stores *)

Module Examples.

(** Time zones.  A zone at a fixed offset from UTC has no daylight-saving
    time. *)
Definition fixed_offset (offset : Z) : Time.timezone :=
  {| Time.utcoffset := fun _ => offset;
     Time.mktime_offset := fun _ _ => offset;
     Time.mktime_near := fun _ _ => ltac:(lia) |}.


(** Europe/Berlin with the daylight-saving period of 2025: CEST (UTC+2,
    [tm_isdst = 1]) from 2025-03-30 01:00 UTC to 2025-10-26 01:00 UTC, CET
    (UTC+1, [tm_isdst = 0]) otherwise.  For a tuple with [tm_isdst = -1],
    [mktime] takes the offset in force at the local time. *)
Definition berlin_dst (ts : Z) : bool := (1743296400 <=? ts) && (ts <? 1761440400).

Definition berlin : Time.timezone :=
  {| Time.utcoffset := fun ts => if berlin_dst ts then 7200 else 3600;
     Time.mktime_offset := fun isdst local =>
       if isdst =? 0 then 3600
       else if 0 <? isdst then 7200
       else if berlin_dst (local - 7200) then 7200 else 3600;
     Time.mktime_near := fun isdst local =>
       ltac:(cbv beta;
             repeat match goal with
                    | |- context [if ?b then _ else _] => destruct b
                    end; lia) |}.

(** Europe/Dublin around the winter of 2024/25.  Irish Standard Time (UTC+1,
    [tm_isdst = 0]) is the time of the summer; in winter, from 2024-10-27
    01:00 UTC to 2025-03-30 01:00 UTC, the zone is on GMT, which its rules
    flag as daylight-saving time ([tm_isdst = 1]) with a negative shift. *)
Definition dublin_winter (ts : Z) : bool := (1729990800 <=? ts) && (ts <? 1743296400).

Definition dublin : Time.timezone :=
  {| Time.utcoffset := fun ts => if dublin_winter ts then 0 else 3600;
     Time.mktime_offset := fun isdst local =>
       if isdst =? 0 then 3600
       else if 0 <? isdst then 0
       else if dublin_winter local then 0 else 3600;
     Time.mktime_near := fun isdst local =>
       ltac:(cbv beta;
             repeat match goal with
                    | |- context [if ?b then _ else _] => destruct b
                    end; lia) |}.

Definition store (sch : list schedule) (grp : gset (pk * pk)) (aff : list affiliation)
    (cws : list cleaningweek) (exc : gset (pk * pk)) (asg : list assignment) : db :=
  {| schedules := sch; schedulegroup_schedules := grp; affiliations := aff;
     cleaningweeks := cws; cleaningweek_excluded := exc; assignments := asg;
     tasktemplates := []; tasks := []; dutyswitches := []; sequence := 100 |}.

Definition weekly (k : pk) : schedule :=
  {| sch_pk := k; sch_cleaners_per_date := 1; sch_frequency := 1; sch_disabled := false |}.

Definition occurrence (k : pk) (week : Z) (schedule : pk) (valid : bool) : cleaningweek :=
  {| cw_pk := k; cw_week := week; cw_schedule := schedule; cw_tasks_valid := true;
     cw_assignments_valid := valid; cw_disabled := false |}.

Definition member (k cleaner beginning end_ : Z) : affiliation :=
  {| aff_pk := k; aff_cleaner := cleaner; aff_group := 1;
     aff_beginning := beginning; aff_end := end_ |}.

(** Two occurrences of schedule 1, in weeks 10 and 14, held by cleaners 7
    and 8; an occurrence of schedule 2 in week 9, held by cleaner 7, from
    which cleaner 7 is excluded. *)
Definition requester : assignment :=
  {| asg_pk := 1; asg_cleaner := 7; asg_cleaning_week := 1; asg_schedule := 1 |}.
Definition acceptor : assignment :=
  {| asg_pk := 2; asg_cleaner := 8; asg_cleaning_week := 2; asg_schedule := 1 |}.
Definition ineligible : assignment :=
  {| asg_pk := 3; asg_cleaner := 7; asg_cleaning_week := 3; asg_schedule := 2 |}.

Definition switching : db :=
  store [weekly 1; weekly 2] {[ (1, 1); (1, 2) ]} [member 1 7 0 100; member 2 8 0 100]
    [occurrence 1 10 1 true; occurrence 2 14 1 true; occurrence 3 9 2 true]
    {[ (3, 7) ]}
    [requester; acceptor; ineligible].

(** The switch is opened, then the acceptor is set. *)
Definition open_switch : dutyswitch_instance := DutySwitch.new requester None.
Definition accepted_switch : dutyswitch_instance :=
  DutySwitch.set_acceptor_assignment open_switch (Some acceptor).

(** Cleaner 7 is the only member and is excluded from the occurrence of
    week 5, which has no assignment yet. *)
Definition all_excluded : db :=
  store [weekly 1] {[ (1, 1) ]} [member 1 7 0 100]
    [occurrence 1 5 1 true] {[ (1, 7) ]} [].

(** Cleaners 7 and 8 have the same ratio for schedule 1.  In week 5 cleaner
    8 already cleans for schedule 2 and cleaner 7, who has no assignment that
    week, is excluded from the occurrence of schedule 1. *)
Definition fewest_excluded : db :=
  store [weekly 1; weekly 2] {[ (1, 1); (1, 2) ]} [member 1 7 0 100; member 2 8 0 100]
    [occurrence 1 5 1 true; occurrence 2 5 2 true] {[ (1, 7) ]}
    [ {| asg_pk := 1; asg_cleaner := 8; asg_cleaning_week := 2; asg_schedule := 2 |} ].

(** Cleaner 7 is affiliated in weeks 1 to 10 and for weeks 20 to 30. *)
Definition affiliated : db :=
  store [weekly 1] {[ (1, 1) ]} [member 1 7 1 10; member 2 7 20 30] [] ∅ [].

(** The clock: day 697 lies in epoch week 100. *)
Definition today : Time.date := 697.

(** An affiliation for weeks 5 to 10 whose beginning is moved to week 3,
    with valid occurrences in weeks 4 and 7. *)
Definition moved_in : db :=
  store [weekly 1] {[ (1, 1) ]} [member 1 7 5 10]
    [occurrence 1 4 1 true; occurrence 2 7 1 true] ∅ [].
Definition begins_earlier : affiliation_instance :=
  {| ai_pk := Some 1; ai_cleaner := 7; ai_group := 1; ai_beginning := 3; ai_end := 10;
     previous_beginning := 5; previous_end := 10 |}.

(** A weekly schedule that is changed to even weeks, with valid occurrences
    in the weeks 99, 100 and 101. *)
Definition around_today : db :=
  store [weekly 1] {[ (1, 1) ]} [member 1 7 0 200]
    [occurrence 1 99 1 true; occurrence 2 100 1 true; occurrence 3 101 1 true] ∅ [].
Definition now_even_weeks : schedule_instance :=
  {| si_pk := Some 1; si_cleaners_per_date := 1; si_frequency := 2; si_disabled := false;
     previous_cleaners_per_date := 1; previous_frequency := 1 |}.

(** The occurrence of week 5 is stale: it holds an assignment of cleaner 8,
    cleaner 8 is excluded from it, and one of its tasks is done. *)
Definition stale : db :=
  {| schedules := [weekly 1]; schedulegroup_schedules := {[ (1, 1) ]};
     affiliations := [member 1 7 0 100; member 2 8 0 100];
     cleaningweeks := [occurrence 1 5 1 false];
     cleaningweek_excluded := {[ (1, 8) ]};
     assignments := [ {| asg_pk := 1; asg_cleaner := 8; asg_cleaning_week := 1;
                         asg_schedule := 1 |} ];
     tasktemplates := [ {| tt_pk := 1; tt_schedule := 1; tt_task_disabled := false |} ];
     tasks := [ {| task_pk := 1; task_cleaning_week := 1; task_cleaned_by := Some 8;
                   task_template := 1 |} ];
     dutyswitches := []; sequence := 100 |}.

(** Recomputing the stale occurrence assigns cleaner 7, who is not
    excluded. *)
Definition assigned : assignment :=
  {| asg_pk := 100; asg_cleaner := 7; asg_cleaning_week := 1; asg_schedule := 1 |}.
Definition after_assignment : db :=
  snd (Schedule.create_assignment 0 stale (weekly 1) 5).

(** Schedule 1 of the stale store, changed to even weeks: its occurrence of
    week 5 should not be there. *)
Definition even_weeks : schedule :=
  {| sch_pk := 1; sch_cleaners_per_date := 1; sch_frequency := 2; sch_disabled := false |}.

Definition odd_weeks : schedule :=
  {| sch_pk := 2; sch_cleaners_per_date := 1; sch_frequency := 3; sch_disabled := false |}.

(** The task template of the stale store is disabled in epoch week 4 (day
    30). *)
Definition now_disabled : tasktemplate_instance :=
  TaskTemplate.set_task_disabled
    (TaskTemplate.init {| tt_pk := 1; tt_schedule := 1; tt_task_disabled := false |}) true.

(** The switch of the switching store as it is stored once it is closed. *)
Definition closed_row : dutyswitch :=
  {| ds_pk := 1; ds_requester_assignment := 1; ds_acceptor_assignment := Some 2 |}.

(** Schedule 1 repeats on Sundays; the task of template 1 may be started two
    days before and finished one day after. *)
Definition sundays : day_columns :=
  {| schedule_weekday := fun _ => 6;
     tasktemplate_start_days_before := fun _ => 2;
     tasktemplate_end_days_after := fun _ => 1 |}.

(** The task of template 1 in the weeks 5 and 6 of schedule 1. *)
Definition this_task : task :=
  {| task_pk := 1; task_cleaning_week := 1; task_cleaned_by := None; task_template := 1 |}.
Definition next_task : task :=
  {| task_pk := 2; task_cleaning_week := 2; task_cleaned_by := None; task_template := 1 |}.
Definition two_weeks : db :=
  {| schedules := [weekly 1]; schedulegroup_schedules := {[ (1, 1) ]};
     affiliations := [member 1 7 0 100];
     cleaningweeks := [occurrence 1 5 1 true; occurrence 2 6 1 true];
     cleaningweek_excluded := ∅; assignments := [];
     tasktemplates := [ {| tt_pk := 1; tt_schedule := 1; tt_task_disabled := false |} ];
     tasks := [this_task; next_task];
     dutyswitches := []; sequence := 100 |}.

(** An assignment of cleaner 8 that is no possible acceptor for the
    requester: it is of schedule 2, in week 9, and the requester's cleaner is
    excluded from its cleaning week. *)
Definition unfit : assignment :=
  {| asg_pk := 4; asg_cleaner := 8; asg_cleaning_week := 3; asg_schedule := 2 |}.
Definition switching_with_unfit : db :=
  with_assignments (assignments switching ++ [unfit]) switching.


End Examples.

(** ** Facts about the time model *)

Lemma int_of_Q_frac (q : Q) (n : Z) (p : positive) :
  (q == n # p)%Q -> int_of_Q q = Z.quot n (Zpos p).
Proof.
  unfold Qeq, int_of_Q. cbn [Qnum Qden]. intros E.
  rewrite <- (Z.quot_mul_cancel_r (Qnum q) (Zpos (Qden q)) (Zpos p)) by lia.
  rewrite <- (Z.quot_mul_cancel_r n (Zpos p) (Zpos (Qden q))) by lia.
  rewrite E. f_equal. lia.
Qed.

Lemma date_to_epoch_week_quot (d : Time.date) :
  Time.date_to_epoch_week d = Z.quot (d + 3) 7.
Proof.
  unfold Time.date_to_epoch_week, Time.timegm, Time.timetuple. cbn [Time.tm_day Time.tm_sec_of_day].
  apply int_of_Q_frac.
  rewrite Z.add_0_r, inject_Z_mult.
  assert (E : ((d + 3) # 7 == inject_Z (d + 3) / 7)%Q)
    by (unfold Qeq; cbn; lia).
  rewrite E, inject_Z_plus. field.
Qed.

(** [mktime] and [localtime] on the midnight of a day: the date is the day,
    moved by the whole days the local clock is ahead of the tuple. *)
Lemma fromtimestamp_mktime_gmtime (tz : Time.timezone) (day : Z) :
  Time.fromtimestamp tz (Time.mktime tz (Time.gmtime (day * 86400)))
  = let d := day + Time.ahead tz (day * 86400) / 86400 in
    if Time.valid_date d then Ok d else Raise ValueError.
Proof.
  unfold Time.fromtimestamp, Time.ahead. cbv zeta.
  set (ts := Time.mktime tz (Time.gmtime (day * 86400))).
  replace ((ts + Time.utcoffset tz ts) / 86400)
    with (day + (ts + Time.utcoffset tz ts - day * 86400) / 86400); [reflexivity|].
  rewrite <- Z.div_add_l by lia. f_equal. lia.
Qed.

(** The local clock is less than a day away from the tuple. *)
Lemma ahead_bounds (tz : Time.timezone) (seconds : Z) :
  -86400 < Time.ahead tz seconds < 86400.
Proof.
  unfold Time.ahead, Time.mktime, Time.gmtime.
  cbn [Time.tm_day Time.tm_sec_of_day Time.tm_isdst].
  pose proof (Z.div_mod seconds 86400 ltac:(lia)) as E.
  replace (seconds / 86400 * 86400 + seconds mod 86400) with seconds by lia.
  pose proof (Time.mktime_near tz 0 seconds). lia.
Qed.

(** So the date falls on the day or on the day before it. *)
Lemma ahead_days (tz : Time.timezone) (seconds : Z) :
  Time.ahead tz seconds / 86400 = 0 \/ Time.ahead tz seconds / 86400 = -1.
Proof.
  pose proof (ahead_bounds tz seconds) as B.
  destruct (Z.le_gt_cases 0 (Time.ahead tz seconds)) as [H|H].
  - left. apply Z.div_small. lia.
  - right. symmetry.
    apply (Z.div_unique (Time.ahead tz seconds) 86400 (-1)
             (Time.ahead tz seconds + 86400)); lia.
Qed.

Lemma epoch_week_to_monday_shift (tz : Time.timezone) (week : Z) :
  Time.epoch_week_to_monday tz week
  = let d := 7 * week - 3 + Time.ahead tz ((7 * week - 3) * 86400) / 86400 in
    if Time.valid_date d then Ok d else Raise ValueError.
Proof.
  unfold Time.epoch_week_to_monday.
  replace ((week * 7 - 3) * 24 * 60 * 60) with ((7 * week - 3) * 86400) by lia.
  apply fromtimestamp_mktime_gmtime.
Qed.



(** The Monday of week [w] is day [7 * w - 3]; on dates from that of week 0
    on, [date_to_epoch_week] is the floor of [(d + 3) / 7]. *)
Lemma date_to_epoch_week_floor (d : Time.date) :
  -3 <= d -> Time.date_to_epoch_week d = (d + 3) / 7.
Proof.
  intros H. rewrite date_to_epoch_week_quot. apply Z.quot_div_nonneg; lia.
Qed.

(** A zone at a fixed offset keeps the tuple; Europe/Berlin is an hour ahead
    of it in summer. *)
Lemma fixed_offset_not_behind (offset : Z) :
  Time.clock_not_behind (Examples.fixed_offset offset).
Proof.
  intros seconds. unfold Time.ahead, Time.mktime, Time.gmtime. cbn.
  pose proof (Z.div_mod seconds 86400 ltac:(lia)). lia.
Qed.





(** It also fails, for every week of the winter, in a zone whose winter time
    is flagged as daylight-saving time: in Europe/Dublin
    [epoch_week_to_monday 2870] is Sunday 2024-12-29 (day 20086), a day of
    week 2869, and not Monday 2024-12-30. *)
Lemma epoch_week_to_monday_is_sunday_in_dublin :
  Time.epoch_week_to_monday Examples.dublin 2870 = Ok 20086
  /\ Time.weekday 20086 = 6
  /\ Time.date_to_epoch_week 20086 = 2869
  /\ Time.ahead Examples.dublin ((7 * 2870 - 3) * 86400) = -3600.
Proof. repeat split; vm_compute; reflexivity. Qed.

(** ** Facts about tables *)

Section Tables.

Context {R : Type} (key : R -> pk).

Lemma save_row_present (row : R) (table : list R) :
  (exists r, In r table /\ key r = key row) ->
  save_row key row table = map (fun r => if key r =? key row then row else r) table.
Proof.
  intros [r [Hin Hk]]. unfold save_row.
  replace (existsb (fun r0 => key r0 =? key row) table) with true; [reflexivity|].
  symmetry. apply existsb_exists. exists r. split; [assumption|]. now apply Z.eqb_eq.
Qed.

Lemma find_key_map (f : R -> R) (k : pk) (table : list R) :
  (forall r, key (f r) = key r) ->
  find (fun r => key r =? k) (map f table) = option_map f (find (fun r => key r =? k) table).
Proof.
  intros Hf. induction table as [|r table IH]; [reflexivity|].
  cbn. rewrite Hf. destruct (key r =? k); [reflexivity | exact IH].
Qed.

Lemma find_key_unique (x : R) (table : list R) :
  List.NoDup (map key table) -> In x table ->
  find (fun r => key r =? key x) table = Some x.
Proof.
  induction table as [|r table IH]; intros Hnd Hin; [contradiction|].
  cbn in *. apply NoDup_cons_iff in Hnd as [Hnot Hnd].
  destruct Hin as [-> | Hin].
  - now rewrite Z.eqb_refl.
  - destruct (Z.eqb_spec (key r) (key x)) as [E | _]; [|now apply IH].
    exfalso. apply Hnot. rewrite E. now apply in_map.
Qed.

Lemma key_unique (x y : R) (table : list R) :
  List.NoDup (map key table) -> In x table -> In y table -> key x = key y -> x = y.
Proof.
  intros Hnd Hx Hy E.
  pose proof (find_key_unique x table Hnd Hx) as Fx.
  pose proof (find_key_unique y table Hnd Hy) as Fy.
  rewrite E in Fx. congruence.
Qed.

End Tables.

(** ** The duty switch *)

Lemma swap_row_pk (r a y : assignment) : asg_pk (swap_row r a y) = asg_pk y.
Proof.
  unfold swap_row.
  destruct (Z.eqb_spec (asg_pk y) (asg_pk a)) as [E|_]; [now rewrite E|].
  destruct (Z.eqb_spec (asg_pk y) (asg_pk r)) as [E|_]; [now rewrite E|reflexivity].
Qed.

(** The body of the [if] of [DutySwitch.save], on assignments held by the
    store: the exclusion is recorded and the two rows are rewritten. *)
Lemma swap_tables (st : db) (self : dutyswitch_instance) (a : assignment) :
  In (requester_assignment self) (assignments st) ->
  In a (assignments st) ->
  let r := requester_assignment self in
  let st' := snd (DutySwitch.swap st self a) in
  assignments st' = map (swap_row r a) (assignments st)
  /\ cleaningweek_excluded st'
     = {[ (asg_cleaning_week r, asg_cleaner r) ]} ∪ cleaningweek_excluded st
  /\ cleaningweeks st' = cleaningweeks st
  /\ tasks st' = tasks st
  /\ dutyswitches st' = dutyswitches st.
Proof.
  intros Hr Ha r st'. subst st'. unfold DutySwitch.swap, Assignment.save. cbn.
  fold r. repeat split.
  rewrite (save_row_present asg_pk (DutySwitch.with_cleaner r (asg_cleaner a)))
    by (exists r; split; [assumption | reflexivity]).
  rewrite save_row_present.
  - rewrite map_map. apply map_ext. intros y. unfold swap_row. cbn.
    destruct (Z.eqb_spec (asg_pk y) (asg_pk r)) as [E|N]; cbn.
    + rewrite <- E. reflexivity.
    + reflexivity.
  - exists (if asg_pk a =? asg_pk r then DutySwitch.with_cleaner r (asg_cleaner a) else a).
    split.
    + apply (in_map (fun r0 => if asg_pk r0 =? asg_pk (DutySwitch.with_cleaner r (asg_cleaner a))
                               then DutySwitch.with_cleaner r (asg_cleaner a) else r0) _ a Ha).
    + cbn. destruct (Z.eqb_spec (asg_pk a) (asg_pk r)) as [E|N]; cbn; congruence.
Qed.

(** [super().save()] of a duty switch writes the table of switches only. *)
Lemma super_save_tables (st : db) (self : dutyswitch_instance) :
  let st' := snd (DutySwitch.super_save st self) in
  assignments st' = assignments st
  /\ cleaningweek_excluded st' = cleaningweek_excluded st
  /\ cleaningweeks st' = cleaningweeks st
  /\ tasks st' = tasks st.
Proof.
  unfold DutySwitch.super_save. destruct (dsi_pk self); cbn; repeat split.
Qed.

(** Saving a switch whose acceptor was unset when the instance was built and
    is set now: the effects on the store. *)
Lemma save_open_tables (st : db) (self : dutyswitch_instance) (a : assignment) :
  previous_acceptor self = None ->
  acceptor_assignment self = Some a ->
  In (requester_assignment self) (assignments st) ->
  In a (assignments st) ->
  let r := requester_assignment self in
  let st' := snd (DutySwitch.save st self) in
  assignments st' = map (swap_row r a) (assignments st)
  /\ cleaningweek_excluded st'
     = {[ (asg_cleaning_week r, asg_cleaner r) ]} ∪ cleaningweek_excluded st
  /\ cleaningweeks st' = cleaningweeks st
  /\ tasks st' = tasks st.
Proof.
  intros Hp Hacc Hr Ha r st'. subst st'. unfold DutySwitch.save.
  rewrite Hp, Hacc.
  destruct (swap_tables st self a Hr Ha) as (E1 & E2 & E3 & E4 & _).
  destruct (DutySwitch.swap st self a) as [self1 st1]. cbn [snd] in *.
  destruct (super_save_tables st1 self1) as (F1 & F2 & F3 & F4).
  destruct (DutySwitch.super_save st1 self1) as [self2 st2]. cbn [snd] in *.
  subst r. repeat split; congruence.
Qed.

(** Saving a switch that was built with its acceptor set leaves assignments
    and exclusions alone. *)
Lemma save_built_closed_tables (st : db) (self : dutyswitch_instance) (p : assignment) :
  previous_acceptor self = Some p ->
  let st' := snd (DutySwitch.save st self) in
  assignments st' = assignments st
  /\ cleaningweek_excluded st' = cleaningweek_excluded st.
Proof.
  intros Hp st'. subst st'. unfold DutySwitch.save. rewrite Hp.
  destruct (super_save_tables st self) as (F1 & F2 & _). split; assumption.
Qed.

(** What the rewritten table holds under each primary key. *)
Lemma swapped_rows (st : db) (r a : assignment) :
  List.NoDup (map asg_pk (assignments st)) ->
  In r (assignments st) ->
  In a (assignments st) ->
  let rows := map (swap_row r a) (assignments st) in
  find (fun y => asg_pk y =? asg_pk r) rows
    = Some (DutySwitch.with_cleaner r (asg_cleaner a))
  /\ find (fun y => asg_pk y =? asg_pk a) rows
     = Some (DutySwitch.with_cleaner a (asg_cleaner r))
  /\ (forall x, In x (assignments st) ->
        asg_pk x <> asg_pk r -> asg_pk x <> asg_pk a ->
        find (fun y => asg_pk y =? asg_pk x) rows = Some x)
  /\ map asg_pk rows = map asg_pk (assignments st).
Proof.
  intros Hnd Hr Ha rows. subst rows. repeat split.
  - rewrite (find_key_map asg_pk) by apply swap_row_pk.
    rewrite (find_key_unique asg_pk r) by assumption. cbn. f_equal.
    unfold swap_row. rewrite Z.eqb_refl.
    destruct (Z.eqb_spec (asg_pk r) (asg_pk a)) as [E|_]; [|reflexivity].
    now rewrite (key_unique asg_pk r a (assignments st) Hnd Hr Ha E).
  - rewrite (find_key_map asg_pk) by apply swap_row_pk.
    rewrite (find_key_unique asg_pk a) by assumption. cbn. f_equal.
    unfold swap_row. now rewrite Z.eqb_refl.
  - intros x Hx Nr Na.
    rewrite (find_key_map asg_pk) by apply swap_row_pk.
    rewrite (find_key_unique asg_pk x) by assumption. cbn. f_equal.
    unfold swap_row.
    destruct (Z.eqb_spec (asg_pk x) (asg_pk a)); [contradiction|].
    destruct (Z.eqb_spec (asg_pk x) (asg_pk r)); [contradiction|reflexivity].
  - rewrite map_map. apply map_ext. apply swap_row_pk.
Qed.

(** C8.  Saving a duty switch whose acceptor has gone from unset to set adds
    the requester's cleaner to the exclusions of the requester's cleaning
    week, gives the requester's assignment the acceptor's cleaner and the
    acceptor's assignment the requester's cleaner; every other assignment,
    every other exclusion and the cleaning weeks stay as they were. *)
Theorem save_open_to_closed (st : db) (self : dutyswitch_instance) (a : assignment) :
  previous_acceptor self = None ->
  acceptor_assignment self = Some a ->
  List.NoDup (map asg_pk (assignments st)) ->
  In (requester_assignment self) (assignments st) ->
  In a (assignments st) ->
  let r := requester_assignment self in
  let st' := snd (DutySwitch.save st self) in
  cleaningweek_excluded st'
    = {[ (asg_cleaning_week r, asg_cleaner r) ]} ∪ cleaningweek_excluded st
  /\ DutySwitch.find_assignment st' (asg_pk r) = Some (held_by r (asg_cleaner a))
  /\ DutySwitch.find_assignment st' (asg_pk a) = Some (held_by a (asg_cleaner r))
  /\ (forall x, In x (assignments st) ->
        asg_pk x <> asg_pk r -> asg_pk x <> asg_pk a ->
        DutySwitch.find_assignment st' (asg_pk x) = Some x)
  /\ map asg_pk (assignments st') = map asg_pk (assignments st)
  /\ cleaningweeks st' = cleaningweeks st.
Proof.
  intros Hp Hacc Hnd Hr Ha r st'.
  destruct (save_open_tables st self a Hp Hacc Hr Ha) as (E1 & E2 & E3 & _).
  destruct (swapped_rows st r a Hnd Hr Ha) as (S1 & S2 & S3 & S4).
  fold r in E1, E2. fold st' in E1, E2, E3.
  unfold DutySwitch.find_assignment. rewrite E1.
  split; [exact E2|]. split; [exact S1|]. split; [exact S2|].
  split; [exact S3|]. split; [exact S4 | exact E3].
Qed.

(** The requester's assignment (primary key 1, week 10) was held by cleaner
    7 and the acceptor's (primary key 2, week 14) by cleaner 8: after the
    save it is the other way round, and cleaner 7 is excluded from cleaning
    week 1. *)
Lemma save_open_to_closed_witness :
  let st' := snd (DutySwitch.save Examples.switching Examples.accepted_switch) in
  cleaningweek_excluded st' = {[ (1, 7) ]} ∪ cleaningweek_excluded Examples.switching
  /\ DutySwitch.find_assignment st' 1
     = Some {| asg_pk := 1; asg_cleaner := 8; asg_cleaning_week := 1; asg_schedule := 1 |}
  /\ DutySwitch.find_assignment st' 2
     = Some {| asg_pk := 2; asg_cleaner := 7; asg_cleaning_week := 2; asg_schedule := 1 |}
  /\ (forall x, In x (assignments Examples.switching) ->
        asg_pk x <> 1 -> asg_pk x <> 2 ->
        DutySwitch.find_assignment st' (asg_pk x) = Some x)
  /\ map asg_pk (assignments st') = map asg_pk (assignments Examples.switching)
  /\ cleaningweeks st' = cleaningweeks Examples.switching.
Proof.
  apply (save_open_to_closed Examples.switching Examples.accepted_switch Examples.acceptor).
  - reflexivity.
  - reflexivity.
  - cbn. repeat constructor; cbn; intuition lia.
  - cbn. auto.
  - cbn. auto.
Defined.

(** C9.  [DutySwitch.save] never consults [possible_acceptors]: on an open
    switch the swap is carried out with whatever assignment was set as
    acceptor, also one that [possible_acceptors] does not list.  The
    requester's assignment goes to the cleaner of that assignment, that
    assignment to the requester's cleaner, and the requester's cleaner is
    excluded from the requester's cleaning week. *)
Theorem save_ignores_possible_acceptors (st : db) (self : dutyswitch_instance)
    (a : assignment) (eligible : list assignment) :
  previous_acceptor self = None ->
  List.NoDup (map asg_pk (assignments st)) ->
  In (requester_assignment self) (assignments st) ->
  In a (assignments st) ->
  DutySwitch.possible_acceptors st self = Ok eligible ->
  ~ In a eligible ->
  let r := requester_assignment self in
  let st' := snd (DutySwitch.save st (DutySwitch.set_acceptor_assignment self (Some a))) in
  cleaningweek_excluded st'
    = {[ (asg_cleaning_week r, asg_cleaner r) ]} ∪ cleaningweek_excluded st
  /\ DutySwitch.find_assignment st' (asg_pk r) = Some (held_by r (asg_cleaner a))
  /\ DutySwitch.find_assignment st' (asg_pk a) = Some (held_by a (asg_cleaner r)).
Proof.
  intros Hp Hnd Hr Ha _ _ r st'.
  destruct (save_open_tables st (DutySwitch.set_acceptor_assignment self (Some a)) a
              Hp eq_refl Hr Ha) as (E1 & E2 & _).
  destruct (swapped_rows st r a Hnd Hr Ha) as (S1 & S2 & _).
  cbn [DutySwitch.set_acceptor_assignment requester_assignment] in E1, E2.
  fold r in E1, E2. fold st' in E1, E2.
  unfold DutySwitch.find_assignment. rewrite E1.
  split; [exact E2|]. split; [exact S1 | exact S2].
Qed.

(** An acceptor that [possible_acceptors] does not list and that is held by
    another cleaner: the assignment with primary key 4 is of another
    schedule, lies in an earlier week, and the requester's cleaner 7 is
    excluded from its cleaning week; it is held by cleaner 8.  The save swaps
    all the same: the requester's assignment goes to cleaner 8 and assignment
    4 to cleaner 7. *)
Lemma save_ignores_possible_acceptors_witness :
  asg_schedule Examples.unfit <> asg_schedule Examples.requester
  /\ cleaning_week__week Examples.switching_with_unfit (fun w => 10 <? w) Examples.unfit
     = false
  /\ ((asg_cleaning_week Examples.unfit, asg_cleaner Examples.requester)
        ∈ cleaningweek_excluded Examples.switching_with_unfit)
  /\ asg_cleaner Examples.requester = 7
  /\ asg_cleaner Examples.unfit = 8
  /\ DutySwitch.possible_acceptors Examples.switching_with_unfit Examples.open_switch
     = Ok [Examples.acceptor]
  /\ let st' := snd (DutySwitch.save Examples.switching_with_unfit
                       (DutySwitch.set_acceptor_assignment Examples.open_switch
                          (Some Examples.unfit))) in
     cleaningweek_excluded st'
       = {[ (1, 7) ]} ∪ cleaningweek_excluded Examples.switching_with_unfit
     /\ DutySwitch.find_assignment st' 1
        = Some {| asg_pk := 1; asg_cleaner := 8; asg_cleaning_week := 1;
                  asg_schedule := 1 |}
     /\ DutySwitch.find_assignment st' 4
        = Some {| asg_pk := 4; asg_cleaner := 7; asg_cleaning_week := 3;
                  asg_schedule := 2 |}.
Proof.
  split; [cbn; lia|]. split; [reflexivity|].
  split; [apply (bool_decide_unpack _); vm_compute; exact I|].
  split; [reflexivity|]. split; [reflexivity|].
  split; [vm_compute; reflexivity|].
  apply (save_ignores_possible_acceptors Examples.switching_with_unfit Examples.open_switch
           Examples.unfit [Examples.acceptor]).
  - reflexivity.
  - cbn. repeat constructor; cbn; intuition lia.
  - cbn. auto.
  - cbn. auto 6.
  - vm_compute. reflexivity.
  - cbn. intros [H | []]. discriminate H.
Defined.

(** C4, at the failing input: the switch of the example is saved, and the
    same instance is saved again.  [__previous_acceptor] is still unset, so
    the second save swaps the two cleaners back and excludes the acceptor's
    cleaner from the requester's cleaning week. *)
Theorem second_save_swaps_again :
  let first := DutySwitch.save Examples.switching Examples.accepted_switch in
  let second := DutySwitch.save (snd first) (fst first) in
  previous_acceptor (fst first) = None
  /\ map asg_cleaner (assignments Examples.switching) = [7; 8; 7]
  /\ map asg_cleaner (assignments (snd first)) = [8; 7; 7]
  /\ map asg_cleaner (assignments (snd second)) = [7; 8; 7]
  /\ ((1, 8) ∉ cleaningweek_excluded (snd first))
  /\ ((1, 8) ∈ cleaningweek_excluded (snd second)).
Proof.
  cbv zeta.
  split; [reflexivity|]. split; [reflexivity|].
  split; [vm_compute; reflexivity|]. split; [vm_compute; reflexivity|].
  split; apply (bool_decide_unpack _); vm_compute; exact I.
Qed.

(** ** The fair-share engine on excluded cleaners *)

(** C1, at the failing input: the only eligible cleaner is excluded.  The
    sub-groups by assignment count are built from the counts of the whole
    ratio group but filled from the cleaners that are not excluded, so the
    first sub-group is empty and [random.choice] raises [IndexError]; the
    [else] of the loop over the ratio groups, which would assign the cleaner
    with the lowest ratio, is not reached, and no assignment is created. *)
Theorem create_assignment_all_excluded (rnd : nat) :
  fst (Schedule.create_assignment rnd Examples.all_excluded (Examples.weekly 1) 5)
    = Raise IndexError
  /\ assignments
       (snd (Schedule.create_assignment rnd Examples.all_excluded (Examples.weekly 1) 5))
     = [].
Proof. split; vm_compute; reflexivity. Qed.

(** C2, at the failing input: the cleaner with the fewest assignments in the
    week is excluded although another cleaner of the same ratio group is not:
    [random.choice] is applied to the empty sub-group and [create_assignment]
    ends with [IndexError]. *)
Theorem create_assignment_fewest_excluded (rnd : nat) :
  Schedule.grouped_by_ratios [(7, 0%Q); (8, 0%Q)] = [[7; 8]]
  /\ Cleaner.nr_assignments_in_week Examples.fewest_excluded 7 5 = 0
  /\ Cleaner.nr_assignments_in_week Examples.fewest_excluded 8 5 = 1
  /\ fst (Schedule.create_assignment rnd Examples.fewest_excluded (Examples.weekly 1) 5)
     = Raise IndexError.
Proof. repeat split; vm_compute; reflexivity. Qed.

(** ** Validation of affiliations *)

(** C3, at the failing input: cleaner 7 is affiliated in weeks 1 to 10.  A
    new affiliation for weeks 3 to 5, and the other affiliation of the
    cleaner moved to weeks 3 to 5, both lie inside that interval; neither
    endpoint of the old interval lies in the new one, the validator accepts
    and [save] stores the overlapping interval. *)
Theorem date_validator_misses_containment :
  Affiliation.date_validator Examples.affiliated None 7 3 5 = Ok tt
  /\ map (fun a => (aff_cleaner a, aff_beginning a, aff_end a))
       (affiliations (snd (Affiliation.save Examples.affiliated (Affiliation.new 7 1 3 5))))
     = [(7, 1, 10); (7, 20, 30); (7, 3, 5)]
  /\ Affiliation.date_validator Examples.affiliated (Some 2) 7 3 5 = Ok tt
  /\ map (fun a => (aff_cleaner a, aff_beginning a, aff_end a))
       (affiliations
          (snd (Affiliation.save Examples.affiliated
                  {| ai_pk := Some 2; ai_cleaner := 7; ai_group := 1;
                     ai_beginning := 3; ai_end := 5;
                     previous_beginning := 20; previous_end := 30 |})))
     = [(7, 1, 10); (7, 3, 5)].
Proof. repeat split; vm_compute; reflexivity. Qed.

(** A rejected affiliation leaves the store as it was. *)
Lemma save_rejected_unchanged (st : db) (self : affiliation_instance) (e : exn) :
  Affiliation.date_validator st (ai_pk self) (ai_cleaner self)
    (ai_beginning self) (ai_end self) = Raise e ->
  Affiliation.save st self = (Raise e, st).
Proof. intros H. unfold Affiliation.save. now rewrite H. Qed.

(** ** The invalidation cascade *)

Lemma invalidated_pk (c : cleaningweek) : cw_pk (invalidated c) = cw_pk c.
Proof. reflexivity. Qed.

Lemma invalidated_twice (c : cleaningweek) : invalidated (invalidated c) = invalidated c.
Proof. reflexivity. Qed.

(** One [set_assignments_valid_field(False)] on an instance that agrees,
    but for the flag, with the rows of its primary key. *)
Lemma invalidate_one (st : db) (x : cleaningweek) :
  (forall c, In c (cleaningweeks st) -> cw_pk c = cw_pk x -> invalidated c = invalidated x) ->
  (exists c, In c (cleaningweeks st) /\ cw_pk c = cw_pk x) ->
  let st' := snd (CleaningWeek.set_assignments_valid_field st x false) in
  cleaningweeks st'
    = map (fun c => if cw_pk c =? cw_pk x then invalidated c else c) (cleaningweeks st)
  /\ assignments st' = assignments st
  /\ cleaningweek_excluded st' = cleaningweek_excluded st
  /\ tasks st' = tasks st.
Proof.
  intros Hsame Hex. cbn. repeat split.
  change (save_row cw_pk (invalidated x) (cleaningweeks st)
          = map (fun c => if cw_pk c =? cw_pk x then invalidated c else c) (cleaningweeks st)).
  rewrite save_row_present by exact Hex.
  apply map_ext_in. intros c Hc. cbn.
  destruct (Z.eqb_spec (cw_pk c) (cw_pk x)) as [E|_]; [|reflexivity].
  symmetry. now apply Hsame.
Qed.

(** The loops [for cleaning_week in ...: set_assignments_valid_field(False)]
    of the [save] methods: the rows whose primary key is among those of the
    instances walked are marked, and nothing else is written. *)
Lemma invalidate_all (l : list cleaningweek) : forall st : db,
  (forall x c, In x l -> In c (cleaningweeks st) -> cw_pk c = cw_pk x ->
     invalidated c = invalidated x) ->
  (forall x, In x l -> exists c, In c (cleaningweeks st) /\ cw_pk c = cw_pk x) ->
  let st' := fold_left
               (fun st c => snd (CleaningWeek.set_assignments_valid_field st c false)) l st in
  cleaningweeks st'
    = map (fun c => if existsb (fun x => cw_pk x =? cw_pk c) l then invalidated c else c)
        (cleaningweeks st)
  /\ assignments st' = assignments st
  /\ cleaningweek_excluded st' = cleaningweek_excluded st
  /\ tasks st' = tasks st.
Proof.
  induction l as [|x l IH]; intros st Hsame Hex.
  - cbn. repeat split. symmetry. apply map_id.
  - cbn [fold_left].
    destruct (invalidate_one st x) as (E1 & E2 & E3 & E4).
    { intros c Hc. apply Hsame; [now left | exact Hc]. }
    { apply Hex. now left. }
    set (st1 := snd (CleaningWeek.set_assignments_valid_field st x false)) in *.
    destruct (IH st1) as (F1 & F2 & F3 & F4).
    { intros y c' Hy Hc' Hk. rewrite E1 in Hc'.
      apply in_map_iff in Hc' as [c [<- Hc]].
      destruct (cw_pk c =? cw_pk x).
      - rewrite invalidated_twice. apply Hsame; [now right | exact Hc | exact Hk].
      - apply Hsame; [now right | exact Hc | exact Hk]. }
    { intros y Hy. destruct (Hex y (or_intror Hy)) as [c [Hc Hk]].
      exists (if cw_pk c =? cw_pk x then invalidated c else c). split.
      - rewrite E1.
        apply (in_map (fun c0 => if cw_pk c0 =? cw_pk x then invalidated c0 else c0) _ c Hc).
      - destruct (cw_pk c =? cw_pk x); exact Hk. }
    cbv zeta in F1. repeat split; try congruence.
    rewrite F1, E1, map_map. apply map_ext. intros c. cbn [existsb].
    rewrite (Z.eqb_sym (cw_pk x) (cw_pk c)).
    destruct (cw_pk c =? cw_pk x) eqn:E; cbn [orb].
    + rewrite invalidated_pk.
      destruct (existsb (fun x0 => cw_pk x0 =? cw_pk c) l); reflexivity.
    + reflexivity.
Qed.

(** Instances selected from the table are as [invalidate_all] wants them. *)
Lemma selected_rows_agree (table l : list cleaningweek) :
  List.NoDup (map cw_pk table) ->
  (forall x, In x l -> In x table) ->
  (forall x c, In x l -> In c table -> cw_pk c = cw_pk x -> invalidated c = invalidated x)
  /\ (forall x, In x l -> exists c, In c table /\ cw_pk c = cw_pk x).
Proof.
  intros Hnd Hsub. split.
  - intros x c Hx Hc Hk.
    now rewrite (key_unique cw_pk c x table Hnd Hc (Hsub x Hx) Hk).
  - intros x Hx. exists x. split; [now apply Hsub | reflexivity].
Qed.

(** Under unique primary keys a row is among the selected ones exactly when
    the selection holds of it. *)
Lemma existsb_pk_filter (f : cleaningweek -> bool) (table : list cleaningweek)
    (c : cleaningweek) :
  List.NoDup (map cw_pk table) -> In c table ->
  existsb (fun x => cw_pk x =? cw_pk c) (List.filter f table) = f c.
Proof.
  intros Hnd Hc. destruct (f c) eqn:Hf.
  - apply existsb_exists. exists c. split.
    + apply filter_In. now split.
    + apply Z.eqb_refl.
  - apply not_true_is_false. intros H.
    apply existsb_exists in H as [x [Hx Hk]].
    apply filter_In in Hx as [Hx Hfx]. apply Z.eqb_eq in Hk.
    rewrite (key_unique cw_pk x c table Hnd Hx Hc Hk) in Hfx. congruence.
Qed.

Lemma filter_twice {A : Type} (f g : A -> bool) (l : list A) :
  List.filter g (List.filter f l) = List.filter (fun x => f x && g x) l.
Proof.
  induction l as [|x l IH]; [reflexivity|]. cbn.
  destruct (f x); cbn; [destruct (g x)|]; now rewrite IH.
Qed.

(** C6 (as amended).  When the frequency or the number of cleaners per date
    of a saved schedule differs from the value the instance was built with,
    [save] sets [assignments_valid = False] on the cleaning weeks of that
    schedule whose week is strictly after the current week, and on no other
    cleaning week: those of the current week and of earlier weeks keep their
    flag. *)
Theorem schedule_save_invalidates_future (today : Time.date) (st : db)
    (self : schedule_instance) (k : pk) :
  si_pk self = Some k ->
  List.NoDup (map cw_pk (cleaningweeks st)) ->
  previous_frequency self <> si_frequency self
  \/ previous_cleaners_per_date self <> si_cleaners_per_date self ->
  cleaningweeks (snd (Schedule.save today st self))
  = map (fun c => if (cw_schedule c =? k) && (Time.current_epoch_week today <? cw_week c)
                  then invalidated c else c)
      (cleaningweeks st).
Proof.
  intros Hk Hnd Hch. unfold Schedule.save. rewrite Hk. cbn [previous_frequency
    previous_cleaners_per_date si_frequency si_cleaners_per_date].
  assert (C : negb (previous_frequency self =? si_frequency self)
              || negb (previous_cleaners_per_date self =? si_cleaners_per_date self) = true).
  { apply orb_true_iff. destruct Hch as [H|H]; [left|right];
      apply negb_true_iff; now apply Z.eqb_neq. }
  rewrite C. cbn [snd].
  set (st0 := with_schedules _ st).
  unfold Schedule.cleaningweek_set. rewrite filter_twice.
  change (cleaningweeks st0) with (cleaningweeks st).
  set (sel := fun c => (cw_schedule c =? k) && (Time.current_epoch_week today <? cw_week c)).
  destruct (selected_rows_agree (cleaningweeks st) (List.filter sel (cleaningweeks st)) Hnd)
    as [Hsame Hex].
  { intros x Hx. now apply filter_In in Hx. }
  destruct (invalidate_all (List.filter sel (cleaningweeks st)) st0 Hsame Hex) as (E & _).
  cbv zeta in E. rewrite E.
  change (cleaningweeks st0) with (cleaningweeks st).
  apply map_ext_in. intros c Hc.
  now rewrite (existsb_pk_filter sel (cleaningweeks st) c Hnd Hc).
Qed.

Lemma schedule_save_invalidates_future_witness :
  cleaningweeks (snd (Schedule.save Examples.today Examples.around_today
                        Examples.now_even_weeks))
  = map (fun c => if (cw_schedule c =? 1)
                     && (Time.current_epoch_week Examples.today <? cw_week c)
                  then invalidated c else c)
      (cleaningweeks Examples.around_today).
Proof.
  apply (schedule_save_invalidates_future Examples.today Examples.around_today
           Examples.now_even_weeks 1).
  - reflexivity.
  - cbn. repeat constructor; cbn; intuition lia.
  - left. cbn. lia.
Defined.

(** C6, the claim as stated fails: the schedule of the example is changed
    from weekly to even weeks in epoch week 100, and the cleaning week of
    week 100 stays valid. *)
Lemma schedule_save_keeps_current_week :
  Time.current_epoch_week Examples.today = 100
  /\ ~ (forall c,
          In c (cleaningweeks (snd (Schedule.save Examples.today Examples.around_today
                                      Examples.now_even_weeks))) ->
          cw_schedule c = 1 ->
          Time.current_epoch_week Examples.today <= cw_week c ->
          cw_assignments_valid c = false).
Proof.
  split; [vm_compute; reflexivity|].
  intros H.
  specialize (H (Examples.occurrence 2 100 1 true)).
  assert (E : Time.current_epoch_week Examples.today = 100) by (vm_compute; reflexivity).
  rewrite E in H.
  assert (F : cw_assignments_valid (Examples.occurrence 2 100 1 true) = false).
  { apply H; [vm_compute; auto | reflexivity | cbn; lia]. }
  discriminate F.
Qed.

(** The weeks selected by the two queries of [Affiliation.save] are the two
    windows of the statement. *)
Lemma beginning_affects_window (b0 b1 w : Z) :
  Affiliation.in_range (Z.min b0 b1) (Z.max b0 b1) w && negb (w =? Z.max b0 b1)
  = in_beginning_window b0 b1 w.
Proof.
  unfold Affiliation.in_range, in_beginning_window.
  destruct (Z.leb_spec (Z.min b0 b1) w), (Z.leb_spec w (Z.max b0 b1)),
    (Z.eqb_spec w (Z.max b0 b1)), (Z.ltb_spec w (Z.max b0 b1)); cbn; try reflexivity; lia.
Qed.

Lemma end_affects_window (e0 e1 w : Z) :
  Affiliation.in_range (Z.min e0 e1) (Z.max e0 e1) w && negb (w =? Z.min e0 e1)
  = in_end_window e0 e1 w.
Proof.
  unfold Affiliation.in_range, in_end_window.
  destruct (Z.leb_spec (Z.min e0 e1) w), (Z.leb_spec w (Z.max e0 e1)),
    (Z.eqb_spec w (Z.min e0 e1)), (Z.ltb_spec (Z.min e0 e1) w); cbn; try reflexivity; lia.
Qed.

(** The rows walked by [Affiliation.save] are those of the weeks in the
    symmetric difference of the two windows. *)
Lemma cleaning_weeks_invalidated_weeks (st : db) (self : affiliation_instance)
    (c : cleaningweek) :
  List.NoDup (map cw_pk (cleaningweeks st)) ->
  In c (cleaningweeks st) ->
  existsb (fun x => cw_pk x =? cw_pk c) (Affiliation.cleaning_weeks_invalidated st self)
  = in_changed_weeks (previous_beginning self) (previous_end self)
      (ai_beginning self) (ai_end self) (cw_week c).
Proof.
  intros Hnd Hc.
  unfold Affiliation.cleaning_weeks_invalidated, Affiliation.symmetric_difference.
  rewrite existsb_app, !filter_twice.
  rewrite !(existsb_pk_filter _ (cleaningweeks st) c Hnd Hc). cbn beta.
  unfold in_changed_weeks.
  rewrite <- beginning_affects_window, <- end_affects_window.
  destruct (Affiliation.in_range _ _ _), (Affiliation.in_range _ _ _),
    (_ =? _), (_ =? _); reflexivity.
Qed.

Lemma cleaning_weeks_invalidated_rows (st : db) (self : affiliation_instance)
    (x : cleaningweek) :
  In x (Affiliation.cleaning_weeks_invalidated st self) -> In x (cleaningweeks st).
Proof.
  unfold Affiliation.cleaning_weeks_invalidated, Affiliation.symmetric_difference.
  intros H. apply in_app_or in H.
  destruct H as [H|H]; repeat (apply filter_In in H as [H _]); exact H.
Qed.

(** C5 (as amended).  When an accepted affiliation is saved with a beginning
    or an end other than the one the instance was built with, [save] sets
    [assignments_valid = False] on exactly the existing cleaning weeks, of
    any schedule, whose week lies in the symmetric difference of
    [min b0 b1, max b0 b1) and (min e0 e1, max e0 e1]; the current week plays
    no part, and no assignment is deleted. *)
Theorem affiliation_save_invalidates (st : db) (self : affiliation_instance) :
  List.NoDup (map cw_pk (cleaningweeks st)) ->
  Affiliation.date_validator st (ai_pk self) (ai_cleaner self)
    (ai_beginning self) (ai_end self) = Ok tt ->
  previous_beginning self <> ai_beginning self \/ previous_end self <> ai_end self ->
  let st' := snd (Affiliation.save st self) in
  cleaningweeks st'
  = map (fun c => if in_changed_weeks (previous_beginning self) (previous_end self)
                       (ai_beginning self) (ai_end self) (cw_week c)
                  then invalidated c else c)
      (cleaningweeks st)
  /\ assignments st' = assignments st.
Proof.
  intros Hnd Hv Hch. unfold Affiliation.save. rewrite Hv.
  assert (C : negb (previous_beginning self =? ai_beginning self)
              || negb (previous_end self =? ai_end self) = true).
  { apply orb_true_iff. destruct Hch as [H|H]; [left|right];
      apply negb_true_iff; now apply Z.eqb_neq. }
  rewrite C.
  destruct (selected_rows_agree (cleaningweeks st)
              (Affiliation.cleaning_weeks_invalidated st self) Hnd
              (cleaning_weeks_invalidated_rows st self)) as [Hsame Hex].
  destruct (invalidate_all (Affiliation.cleaning_weeks_invalidated st self) st Hsame Hex)
    as (E & F & _).
  cbv zeta in E, F.
  set (st1 := fold_left _ (Affiliation.cleaning_weeks_invalidated st self) st) in *.
  assert (G : forall x : result affiliation_instance * db,
                 cleaningweeks (snd x) = cleaningweeks st1 ->
                        assignments (snd x) = assignments st1 ->
              cleaningweeks (snd x)
              = map (fun c => if in_changed_weeks (previous_beginning self) (previous_end self)
                                   (ai_beginning self) (ai_end self) (cw_week c)
                              then invalidated c else c) (cleaningweeks st)
              /\ assignments (snd x) = assignments st).
  { intros x -> ->. split; [|exact F]. rewrite E.
    apply map_ext_in. intros c Hc.
    now rewrite (cleaning_weeks_invalidated_weeks st self c Hnd Hc). }
  destruct (ai_pk self); apply G; reflexivity.
Qed.

Lemma affiliation_save_invalidates_witness :
  let self := Examples.begins_earlier in
  let st' := snd (Affiliation.save Examples.moved_in self) in
  cleaningweeks st'
  = map (fun c => if in_changed_weeks (previous_beginning self) (previous_end self)
                       (ai_beginning self) (ai_end self) (cw_week c)
                  then invalidated c else c)
      (cleaningweeks Examples.moved_in)
  /\ assignments st' = assignments Examples.moved_in.
Proof.
  apply (affiliation_save_invalidates Examples.moved_in Examples.begins_earlier).
  - cbn. repeat constructor; cbn; intuition lia.
  - vm_compute. reflexivity.
  - left. cbn. lia.
Defined.

(** C5, the claim as stated fails: in epoch week 100 the beginning of an
    affiliation is moved from week 5 to week 3, and the cleaning week of week
    4, long past, is rewritten. *)
Lemma affiliation_save_rewrites_past_week :
  Time.current_epoch_week Examples.today = 100
  /\ ~ (forall c,
          In c (cleaningweeks (snd (Affiliation.save Examples.moved_in
                                      Examples.begins_earlier))) ->
          cw_week c < Time.current_epoch_week Examples.today ->
          In c (cleaningweeks Examples.moved_in)).
Proof.
  split; [vm_compute; reflexivity|].
  intros H.
  specialize (H (Examples.occurrence 1 4 1 false)).
  assert (E : Time.current_epoch_week Examples.today = 100) by (vm_compute; reflexivity).
  rewrite E in H.
  assert (F : In (Examples.occurrence 1 4 1 false) (cleaningweeks Examples.moved_in)).
  { apply H; [vm_compute; auto | cbn; lia]. }
  cbn in F. destruct F as [F | [F | []]]; discriminate F.
Qed.

(** ** Recomputing a stale cleaning week *)

(** Creating the missing tasks appends tasks that nobody has done. *)
Lemma create_tasks_tables (self : cleaningweek) (l : list tasktemplate) : forall st : db,
  let st' := fold_left (CleaningWeek.create_task self) l st in
  cleaningweeks st' = cleaningweeks st
  /\ cleaningweek_excluded st' = cleaningweek_excluded st
  /\ assignments st' = assignments st
  /\ exists created, tasks st' = tasks st ++ created
       /\ Forall (fun t => task_cleaned_by t = None
                           /\ task_cleaning_week t = cw_pk self) created.
Proof.
  induction l as [|tt l IH]; intros st.
  - cbn. repeat split. exists []. split; [now rewrite app_nil_r | constructor].
  - cbn [fold_left].
    destruct (IH (CleaningWeek.create_task self st tt)) as (E1 & E2 & E3 & created & E4 & F).
    cbv zeta. repeat split; try assumption.
    eexists (_ :: created). split.
    + rewrite E4. cbn. rewrite <- app_assoc. reflexivity.
    + constructor; [split; reflexivity | exact F].
Qed.


Lemma delete_assignments_tables (st : db) (doomed : assignment -> bool) :
  let st' := Assignment.delete st doomed in
  cleaningweeks st' = cleaningweeks st
  /\ cleaningweek_excluded st' = cleaningweek_excluded st
  /\ tasks st' = tasks st
  /\ assignments st' = List.filter (fun a => negb (doomed a)) (assignments st).
Proof. cbn. repeat split. Qed.

Lemma filter_none {A : Type} (f : A -> bool) (l : list A) :
  List.filter f (List.filter (fun x => negb (f x)) l) = [].
Proof.
  induction l as [|x l IH]; [reflexivity|]. cbn.
  destruct (f x) eqn:E; cbn; [exact IH | now rewrite E].
Qed.






(** ** The loops of [create_assignment] *)

Lemma insert_by_not_nil {A : Type} (le : A -> A -> bool) (x : A) (l : list A) :
  insert_by le x l <> [].
Proof. destruct l as [|y l]; cbn; [|destruct (le x y)]; discriminate. Qed.

Lemma sorted_by_not_nil {A : Type} (le : A -> A -> bool) (l : list A) :
  l <> [] -> sorted_by le l <> [].
Proof.
  destruct l as [|x l]; [contradiction|]. intros _. apply insert_by_not_nil.
Qed.

Lemma in_insert_by {A : Type} (le : A -> A -> bool) (x y : A) (l : list A) :
  In y (insert_by le x l) -> y = x \/ In y l.
Proof.
  induction l as [|z l IH]; cbn.
  - intros [<- | []]. now left.
  - destruct (le x z); cbn.
    + intros [<- | H]; [now left | now right].
    + intros [<- | H]; [right; now left|]. destruct (IH H); [now left | right; now right].
Qed.

Lemma in_sorted_by {A : Type} (le : A -> A -> bool) (y : A) (l : list A) :
  In y (sorted_by le l) -> In y l.
Proof.
  induction l as [|x l IH]; cbn; [trivial|].
  intros H. apply in_insert_by in H as [-> | H]; [now left | right; now apply IH].
Qed.

Lemma distinct_not_nil {A : Type} (eqb : A -> A -> bool) (l : list A) :
  l <> [] -> distinct eqb l <> [].
Proof.
  induction l as [|x l IH]; [contradiction|]. intros _. cbn.
  destruct (existsb (eqb x) l) eqn:E; [|discriminate].
  apply IH. intros ->. discriminate E.
Qed.

Lemma in_distinct {A : Type} (eqb : A -> A -> bool) (y : A) (l : list A) :
  In y (distinct eqb l) -> In y l.
Proof.
  induction l as [|x l IH]; cbn; [trivial|].
  destruct (existsb (eqb x) l); cbn.
  - intros H. right. now apply IH.
  - intros [<- | H]; [now left | right; now apply IH].
Qed.

(** The loop over the ratio groups returns or raises in its first round. *)
Lemma for_same_ratio_first_round (rnd : nat) (st : db) (cw : cleaningweek) (week : Z)
    (same_ratio : list pk) (rest : list (list pk)) :
  same_ratio <> [] ->
  exists r, Schedule.for_same_ratio rnd st cw week (same_ratio :: rest) = Some r.
Proof.
  intros Hne. cbn [Schedule.for_same_ratio].
  set (counts := sorted_by Z.leb _).
  assert (Hc : counts <> []).
  { apply sorted_by_not_nil, distinct_not_nil.
    destruct same_ratio; [contradiction | discriminate]. }
  destruct counts as [|n counts]; [contradiction|]. cbn. eauto.
Qed.

(** When every cleaner of the first ratio group is excluded, the loop raises
    [IndexError] and the other ratio groups are not looked at. *)
Lemma for_same_ratio_all_excluded (rnd : nat) (st : db) (cw : cleaningweek) (week : Z)
    (same_ratio : list pk) (rest : list (list pk)) :
  same_ratio <> [] ->
  (forall x, In x same_ratio -> (cw_pk cw, x) ∈ cleaningweek_excluded st) ->
  Schedule.for_same_ratio rnd st cw week (same_ratio :: rest) = Some (Raise IndexError).
Proof.
  intros Hne Hex. cbn [Schedule.for_same_ratio].
  set (counts := sorted_by Z.leb _).
  assert (Hc : counts <> []).
  { apply sorted_by_not_nil, distinct_not_nil.
    destruct same_ratio; [contradiction | discriminate]. }
  assert (Hnone : List.filter
                    (fun x => negb (bool_decide ((cw_pk cw, x) ∈ cleaningweek_excluded st)))
                    same_ratio = []).
  { clear Hne counts Hc. induction same_ratio as [|x l IH]; [reflexivity|]. cbn.
    rewrite bool_decide_eq_true_2 by (apply Hex; now left). cbn.
    apply IH. intros y Hy. apply Hex. now right. }
  rewrite Hnone. destruct counts as [|n counts]; [contradiction|]. reflexivity.
Qed.

(** The groups by ratio of a list of ratios that is not empty: there is one,
    and none of them is empty. *)
Lemma grouped_by_ratios_not_nil (ratios : list (pk * Q)) :
  ratios <> [] ->
  exists same_ratio rest,
    Schedule.grouped_by_ratios ratios = same_ratio :: rest /\ same_ratio <> [].
Proof.
  intros Hne. unfold Schedule.grouped_by_ratios.
  set (values := sorted_by Qle_bool _).
  assert (Hv : values <> []).
  { apply sorted_by_not_nil, distinct_not_nil.
    destruct ratios; [contradiction | discriminate]. }
  assert (Hin : forall v, In v values -> In v (map snd ratios)).
  { intros v H. unfold values in H.
    apply in_sorted_by in H. now apply in_distinct in H. }
  destruct values as [|v values]; [contradiction|].
  cbn [map]. eexists. eexists. split; [reflexivity|].
  destruct (proj1 (in_map_iff snd ratios v) (Hin v (or_introl eq_refl))) as [x [Hx Hxin]].
  intros Hnil. apply map_eq_nil in Hnil.
  assert (F : In x (List.filter (fun x0 => Qeq_bool (snd x0) v) ratios)).
  { apply filter_In. split; [assumption|]. rewrite Hx. apply Qeq_bool_refl. }
  rewrite Hnil in F. contradiction.
Qed.

(** So the [else] of the loop over the ratio groups, the fallback to the
    cleaner with the lowest ratio, never runs on ratios that are not empty. *)
Lemma fallback_never_runs (rnd : nat) (st : db) (cw : cleaningweek) (week : Z)
    (ratios : list (pk * Q)) :
  ratios <> [] ->
  Schedule.for_same_ratio rnd st cw week (Schedule.grouped_by_ratios ratios) <> None.
Proof.
  intros Hne.
  destruct (grouped_by_ratios_not_nil ratios Hne) as (g & rest & -> & Hg).
  destruct (for_same_ratio_first_round rnd st cw week g rest Hg) as [r ->].
  discriminate.
Qed.

(** ** What the validator of affiliations lets through *)

(** An accepted interval can only overlap another affiliation of the cleaner
    by lying strictly inside it. *)
Lemma accepted_overlap_is_containment (st : db) (k : pk) (cleaner beginning end_ : Z)
    (a : affiliation) :
  Affiliation.date_validator st (Some k) cleaner beginning end_ = Ok tt ->
  k <> 0 ->
  In a (affiliations st) -> aff_cleaner a = cleaner -> aff_pk a <> k ->
  aff_beginning a <= end_ -> beginning <= aff_end a ->
  aff_beginning a < beginning /\ end_ < aff_end a.
Proof.
  unfold Affiliation.date_validator. intros H Hk Hin Hc Hpk Hb He.
  destruct (end_ <? beginning); [discriminate|].
  destruct (Z.eqb_spec k 0) as [|_]; [contradiction|].
  set (others := List.filter _ (List.filter _ (affiliations st))) in H.
  assert (Ho : In a others).
  { apply filter_In. split.
    - apply filter_In. split; [assumption | now apply Z.eqb_eq].
    - apply negb_true_iff. now apply Z.eqb_neq. }
  destruct (existsb (fun a0 => Affiliation.in_range beginning end_ (aff_beginning a0)) others)
    eqn:E1; [discriminate|].
  destruct (existsb (fun a0 => Affiliation.in_range beginning end_ (aff_end a0)) others)
    eqn:E2; [discriminate|].
  assert (N1 : Affiliation.in_range beginning end_ (aff_beginning a) = false).
  { destruct (Affiliation.in_range beginning end_ (aff_beginning a)) eqn:F; [|reflexivity].
    rewrite <- E1. symmetry. apply existsb_exists. eauto. }
  assert (N2 : Affiliation.in_range beginning end_ (aff_end a) = false).
  { destruct (Affiliation.in_range beginning end_ (aff_end a)) eqn:F; [|reflexivity].
    rewrite <- E2. symmetry. apply existsb_exists. eauto. }
  unfold Affiliation.in_range in N1, N2.
  apply andb_false_iff in N1, N2.
  rewrite !Z.leb_gt in N1, N2. lia.
Qed.

(** ** The days of an epoch week *)



(** X2.  [date_to_epoch_week] never goes back: a later date lies in the
    same or in a later week, also before 1970. *)
Theorem date_to_epoch_week_monotone (d1 d2 : Time.date) :
  d1 <= d2 -> Time.date_to_epoch_week d1 <= Time.date_to_epoch_week d2.
Proof.
  intros H. rewrite !date_to_epoch_week_quot. apply Z.quot_le_mono; lia.
Qed.

Lemma date_to_epoch_week_monotone_witness :
  Time.date_to_epoch_week (-10) <= Time.date_to_epoch_week 697.
Proof. apply (date_to_epoch_week_monotone (-10) 697). lia. Defined.

(** X3.  Truncation toward zero makes epoch week 0 thirteen days long: it
    holds the dates from 1969-12-23 (day -9) to 1970-01-04 (day 3), and no
    other. *)
Theorem epoch_week_zero_days (d : Time.date) :
  Time.date_to_epoch_week d = 0 <-> -9 <= d <= 3.
Proof.
  rewrite date_to_epoch_week_quot.
  destruct (Z.le_gt_cases 0 (d + 3)) as [H|H].
  - rewrite Z.quot_div_nonneg by lia. split.
    + intros E. pose proof (Z.div_mod (d + 3) 7). pose proof (Z.mod_pos_bound (d + 3) 7). lia.
    + intros E. apply Z.div_small. lia.
  - replace (d + 3) with (- (- (d + 3))) by lia.
    rewrite Z.quot_opp_l by lia. rewrite Z.quot_div_nonneg by lia. split.
    + intros E. pose proof (Z.div_mod (- (d + 3)) 7).
      pose proof (Z.mod_pos_bound (- (d + 3)) 7). lia.
    + intros E. rewrite Z.div_small by lia. reflexivity.
Qed.

(** ** Sorting *)

Lemma insert_by_perm {A : Type} (le : A -> A -> bool) (x : A) (l : list A) :
  Permutation (insert_by le x l) (x :: l).
Proof.
  induction l as [|y l IH]; cbn; [reflexivity|].
  destruct (le x y); [reflexivity|].
  rewrite IH. apply perm_swap.
Qed.

Lemma sorted_by_perm {A : Type} (le : A -> A -> bool) (l : list A) :
  Permutation (sorted_by le l) l.
Proof.
  induction l as [|x l IH]; cbn; [reflexivity|].
  rewrite insert_by_perm. now apply perm_skip.
Qed.

Lemma in_sorted_by_iff {A : Type} (le : A -> A -> bool) (y : A) (l : list A) :
  In y (sorted_by le l) <-> In y l.
Proof.
  split; [apply in_sorted_by|]. intros H.
  apply (Permutation_in y (Permutation_sym (sorted_by_perm le l)) H).
Qed.

Section Sorting.

Context {A : Type} (le : A -> A -> bool).
Hypothesis le_total : forall x y, le x y = false -> le y x = true.
Hypothesis le_trans : forall x y z, le x y = true -> le y z = true -> le x z = true.

Lemma insert_by_sorted (x : A) (l : list A) :
  StronglySorted (fun a b => le a b = true) l ->
  StronglySorted (fun a b => le a b = true) (insert_by le x l).
Proof.
  induction 1 as [|y l Hs IH Hy]; cbn.
  - constructor; constructor.
  - destruct (le x y) eqn:E.
    + constructor; [now constructor|]. constructor; [assumption|].
      eapply List.Forall_impl; [|exact Hy]. intros z Hz. now apply (le_trans x y z).
    + constructor; [assumption|].
      apply List.Forall_forall. intros z Hz. apply in_insert_by in Hz as [-> | Hz].
      * now apply le_total.
      * now apply (proj1 (List.Forall_forall _ _) Hy).
Qed.

Lemma sorted_by_sorted (l : list A) :
  StronglySorted (fun a b => le a b = true) (sorted_by le l).
Proof.
  induction l as [|x l IH]; cbn; [constructor | now apply insert_by_sorted].
Qed.

(** The first element of a sorted list is a least element of the list. *)
Lemma sorted_by_head (h : A) (t l : list A) :
  sorted_by le l = h :: t -> forall y, In y l -> le h y = true.
Proof.
  intros E y Hy. apply in_sorted_by_iff with (le := le) in Hy.
  pose proof (sorted_by_sorted l) as Hs. rewrite E in Hs, Hy.
  destruct Hy as [<- | Hy].
  - destruct (le h h) eqn:F; [reflexivity|]. rewrite <- F. now apply le_total.
  - apply StronglySorted_inv in Hs as [_ Hs].
    now apply (proj1 (List.Forall_forall _ _) Hs).
Qed.

End Sorting.

(** What [list(set(l))] keeps: one representative of every value. *)
Lemma distinct_represents {A : Type} (eqb : A -> A -> bool) (y : A) (l : list A) :
  (forall x, eqb x x = true) ->
  (forall x1 x2 x3, eqb x1 x2 = true -> eqb x2 x3 = true -> eqb x1 x3 = true) ->
  In y l -> exists y', In y' (distinct eqb l) /\ eqb y y' = true.
Proof.
  intros Hrefl Htrans. revert y.
  induction l as [|x l IH]; intros y; [contradiction|].
  intros [-> | Hy]; cbn.
  - destruct (existsb (eqb y) l) eqn:E.
    + apply existsb_exists in E as [z [Hz Hyz]].
      destruct (IH z Hz) as [z' [Hz' Hzz']]. exists z'. split; [assumption|].
      now apply (Htrans y z z').
    + exists y. split; [now left | apply Hrefl].
  - destruct (IH y Hy) as [y' [Hy' E]]. exists y'. split; [|assumption].
    destruct (existsb (eqb x) l); [assumption | now right].
Qed.

(** ** Deployment ratios *)

Lemma count_filter_le {A : Type} (f : A -> bool) (l : list A) :
  0 <= count (List.filter f l) <= count l.
Proof.
  unfold count. pose proof (List.filter_length_le f l). lia.
Qed.


Lemma active_in_week_for_schedule_in (st : db) (week : Z) (schedule : schedule)
    (a : affiliation) :
  In a (AffiliationQuerySet.active_in_week_for_schedule st week schedule)
  <-> In a (affiliations st)
      /\ aff_beginning a <= week <= aff_end a
      /\ (aff_group a, sch_pk schedule) ∈ schedulegroup_schedules st.
Proof.
  unfold AffiliationQuerySet.active_in_week_for_schedule, AffiliationQuerySet.ordering,
    AffiliationQuerySet.active_in_week.
  rewrite in_sorted_by_iff, !filter_In, andb_true_iff, !Z.leb_le, bool_decide_eq_true.
  tauto.
Qed.

(** The loop of [constant_affiliation_timespan], started on an interval. *)
Lemma timespan_fold (l : list affiliation) : forall b0 e0 : Z,
  exists b e,
    fold_left (fun minimal_week_set affiliation =>
                 match minimal_week_set with
                 | None => Some (aff_beginning affiliation, aff_end affiliation)
                 | Some (b, e) =>
                     let b := if b <? aff_beginning affiliation
                              then aff_beginning affiliation else b in
                     let e := if aff_end affiliation <? e then aff_end affiliation else e in
                     Some (b, e)
                 end) l (Some (b0, e0)) = Some (b, e)
    /\ b0 <= b /\ e <= e0
    /\ (forall a, In a l -> aff_beginning a <= b /\ e <= aff_end a)
    /\ (b = b0 \/ exists a, In a l /\ aff_beginning a = b)
    /\ (e = e0 \/ exists a, In a l /\ aff_end a = e).
Proof.
  induction l as [|x l IH]; intros b0 e0.
  - exists b0, e0. cbn. repeat split; try lia; try (now left).
  - cbn [fold_left].
    set (b1 := if b0 <? aff_beginning x then aff_beginning x else b0).
    set (e1 := if aff_end x <? e0 then aff_end x else e0).
    destruct (IH b1 e1) as (b & e & E & Hb & He & Hall & Hbx & Hex).
    exists b, e. split; [exact E|].
    assert (Hb1 : b0 <= b1 /\ aff_beginning x <= b1
                  /\ (b1 = b0 \/ b1 = aff_beginning x)).
    { unfold b1. destruct (Z.ltb_spec b0 (aff_beginning x)); lia. }
    assert (He1 : e1 <= e0 /\ e1 <= aff_end x /\ (e1 = e0 \/ e1 = aff_end x)).
    { unfold e1. destruct (Z.ltb_spec (aff_end x) e0); lia. }
    split; [lia|]. split; [lia|]. split; [|split].
    + intros a [<- | Ha]; [lia | now apply Hall].
    + destruct Hbx as [-> | [a [Ha Eb]]].
      * destruct Hb1 as (_ & _ & [-> | ->]); [now left | right].
        exists x. split; [now left | reflexivity].
      * right. exists a. split; [now right | assumption].
    + destruct Hex as [-> | [a [Ha Ee]]].
      * destruct He1 as (_ & _ & [-> | ->]); [now left | right].
        exists x. split; [now left | reflexivity].
      * right. exists a. split; [now right | assumption].
Qed.

(** X5.  [constant_affiliation_timespan] is the intersection of the
    affiliations that are active for the schedule in the week: the dict is
    empty exactly when there is none, and otherwise its beginning is the
    latest of their beginnings, its end the earliest of their ends, and the
    week lies between the two. *)
Theorem constant_affiliation_timespan_intersection (st : db) (self : schedule) (week : Z) :
  let active := AffiliationQuerySet.active_in_week_for_schedule st week self in
  match Schedule.constant_affiliation_timespan st self week with
  | None => active = []
  | Some (b, e) =>
      b <= week <= e
      /\ (forall a, In a active -> aff_beginning a <= b /\ e <= aff_end a)
      /\ (exists a, In a active /\ aff_beginning a = b)
      /\ (exists a, In a active /\ aff_end a = e)
  end.
Proof.
  intros active. unfold Schedule.constant_affiliation_timespan. fold active.
  assert (Hact : forall a, In a active -> aff_beginning a <= week <= aff_end a).
  { intros a Ha. now apply active_in_week_for_schedule_in in Ha. }
  destruct active as [|x l]; [reflexivity|].
  match goal with
  | |- context [fold_left ?f (x :: l) None] =>
      change (fold_left f (x :: l) None)
        with (fold_left f l (Some (aff_beginning x, aff_end x)))
  end.
  destruct (timespan_fold l (aff_beginning x) (aff_end x))
    as (b & e & E & Hb & He & Hall & Hbx & Hex).
  cbv zeta in E. rewrite E. clear E.
  assert (Bx : exists a, In a (x :: l) /\ aff_beginning a = b).
  { destruct Hbx as [-> | [a [Ha E]]].
    - exists x. split; [now left | reflexivity].
    - exists a. split; [now right | assumption]. }
  assert (Ex : exists a, In a (x :: l) /\ aff_end a = e).
  { destruct Hex as [-> | [a [Ha E]]].
    - exists x. split; [now left | reflexivity].
    - exists a. split; [now right | assumption]. }
  split; [|split; [|split; assumption]].
  - destruct Bx as [a1 [H1 <-]], Ex as [a2 [H2 <-]].
    pose proof (Hact a1 H1). pose proof (Hact a2 H2). lia.
  - intros a [<- | Ha]; [lia | now apply Hall].
Qed.

Lemma Qle_bool_total (x y : Q) : Qle_bool x y = false -> Qle_bool y x = true.
Proof.
  intros H. apply Qle_bool_iff. apply Qlt_le_weak. apply Qnot_le_lt.
  intros F. apply Qle_bool_iff in F. congruence.
Qed.

Lemma Qle_bool_trans (x y z : Q) :
  Qle_bool x y = true -> Qle_bool y z = true -> Qle_bool x z = true.
Proof.
  rewrite !Qle_bool_iff. apply Qle_trans.
Qed.

(** What [deployment_ratios] returns. *)
Lemma deployment_ratios_value (st : db) (self : schedule) (week : Z) :
  exists from_week to_week,
    Schedule.deployment_ratios st self week
    = Ok (sorted_by (fun x y => Qle_bool (snd x) (snd y))
            (map (fun a => (aff_cleaner a,
                            Cleaner.deployment_ratio st (aff_cleaner a) self from_week to_week))
               (AffiliationQuerySet.active_in_week_for_schedule st week self))).
Proof.
  unfold Schedule.deployment_ratios, Schedule.constant_affiliation_timespan.
  destruct (AffiliationQuerySet.active_in_week_for_schedule st week self) as [|x l].
  - exists 0, 0. reflexivity.
  - match goal with
    | |- context [fold_left ?f (x :: l) None] =>
        change (fold_left f (x :: l) None)
          with (fold_left f l (Some (aff_beginning x, aff_end x)))
    end.
    destruct (timespan_fold l (aff_beginning x) (aff_end x)) as (b & e & E & _).
    cbv zeta in E. rewrite E. exists b, e. reflexivity.
Qed.

(** X6.  [deployment_ratios] never raises: the dict it indexes has its two
    keys whenever there is an active affiliation.  It returns one pair for
    every affiliation that is active for the schedule in the week, in
    ascending order of the ratio. *)
Theorem deployment_ratios_sorted (st : db) (self : schedule) (week : Z) :
  exists ratios,
    Schedule.deployment_ratios st self week = Ok ratios
    /\ Permutation (map fst ratios)
         (map aff_cleaner (AffiliationQuerySet.active_in_week_for_schedule st week self))
    /\ StronglySorted (fun x y => (snd x <= snd y)%Q) ratios.
Proof.
  destruct (deployment_ratios_value st self week) as (b & e & E).
  rewrite E. eexists. split; [reflexivity|].
  set (le := fun x y : pk * Q => Qle_bool (snd x) (snd y)).
  set (ratios := map _ (AffiliationQuerySet.active_in_week_for_schedule st week self)).
  split.
  - rewrite (sorted_by_perm le ratios). unfold ratios. rewrite map_map. cbn [fst].
    reflexivity.
  - assert (S : StronglySorted (fun a c => le a c = true) (sorted_by le ratios)).
    { apply sorted_by_sorted; unfold le.
      - intros p q. apply Qle_bool_total.
      - intros p q r. apply Qle_bool_trans. }
    induction S as [|p rest S IH F]; constructor; [assumption|].
    eapply List.Forall_impl; [|exact F]. intros q Hq. now apply Qle_bool_iff.
Qed.

(** ** Who is chosen *)

Lemma random_choice_in {A : Type} (rnd : nat) (seq : list A) (x : A) :
  random_choice rnd seq = Ok x -> In x seq.
Proof.
  unfold random_choice. destruct seq as [|y seq]; [discriminate|].
  destruct (nth_error (y :: seq) (rnd mod length (y :: seq))) as [z|] eqn:E; [|discriminate].
  intros [= <-]. now apply nth_error_In in E.
Qed.

Lemma random_choice_raises {A : Type} (rnd : nat) (seq : list A) (e : exn) :
  random_choice rnd seq = Raise e -> seq = [] /\ e = IndexError.
Proof.
  unfold random_choice. destruct seq as [|y seq]; [now intros [= <-]|].
  destruct (nth_error (y :: seq) (rnd mod length (y :: seq))) as [z|] eqn:E; [discriminate|].
  apply nth_error_None in E.
  pose proof (Nat.mod_upper_bound rnd (length (y :: seq))) as B.
  cbn [length] in *. lia.
Qed.

Lemma Qeq_bool_trans (x y z : Q) :
  Qeq_bool x y = true -> Qeq_bool y z = true -> Qeq_bool x z = true.
Proof.
  rewrite !Qeq_bool_iff. apply Qeq_trans.
Qed.

(** The first group of [grouped_by_ratios] holds the cleaners with the
    lowest ratio. *)
Lemma grouped_by_ratios_first (ratios : list (pk * Q)) :
  ratios <> [] ->
  exists same_ratio rest,
    Schedule.grouped_by_ratios ratios = same_ratio :: rest
    /\ same_ratio <> []
    /\ forall x, In x same_ratio <-> lowest_ratio ratios x.
Proof.
  intros Hne. unfold Schedule.grouped_by_ratios.
  set (values := distinct Qeq_bool (map snd ratios)).
  assert (Hv : sorted_by Qle_bool values <> []).
  { apply sorted_by_not_nil, distinct_not_nil.
    destruct ratios; [contradiction | discriminate]. }
  destruct (sorted_by Qle_bool values) as [|v vs] eqn:Es; [contradiction|]. clear Hv.
  assert (Hmin : forall y q', In (y, q') ratios -> (v <= q')%Q).
  { intros y q' Hy.
    destruct (distinct_represents Qeq_bool q' (map snd ratios)) as [q'' [Hq'' E]].
    - apply Qeq_bool_refl.
    - apply Qeq_bool_trans.
    - apply in_map_iff. exists (y, q'). now split.
    - apply Qeq_bool_iff in E. rewrite E. apply Qle_bool_iff.
      apply (sorted_by_head Qle_bool Qle_bool_total Qle_bool_trans v vs values Es).
      exact Hq''. }
  assert (Hvin : exists y, In (y, v) ratios).
  { assert (H : In v (sorted_by Qle_bool values)) by (rewrite Es; now left).
    apply in_sorted_by in H. apply in_distinct in H.
    apply in_map_iff in H as [[y q] [E Hin]]. cbn in E. subst q. now exists y. }
  cbn [map]. eexists. eexists. split; [reflexivity|].
  assert (Hiff : forall x,
             In x (map fst (List.filter (fun x0 : pk * Q => Qeq_bool (snd x0) v) ratios))
             <-> lowest_ratio ratios x).
  { intros x. rewrite in_map_iff. split.
    - intros [[x' q] [E Hin]]. cbn in E. subst x'.
      apply filter_In in Hin as [Hin Hq]. cbn in Hq. apply Qeq_bool_iff in Hq.
      exists q. split; [assumption|]. intros y q' Hy. rewrite Hq. now apply (Hmin y).
    - intros [q [Hin Hq]]. exists (x, q). split; [reflexivity|].
      apply filter_In. split; [assumption|]. cbn. apply Qeq_bool_iff.
      destruct Hvin as [y Hy]. apply Qle_antisym; [now apply (Hq y) | now apply (Hmin x)]. }
  split; [|exact Hiff].
  destruct Hvin as [y Hy]. intros Hnil.
  assert (F : In y (map fst (List.filter (fun x0 : pk * Q => Qeq_bool (snd x0) v) ratios))).
  { apply Hiff. exists v. split; [assumption | exact Hmin]. }
  rewrite Hnil in F. contradiction.
Qed.

Lemma Zleb_total (x y : Z) : (x <=? y) = false -> (y <=? x) = true.
Proof. intros H. apply Z.leb_gt in H. apply Z.leb_le. lia. Qed.

Lemma Zleb_trans (x y z : Z) : (x <=? y) = true -> (y <=? z) = true -> (x <=? z) = true.
Proof. rewrite !Z.leb_le. lia. Qed.

(** One round of the loop over the ratio groups: the choice is drawn from
    the cleaners of the group that are not excluded and have as few
    assignments in the week as any cleaner of the group. *)
Lemma for_same_ratio_round (rnd : nat) (st : db) (cw : cleaningweek) (week : Z)
    (same_ratio : list pk) (rest : list (list pk)) :
  same_ratio <> [] ->
  exists candidates,
    Schedule.for_same_ratio rnd st cw week (same_ratio :: rest)
    = Some (random_choice rnd candidates)
    /\ forall x, In x candidates <->
         In x same_ratio
         /\ ((cw_pk cw, x) ∉ cleaningweek_excluded st)
         /\ forall y, In y same_ratio ->
              Cleaner.nr_assignments_in_week st x week
              <= Cleaner.nr_assignments_in_week st y week.
Proof.
  intros Hne. cbn [Schedule.for_same_ratio].
  set (nr := fun x => Cleaner.nr_assignments_in_week st x week).
  set (counts := distinct Z.eqb (map nr same_ratio)).
  assert (Hc : sorted_by Z.leb counts <> []).
  { apply sorted_by_not_nil, distinct_not_nil.
    destruct same_ratio; [contradiction | discriminate]. }
  destruct (sorted_by Z.leb counts) as [|n ns] eqn:Es; [contradiction|]. clear Hc.
  cbn [map Schedule.for_same_assignment_count].
  eexists. split; [reflexivity|].
  assert (Hmin : forall y, In y same_ratio -> n <= nr y).
  { intros y Hy.
    destruct (distinct_represents Z.eqb (nr y) (map nr same_ratio)) as [m [Hm E]].
    - apply Z.eqb_refl.
    - intros a b c. rewrite !Z.eqb_eq. congruence.
    - now apply in_map.
    - apply Z.eqb_eq in E. rewrite E. apply Z.leb_le.
      apply (sorted_by_head Z.leb Zleb_total Zleb_trans n ns counts Es). exact Hm. }
  assert (Hn : exists z, In z same_ratio /\ nr z = n).
  { assert (H : In n (sorted_by Z.leb counts)) by (rewrite Es; now left).
    apply in_sorted_by in H. apply in_distinct in H.
    apply in_map_iff in H as [z [E Hz]]. now exists z. }
  intros x. rewrite !filter_In, negb_true_iff, bool_decide_eq_false, Z.eqb_eq.
  fold (nr x). split.
  - intros [[Hx Hex] E]. repeat split; try assumption.
    intros y Hy. fold (nr y). rewrite E. now apply Hmin.
  - intros (Hx & Hex & Hle). repeat split; try assumption.
    destruct Hn as [z [Hz <-]]. apply Z.le_antisymm; [now apply Hle | now apply Hmin].
Qed.

(** The two loops on the groups of a list of ratios that is not empty. *)
Lemma for_same_ratio_candidates (rnd : nat) (st : db) (cw : cleaningweek) (week : Z)
    (ratios : list (pk * Q)) :
  ratios <> [] ->
  exists candidates,
    Schedule.for_same_ratio rnd st cw week (Schedule.grouped_by_ratios ratios)
    = Some (random_choice rnd candidates)
    /\ forall x, In x candidates <->
         fewest_assignments st week ratios x
         /\ (cw_pk cw, x) ∉ cleaningweek_excluded st.
Proof.
  intros Hne.
  destruct (grouped_by_ratios_first ratios Hne) as (g & rest & -> & Hg & Hlow).
  destruct (for_same_ratio_round rnd st cw week g rest Hg) as (candidates & -> & Hc).
  exists candidates. split; [reflexivity|].
  intros x. rewrite Hc. unfold fewest_assignments. rewrite <- Hlow. split.
  - intros (Hx & Hex & Hle). repeat split; try assumption.
    intros y Hy. apply Hle. now apply Hlow.
  - intros ((Hx & Hle) & Hex). repeat split; try assumption.
    intros y Hy. apply Hle. now apply Hlow.
Qed.

(** X7.  The cleaner the loops of [create_assignment] choose is not excluded
    from the cleaning week, has the lowest ratio of the list and, among the
    cleaners with the lowest ratio (excluded or not), the fewest assignments
    in the week. *)
Theorem chosen_cleaner_is_fair (rnd : nat) (st : db) (cw : cleaningweek) (week : Z)
    (ratios : list (pk * Q)) (choice : pk) :
  Schedule.for_same_ratio rnd st cw week (Schedule.grouped_by_ratios ratios)
  = Some (Ok choice) ->
  fewest_assignments st week ratios choice
  /\ (cw_pk cw, choice) ∉ cleaningweek_excluded st.
Proof.
  intros H.
  destruct ratios as [|p ratios]; [discriminate H|].
  destruct (for_same_ratio_candidates rnd st cw week (p :: ratios)) as (candidates & E & Hc);
    [discriminate|].
  rewrite E in H. injection H as H. apply random_choice_in in H. now apply Hc.
Qed.

Lemma chosen_cleaner_is_fair_witness :
  fewest_assignments Examples.stale 5 [(7, 0%Q); (8, 0%Q)] 7
  /\ (1, 7) ∉ cleaningweek_excluded Examples.stale.
Proof.
  apply (chosen_cleaner_is_fair 0 Examples.stale (Examples.occurrence 1 5 1 false) 5
           [(7, 0%Q); (8, 0%Q)] 7).
  vm_compute. reflexivity.
Defined.

(** X8.  On ratios that are not empty the loops end in their first round,
    with a cleaner or with [IndexError]; they raise exactly when every
    cleaner who has the lowest ratio and the fewest assignments in the week
    is excluded from the cleaning week, whoever else is eligible. *)
Theorem choice_raises_iff_fewest_excluded (rnd : nat) (st : db) (cw : cleaningweek)
    (week : Z) (ratios : list (pk * Q)) :
  ratios <> [] ->
  ((exists choice,
      Schedule.for_same_ratio rnd st cw week (Schedule.grouped_by_ratios ratios)
      = Some (Ok choice))
   \/ Schedule.for_same_ratio rnd st cw week (Schedule.grouped_by_ratios ratios)
      = Some (Raise IndexError))
  /\ (Schedule.for_same_ratio rnd st cw week (Schedule.grouped_by_ratios ratios)
      = Some (Raise IndexError)
      <-> forall x, fewest_assignments st week ratios x ->
            (cw_pk cw, x) ∈ cleaningweek_excluded st).
Proof.
  intros Hne.
  destruct (for_same_ratio_candidates rnd st cw week ratios Hne) as (candidates & E & Hc).
  rewrite E. split.
  - destruct (random_choice rnd candidates) as [x|e] eqn:R.
    + left. now exists x.
    + right. apply random_choice_raises in R as [_ ->]. reflexivity.
  - split.
    + intros [= R]. apply random_choice_raises in R as [-> _].
      intros x Hx.
      destruct (decide ((cw_pk cw, x) ∈ cleaningweek_excluded st)) as [Hin|Hout];
        [assumption|].
      exfalso. apply (proj2 (Hc x)). now split.
    + intros Hall. destruct candidates as [|x l]; [reflexivity|]. exfalso.
      destruct (proj1 (Hc x) (or_introl eq_refl)) as [Hf Hex].
      apply Hex. now apply Hall.
Qed.

Lemma choice_raises_iff_fewest_excluded_witness :
  ((exists choice,
      Schedule.for_same_ratio 0 Examples.all_excluded (Examples.occurrence 1 5 1 true) 5
        (Schedule.grouped_by_ratios [(7, 0%Q)]) = Some (Ok choice))
   \/ Schedule.for_same_ratio 0 Examples.all_excluded (Examples.occurrence 1 5 1 true) 5
        (Schedule.grouped_by_ratios [(7, 0%Q)]) = Some (Raise IndexError))
  /\ (Schedule.for_same_ratio 0 Examples.all_excluded (Examples.occurrence 1 5 1 true) 5
        (Schedule.grouped_by_ratios [(7, 0%Q)]) = Some (Raise IndexError)
      <-> forall x, fewest_assignments Examples.all_excluded 5 [(7, 0%Q)] x ->
            (cw_pk (Examples.occurrence 1 5 1 true), x)
              ∈ cleaningweek_excluded Examples.all_excluded).
Proof.
  apply (choice_raises_iff_fewest_excluded 0 Examples.all_excluded
           (Examples.occurrence 1 5 1 true) 5 [(7, 0%Q)]).
  discriminate.
Defined.

(** ** The steps of [create_assignment] *)

Lemma create_assignment_steps (rnd : nat) (st : db) (self : schedule) (week : Z) :
  Schedule.create_assignment rnd st self week
  = if sch_disabled self then (Ok ReturnFalse, st)
    else if negb (Schedule.occurs_in_week self week)
    then (Ok ReturnFalse,
          match List.filter (fun c => cw_week c =? week)
                  (Schedule.cleaningweek_set st (sch_pk self)) with
          | c :: _ => CleaningWeek.delete st c
          | [] => st
          end)
    else match prepare_week st self week with
         | (Raise e, st) => (Raise e, st)
         | (Ok cleaning_week, st) => assign_cleaner rnd st self week cleaning_week
         end.
Proof.
  unfold Schedule.create_assignment, prepare_week, assign_cleaner.
  destruct (sch_disabled self); [reflexivity|].
  destruct (negb (Schedule.occurs_in_week self week)); [reflexivity|].
  destruct (Schedule.get_or_create st self week) as [[c|e] st0]; [|reflexivity].
  destruct (negb (cw_tasks_valid c)).
  - destruct (CleaningWeek.create_missing_tasks st0 c) as [c1 st1].
    destruct (negb (cw_assignments_valid c1)); reflexivity.
  - destruct (negb (cw_assignments_valid c)); reflexivity.
Qed.

Lemma only_week_ext (st st' : db) (c : cleaningweek) :
  cleaningweeks st' = cleaningweeks st -> only_week st c -> only_week st' c.
Proof. unfold only_week. now intros ->. Qed.

Lemma same_people_refl (st : db) : same_people st st.
Proof. now repeat split. Qed.

Lemma same_people_trans (st1 st2 st3 : db) :
  same_people st1 st2 -> same_people st2 st3 -> same_people st1 st3.
Proof. unfold same_people. intros (A1 & A2 & A3) (B1 & B2 & B3). repeat split; congruence. Qed.

Lemma get_or_create_spec (st : db) (self : schedule) (week : Z) (c : cleaningweek)
    (st0 : db) :
  Schedule.get_or_create st self week = (Ok c, st0) ->
  only_week st0 c /\ cw_week c = week /\ cw_schedule c = sch_pk self
  /\ same_people st st0.
Proof.
  unfold Schedule.get_or_create.
  assert (Hsel : forall r, In r (cleaningweeks st) -> cw_schedule r = sch_pk self ->
                   cw_week r = week ->
                   In r (List.filter (fun c0 => cw_week c0 =? week)
                           (Schedule.cleaningweek_set st (sch_pk self)))).
  { intros r Hr Hs Hw. apply filter_In. split; [|now apply Z.eqb_eq].
    apply filter_In. split; [assumption | now apply Z.eqb_eq]. }
  destruct (List.filter (fun c0 => cw_week c0 =? week)
              (Schedule.cleaningweek_set st (sch_pk self))) as [|x [|y l]] eqn:F.
  - intros [= <- <-]. cbn. repeat split.
    + apply in_or_app. right. now left.
    + intros r Hr Hs Hw. apply in_app_or in Hr as [Hr | [<- | []]]; [|reflexivity].
      destruct (Hsel r Hr Hs Hw).
  - intros [= <- <-].
    assert (Hx : In x [x]) by now left.
    rewrite <- F in Hx. apply filter_In in Hx as [Hx Hw]. apply filter_In in Hx as [Hx Hs].
    apply Z.eqb_eq in Hw, Hs. repeat split; try assumption.
    intros r Hr Hs' Hw'. rewrite Hs in Hs'. rewrite Hw in Hw'.
    destruct (Hsel r Hr Hs' Hw') as [<- | []]. reflexivity.
  - discriminate.
Qed.

(** Writing a cleaning week back with other flags. *)
Lemma save_only_week (st : db) (c c' : cleaningweek) :
  only_week st c ->
  cw_pk c' = cw_pk c -> cw_week c' = cw_week c -> cw_schedule c' = cw_schedule c ->
  only_week (CleaningWeek.save st c') c'.
Proof.
  intros [Hin Huniq] Hk Hw Hs. unfold only_week, CleaningWeek.save. cbn [cleaningweeks with_cleaningweeks].
  rewrite (save_row_present cw_pk c') by (exists c; now split).
  split.
  - apply in_map_iff. exists c. split; [|assumption].
    rewrite <- Hk. now rewrite Z.eqb_refl.
  - intros r Hr Hrs Hrw. apply in_map_iff in Hr as [r0 [E Hr0]].
    destruct (Z.eqb_spec (cw_pk r0) (cw_pk c')) as [Ek|Ek]; [now symmetry|].
    subst r. exfalso. apply Ek.
    rewrite (Huniq r0 Hr0) by congruence. now symmetry.
Qed.

Lemma create_tasks_people (self : cleaningweek) (l : list tasktemplate) : forall st : db,
  same_people st (fold_left (CleaningWeek.create_task self) l st).
Proof.
  induction l as [|tt l IH]; intros st; [apply same_people_refl|].
  cbn [fold_left]. eapply same_people_trans; [|apply IH]. now repeat split.
Qed.

Lemma create_missing_tasks_step (st : db) (c : cleaningweek) :
  only_week st c ->
  let out := CleaningWeek.create_missing_tasks st c in
  only_week (snd out) (fst out)
  /\ cw_pk (fst out) = cw_pk c /\ cw_week (fst out) = cw_week c
  /\ cw_schedule (fst out) = cw_schedule c
  /\ cw_tasks_valid (fst out) = true
  /\ cw_assignments_valid (fst out) = cw_assignments_valid c
  /\ same_people st (snd out)
  /\ assignments (snd out) = assignments st.
Proof.
  intros Ho. unfold CleaningWeek.create_missing_tasks. cbn [fst snd].
  set (l := List.filter _ (CleaningWeek.task_templates_missing st c)).
  destruct (create_tasks_tables c l st) as (E1 & E2 & E3 & _).
  pose proof (create_tasks_people c l st) as P.
  cbv zeta in *. set (st1 := fold_left _ l st) in *.
  split; [|repeat split; try reflexivity].
  - apply (save_only_week st1 c); try reflexivity. now apply (only_week_ext st).
  - apply P.
  - apply P.
  - apply P.
  - exact E3.
Qed.

Lemma recompute_assignments_step (st : db) (c : cleaningweek) :
  only_week st c ->
  let out := CleaningWeek.set_assignments_valid_field
               (Assignment.delete st (fun a => asg_cleaning_week a =? cw_pk c)) c true in
  only_week (snd out) (fst out)
  /\ cw_pk (fst out) = cw_pk c /\ cw_week (fst out) = cw_week c
  /\ cw_schedule (fst out) = cw_schedule c
  /\ cw_tasks_valid (fst out) = cw_tasks_valid c
  /\ cw_assignments_valid (fst out) = true
  /\ same_people st (snd out)
  /\ CleaningWeek.assignment_set (snd out) (fst out) = [].
Proof.
  intros Ho. unfold CleaningWeek.set_assignments_valid_field. cbn [fst snd].
  split; [|repeat split].
  - apply (save_only_week _ c); try reflexivity.
    now apply (only_week_ext st).
  - unfold CleaningWeek.assignment_set. cbn.
    apply (filter_none (fun a => asg_cleaning_week a =? cw_pk c)).
Qed.

(** The first step leaves the cleaning week of the schedule and week, up to
    date and alone; who is affiliated and who is excluded is not touched. *)
Lemma prepare_week_spec (st : db) (self : schedule) (week : Z) (cw : cleaningweek)
    (st2 : db) :
  prepare_week st self week = (Ok cw, st2) ->
  only_week st2 cw /\ cw_week cw = week /\ cw_schedule cw = sch_pk self
  /\ cw_tasks_valid cw = true /\ cw_assignments_valid cw = true
  /\ same_people st st2.
Proof.
  unfold prepare_week.
  destruct (Schedule.get_or_create st self week) as [[c|e] st0] eqn:G; [|discriminate].
  apply get_or_create_spec in G as (Ho & Hw & Hs & Hp).
  destruct (cw_tasks_valid c) eqn:Tv; cbn [negb].
  - destruct (cw_assignments_valid c) eqn:Av; cbn [negb].
    + intros [= <- <-]. split; [assumption|]. repeat split; try assumption; apply Hp.
    + destruct (recompute_assignments_step st0 c Ho) as (Q1 & Q2 & Q3 & Q4 & Q5 & Q6 & Q7 & _).
      cbv zeta in *.
      destruct (CleaningWeek.set_assignments_valid_field _ c true) as [c2 s2].
      cbn [fst snd] in *. intros [= <- <-].
      split; [assumption|]. repeat split; try congruence.
      all: apply (same_people_trans st st0 s2 Hp Q7).
  - destruct (create_missing_tasks_step st0 c Ho) as (R1 & R2 & R3 & R4 & R5 & R6 & R7 & _).
    cbv zeta in *.
    destruct (CleaningWeek.create_missing_tasks st0 c) as [c1 s1]. cbn [fst snd] in *.
    destruct (cw_assignments_valid c1) eqn:Av; cbn [negb].
    + intros [= <- <-]. split; [assumption|]. repeat split; try congruence.
      all: apply (same_people_trans st st0 s1 Hp R7).
    + destruct (recompute_assignments_step s1 c1 R1) as (Q1 & Q2 & Q3 & Q4 & Q5 & Q6 & Q7 & _).
      cbv zeta in *.
      destruct (CleaningWeek.set_assignments_valid_field _ c1 true) as [c2 s2].
      cbn [fst snd] in *. intros [= <- <-].
      split; [assumption|]. repeat split; try congruence.
      all: apply (same_people_trans st s1 s2 (same_people_trans st st0 s1 Hp R7) Q7).
Qed.

(** The second step, when it assigns. *)
Lemma assign_cleaner_spec (rnd : nat) (st : db) (self : schedule) (week : Z)
    (cw : cleaningweek) (a : assignment) (st' : db) :
  assign_cleaner rnd st self week cw = (Ok (ReturnAssignment a), st') ->
  count (CleaningWeek.assignment_set st cw) < sch_cleaners_per_date self
  /\ cleaningweeks st' = cleaningweeks st
  /\ same_people st st'
  /\ assignments st' = assignments st ++ [a]
  /\ asg_cleaning_week a = cw_pk cw
  /\ asg_schedule a = sch_pk self
  /\ exists ratios,
       Schedule.deployment_ratios st self week = Ok ratios
       /\ Schedule.for_same_ratio rnd st cw week (Schedule.grouped_by_ratios ratios)
          = Some (Ok (asg_cleaner a)).
Proof.
  unfold assign_cleaner.
  destruct (Z.leb_spec (sch_cleaners_per_date self) (count (CleaningWeek.assignment_set st cw)))
    as [|Hlt]; [discriminate|].
  destruct (Schedule.deployment_ratios st self week) as [ratios|e] eqn:D; [|discriminate].
  destruct ratios as [|[first q] ratios]; [discriminate|].
  destruct (for_same_ratio_candidates rnd st cw week ((first, q) :: ratios))
    as (candidates & E & _); [discriminate|].
  rewrite E. destruct (random_choice rnd candidates) as [choice|e]; [|discriminate].
  cbn. intros [= <- <-]. cbn. split; [assumption|].
  repeat split. exists ((first, q) :: ratios). now split.
Qed.

(** The second step, when it does not assign, writes nothing. *)
Lemma assign_cleaner_idle (rnd : nat) (st : db) (self : schedule) (week : Z)
    (cw : cleaningweek) (r : result returned) (st' : db) :
  assign_cleaner rnd st self week cw = (r, st') ->
  (forall a, r <> Ok (ReturnAssignment a)) -> st' = st.
Proof.
  unfold assign_cleaner.
  destruct (sch_cleaners_per_date self <=? count (CleaningWeek.assignment_set st cw));
    [now intros [= <- <-]|].
  destruct (Schedule.deployment_ratios st self week) as [ratios|e]; [|now intros [= <- <-]].
  destruct ratios as [|[first q] ratios]; [now intros [= <- <-]|].
  destruct (Schedule.for_same_ratio rnd st cw week _) as [[choice|e]|].
  - cbn. intros [= <- <-] H. exfalso. eapply H. reflexivity.
  - now intros [= <- <-].
  - cbn. intros [= <- <-] H. exfalso. eapply H. reflexivity.
Qed.

Lemma create_assignment_created (rnd : nat) (st : db) (self : schedule) (week : Z)
    (a : assignment) (st' : db) :
  Schedule.create_assignment rnd st self week = (Ok (ReturnAssignment a), st') ->
  sch_disabled self = false /\ Schedule.occurs_in_week self week = true
  /\ exists cw st2,
       prepare_week st self week = (Ok cw, st2)
       /\ assign_cleaner rnd st2 self week cw = (Ok (ReturnAssignment a), st').
Proof.
  rewrite create_assignment_steps.
  destruct (sch_disabled self); [discriminate|].
  destruct (Schedule.occurs_in_week self week); [|discriminate]. cbn [negb].
  destruct (prepare_week st self week) as [[cw|e] st2]; [|discriminate].
  intros H. repeat split. now exists cw, st2.
Qed.

(** X9.  An assignment that [create_assignment] creates goes to a cleaner
    who, in that week, is affiliated to a group of the schedule and who is
    not excluded from the cleaning week; the schedule is enabled and occurs
    in the week, and the assignment belongs to the cleaning week of the
    schedule and week, whose two flags are set. *)
Theorem create_assignment_assigns_eligible (rnd : nat) (st : db) (self : schedule)
    (week : Z) (a : assignment) (st' : db) :
  Schedule.create_assignment rnd st self week = (Ok (ReturnAssignment a), st') ->
  sch_disabled self = false
  /\ Schedule.occurs_in_week self week = true
  /\ ((asg_cleaning_week a, asg_cleaner a) ∉ cleaningweek_excluded st')
  /\ (exists aff, In aff (affiliations st)
        /\ aff_cleaner aff = asg_cleaner a
        /\ aff_beginning aff <= week <= aff_end aff
        /\ (aff_group aff, sch_pk self) ∈ schedulegroup_schedules st)
  /\ exists cw, In cw (cleaningweeks st')
       /\ cw_pk cw = asg_cleaning_week a
       /\ cw_week cw = week /\ cw_schedule cw = sch_pk self
       /\ cw_tasks_valid cw = true /\ cw_assignments_valid cw = true.
Proof.
  intros H. apply create_assignment_created in H as (Hd & Ho & cw & st2 & P & A).
  apply prepare_week_spec in P as ((Hin & _) & Hw & Hs & Tv & Av & (P1 & P2 & P3)).
  apply assign_cleaner_spec in A
    as (_ & C & (Q1 & Q2 & Q3) & _ & Hcw & _ & ratios & D & F).
  split; [assumption|]. split; [assumption|].
  assert (Hr : ratios <> []).
  { intros ->. discriminate F. }
  destruct (for_same_ratio_candidates rnd st2 cw week ratios Hr) as (candidates & E & Hc).
  rewrite E in F. injection F as F. apply random_choice_in, Hc in F as [[[q [Hq _]] _] Hex].
  split; [|split].
  - rewrite Hcw, Q3. exact Hex.
  - destruct (deployment_ratios_value st2 self week) as (b & e & V).
    rewrite V in D. injection D as <-.
    apply in_sorted_by in Hq. apply in_map_iff in Hq as [aff [Eq Haff]].
    injection Eq as Eq _.
    apply active_in_week_for_schedule_in in Haff as (I1 & I2 & I3).
    exists aff. rewrite <- P1, <- P2. now repeat split.
  - exists cw. rewrite C. now repeat split.
Qed.

Lemma count_app {A : Type} (l1 l2 : list A) : count (l1 ++ l2) = count l1 + count l2.
Proof. unfold count. rewrite length_app. lia. Qed.

Lemma assignment_set_after (st st' : db) (cw : cleaningweek) (a : assignment) :
  assignments st' = assignments st ++ [a] -> asg_cleaning_week a = cw_pk cw ->
  CleaningWeek.assignment_set st' cw = CleaningWeek.assignment_set st cw ++ [a].
Proof.
  intros E Hcw. unfold CleaningWeek.assignment_set. rewrite E, List.filter_app. cbn.
  now rewrite Hcw, Z.eqb_refl.
Qed.

(** X10.  [create_assignment] never fills a cleaning week beyond
    [cleaners_per_date]: after a call that created an assignment, the
    cleaning week of the schedule and week holds that assignment and at most
    [cleaners_per_date] assignments in all. *)
Theorem create_assignment_slot_cap (rnd : nat) (st : db) (self : schedule)
    (week : Z) (a : assignment) (st' : db) :
  Schedule.create_assignment rnd st self week = (Ok (ReturnAssignment a), st') ->
  exists cw, In cw (cleaningweeks st')
    /\ cw_week cw = week /\ cw_schedule cw = sch_pk self
    /\ In a (CleaningWeek.assignment_set st' cw)
    /\ count (CleaningWeek.assignment_set st' cw) <= sch_cleaners_per_date self.
Proof.
  intros H. apply create_assignment_created in H as (_ & _ & cw & st2 & P & A).
  apply prepare_week_spec in P as ((Hin & _) & Hw & Hs & _).
  apply assign_cleaner_spec in A as (Hlt & C & _ & E & Hcw & _).
  exists cw. rewrite C, (assignment_set_after st2 st' cw a E Hcw).
  repeat split; try assumption.
  - apply in_or_app. right. now left.
  - rewrite count_app. change (count [a]) with 1. lia.
Qed.

Lemma create_assignment_assigns_eligible_witness :
  sch_disabled (Examples.weekly 1) = false
  /\ Schedule.occurs_in_week (Examples.weekly 1) 5 = true
  /\ ((asg_cleaning_week Examples.assigned, asg_cleaner Examples.assigned)
        ∉ cleaningweek_excluded Examples.after_assignment)
  /\ (exists aff, In aff (affiliations Examples.stale)
        /\ aff_cleaner aff = asg_cleaner Examples.assigned
        /\ aff_beginning aff <= 5 <= aff_end aff
        /\ (aff_group aff, sch_pk (Examples.weekly 1))
             ∈ schedulegroup_schedules Examples.stale)
  /\ exists cw, In cw (cleaningweeks Examples.after_assignment)
       /\ cw_pk cw = asg_cleaning_week Examples.assigned
       /\ cw_week cw = 5 /\ cw_schedule cw = sch_pk (Examples.weekly 1)
       /\ cw_tasks_valid cw = true /\ cw_assignments_valid cw = true.
Proof.
  apply (create_assignment_assigns_eligible 0 Examples.stale (Examples.weekly 1) 5
           Examples.assigned Examples.after_assignment).
  reflexivity.
Defined.

Lemma create_assignment_slot_cap_witness :
  exists cw, In cw (cleaningweeks Examples.after_assignment)
    /\ cw_week cw = 5 /\ cw_schedule cw = sch_pk (Examples.weekly 1)
    /\ In Examples.assigned (CleaningWeek.assignment_set Examples.after_assignment cw)
    /\ count (CleaningWeek.assignment_set Examples.after_assignment cw)
       <= sch_cleaners_per_date (Examples.weekly 1).
Proof.
  apply (create_assignment_slot_cap 0 Examples.stale (Examples.weekly 1) 5
           Examples.assigned Examples.after_assignment).
  reflexivity.
Defined.

(** ** Filling the weeks of a timespan *)

(** On a cleaning week that is alone and up to date, [create_assignment] is
    its second step. *)
Lemma create_assignment_settled (rnd : nat) (st : db) (self : schedule) (week : Z)
    (c : cleaningweek) :
  sch_disabled self = false -> Schedule.occurs_in_week self week = true ->
  List.filter (fun c => cw_week c =? week) (Schedule.cleaningweek_set st (sch_pk self)) = [c] ->
  cw_tasks_valid c = true -> cw_assignments_valid c = true ->
  Schedule.create_assignment rnd st self week = assign_cleaner rnd st self week c.
Proof.
  intros Hd Ho F Tv Av. rewrite create_assignment_steps, Hd, Ho. cbn [negb].
  unfold prepare_week, Schedule.get_or_create. rewrite F, Tv. cbn [negb].
  rewrite Av. reflexivity.
Qed.

(** Two cleaning weeks for one schedule and week: [get_or_create] raises. *)
Lemma create_assignment_stuck (rnd : nat) (st : db) (self : schedule) (week : Z)
    (x y : cleaningweek) (l : list cleaningweek) :
  sch_disabled self = false -> Schedule.occurs_in_week self week = true ->
  List.filter (fun c => cw_week c =? week) (Schedule.cleaningweek_set st (sch_pk self))
  = x :: y :: l ->
  Schedule.create_assignment rnd st self week = (Raise MultipleObjectsReturned, st).
Proof.
  intros Hd Ho F. rewrite create_assignment_steps, Hd, Ho. cbn [negb].
  unfold prepare_week, Schedule.get_or_create. now rewrite F.
Qed.

Lemma cleaningweek_set_ext (st st' : db) (k : pk) :
  cleaningweeks st' = cleaningweeks st ->
  Schedule.cleaningweek_set st' k = Schedule.cleaningweek_set st k.
Proof. unfold Schedule.cleaningweek_set. now intros ->. Qed.

(** The loop on a cleaning week that is alone and up to date: every round
    that does not end the loop adds an assignment to the week. *)
Lemma while_settled (self : schedule) (week : Z) (c : cleaningweek) (rnd : nat -> nat) :
  sch_disabled self = false -> Schedule.occurs_in_week self week = true ->
  cw_tasks_valid c = true -> cw_assignments_valid c = true ->
  forall (fuel calls : nat) (st : db),
    List.filter (fun c => cw_week c =? week) (Schedule.cleaningweek_set st (sch_pk self)) = [c] ->
    (Z.to_nat (sch_cleaners_per_date self - count (CleaningWeek.assignment_set st c)) < fuel)%nat ->
    exists out, Schedule.while_create_assignment fuel rnd calls st self week = Some out.
Proof.
  intros Hd Ho Tv Av. induction fuel as [|fuel IH]; intros calls st F Hm; [lia|].
  cbn [Schedule.while_create_assignment].
  rewrite (create_assignment_settled (rnd calls) st self week c Hd Ho F Tv Av).
  destruct (assign_cleaner (rnd calls) st self week c) as [[[|a]|e] st'] eqn:A.
  - eexists. reflexivity.
  - apply assign_cleaner_spec in A as (Hlt & C & _ & E & Hcw & _).
    apply IH.
    + now rewrite (cleaningweek_set_ext st st' _ C).
    + rewrite (assignment_set_after st st' c a E Hcw), count_app.
      change (count [a]) with 1. lia.
  - eexists. reflexivity.
Qed.

(** The loop of one week ends, from any store. *)
Lemma while_terminates (self : schedule) (week : Z) (rnd : nat -> nat)
    (fuel calls : nat) (st : db) :
  (Z.to_nat (sch_cleaners_per_date self) < fuel)%nat ->
  exists out, Schedule.while_create_assignment fuel rnd calls st self week = Some out.
Proof.
  intros Hf. destruct fuel as [|fuel]; [lia|].
  cbn [Schedule.while_create_assignment].
  destruct (Schedule.create_assignment (rnd calls) st self week) as [[[|a]|e] st'] eqn:Cr.
  - eexists. reflexivity.
  - apply create_assignment_created in Cr as (Hd & Ho & cw & st2 & P & A).
    apply prepare_week_spec in P as ((Hin & Huniq) & Hw & Hs & Tv & Av & _).
    apply assign_cleaner_spec in A as (Hlt & C & _ & E & Hcw & _).
    pose proof (count_filter_le (fun x => asg_cleaning_week x =? cw_pk cw) (assignments st2))
      as [H0 _].
    fold (CleaningWeek.assignment_set st2 cw) in H0.
    assert (Hall : forall r,
              In r (List.filter (fun c => cw_week c =? week)
                      (Schedule.cleaningweek_set st' (sch_pk self))) -> r = cw).
    { intros r Hr. apply filter_In in Hr as [Hr Hrw].
      apply filter_In in Hr as [Hr Hrs]. apply Z.eqb_eq in Hrw, Hrs.
      rewrite C in Hr. apply Huniq; congruence. }
    assert (Hcwin : In cw (List.filter (fun c => cw_week c =? week)
                             (Schedule.cleaningweek_set st' (sch_pk self)))).
    { apply filter_In. split; [|now apply Z.eqb_eq].
      apply filter_In. split; [now rewrite C | now apply Z.eqb_eq]. }
    destruct (List.filter (fun c => cw_week c =? week)
                (Schedule.cleaningweek_set st' (sch_pk self))) as [|x [|y l]] eqn:F.
    + contradiction.
    + rewrite (Hall x (or_introl eq_refl)) in F.
      apply (while_settled self week cw rnd Hd Ho Tv Av fuel (S calls) st' F).
      rewrite (assignment_set_after st2 st' cw a E Hcw), count_app.
      change (count [a]) with 1. lia.
    + destruct fuel as [|fuel]; [lia|].
      cbn [Schedule.while_create_assignment].
      rewrite (create_assignment_stuck (rnd (S calls)) st' self week x y l Hd Ho F).
      eexists. reflexivity.
  - eexists. reflexivity.
Qed.

Lemma for_week_terminates (self : schedule) (rnd : nat -> nat) (fuel : nat)
    (weeks : list Z) :
  (Z.to_nat (sch_cleaners_per_date self) < fuel)%nat ->
  forall (calls : nat) (st : db),
    exists out, Schedule.for_week fuel rnd calls st self weeks = Some out.
Proof.
  intros Hf. induction weeks as [|week weeks IH]; intros calls st.
  - eexists. reflexivity.
  - cbn [Schedule.for_week].
    destruct (while_terminates self week rnd fuel calls st Hf) as [[[u|e] [calls' st']] ->].
    + apply IH.
    + eexists. reflexivity.
Qed.

(** X11.  [create_assignments_over_timespan] returns: in every week the loop
    [while self.create_assignment(week=week)] ends after at most
    [cleaners_per_date + 1] calls, from any store and with any draws, because
    a call either returns [False], raises, or adds an assignment to a
    cleaning week that is then up to date. *)
Theorem create_assignments_over_timespan_terminates (fuel : nat) (rnd : nat -> nat)
    (st : db) (self : schedule) (start_week end_week : Z) :
  (Z.to_nat (sch_cleaners_per_date self) < fuel)%nat ->
  exists out,
    Schedule.create_assignments_over_timespan fuel rnd st self start_week end_week
    = Some out.
Proof.
  intros Hf. unfold Schedule.create_assignments_over_timespan. cbv zeta.
  now apply for_week_terminates.
Qed.

Lemma create_assignments_over_timespan_terminates_witness :
  exists out,
    Schedule.create_assignments_over_timespan 2 (fun _ => 0%nat) Examples.stale
      (Examples.weekly 1) 7 5 = Some out.
Proof.
  apply (create_assignments_over_timespan_terminates 2 (fun _ => 0%nat) Examples.stale
           (Examples.weekly 1) 7 5).
  cbn. lia.
Defined.

(** ** Tasks of a cleaning week *)

Lemma filter_partition_length {A : Type} (f : A -> bool) (l : list A) :
  (length (List.filter (fun x => negb (f x)) l) + length (List.filter f l) = length l)%nat.
Proof.
  induction l as [|x l IH]; [reflexivity|]. cbn.
  destruct (f x); cbn; lia.
Qed.

Lemma count_nil {A : Type} (l : list A) : count l = 0 <-> l = [].
Proof.
  unfold count. split.
  - intros H. destruct l; [reflexivity | cbn in H; lia].
  - now intros ->.
Qed.

Lemma Qdiv_eq_one (a b : Z) : b <> 0 -> (inject_Z a / inject_Z b == 1)%Q <-> a = b.
Proof.
  intros Hb.
  assert (Hq : ~ (inject_Z b == 0)%Q).
  { intros E. apply Hb. apply (inject_Z_injective b 0). exact E. }
  split.
  - intros E. apply inject_Z_injective.
    rewrite <- (Qmult_div_r (inject_Z a) (inject_Z b) Hq), E. apply Qmult_1_r.
  - intros ->. unfold Qdiv. now apply Qmult_inv_r.
Qed.

(** X12.  [all_tasks_are_completed] raises [ZeroDivisionError] on a cleaning
    week without tasks, and only there; on a cleaning week with tasks it is
    true exactly when no task is open. *)
Theorem all_tasks_are_completed_cases (st : db) (self : cleaningweek) :
  match CleaningWeek.all_tasks_are_completed st self with
  | ZeroDivisionError => CleaningWeek.task_set st self = []
  | Quotient all_completed =>
      CleaningWeek.task_set st self <> []
      /\ (all_completed = true <-> CleaningWeek.open_tasks st self = [])
  end.
Proof.
  unfold CleaningWeek.all_tasks_are_completed, CleaningWeek.ratio_of_completed_tasks, true_div.
  destruct (Z.eqb_spec (count (CleaningWeek.task_set st self)) 0) as [E|N].
  - now apply count_nil.
  - split; [now rewrite <- count_nil|].
    rewrite Qeq_bool_iff, (Qdiv_eq_one _ _ N), <- count_nil.
    unfold CleaningWeek.completed_tasks, CleaningWeek.open_tasks, count.
    pose proof (filter_partition_length
                  (fun t => match task_cleaned_by t with None => true | Some _ => false end)
                  (CleaningWeek.task_set st self)).
    lia.
Qed.

Lemma create_tasks_templates (self : cleaningweek) (l : list tasktemplate) : forall st : db,
  tasktemplates (fold_left (CleaningWeek.create_task self) l st) = tasktemplates st.
Proof.
  induction l as [|tt l IH]; intros st; [reflexivity|].
  cbn [fold_left]. now rewrite IH.
Qed.

Lemma create_tasks_created (self : cleaningweek) (l : list tasktemplate) : forall st : db,
  let st' := fold_left (CleaningWeek.create_task self) l st in
  (forall t, In t (tasks st) -> In t (tasks st'))
  /\ forall tt, In tt l ->
       exists t, In t (tasks st') /\ task_cleaning_week t = cw_pk self
                 /\ task_template t = tt_pk tt.
Proof.
  induction l as [|x l IH]; intros st; cbv zeta.
  - split; [trivial | contradiction].
  - cbn [fold_left]. destruct (IH (CleaningWeek.create_task self st x)) as [K C].
    cbv zeta in K, C. split.
    + intros t Ht. apply K. cbn. apply in_or_app. now left.
    + intros tt [<- | Htt]; [|now apply C].
      eexists. split; [apply K; cbn; apply in_or_app; right; now left|]. now split.
Qed.

(** X13.  After [create_missing_tasks] no task template is missing: every
    enabled template of the schedule has a task in the cleaning week.  The
    tasks that were there are kept and [tasks_valid] is set. *)
Theorem create_missing_tasks_complete (st : db) (self : cleaningweek) :
  let out := CleaningWeek.create_missing_tasks st self in
  CleaningWeek.task_templates_missing (snd out) (fst out) = []
  /\ cw_tasks_valid (fst out) = true
  /\ forall t, In t (tasks st) -> In t (tasks (snd out)).
Proof.
  cbv zeta. unfold CleaningWeek.create_missing_tasks. cbn [fst snd].
  set (l := List.filter _ (CleaningWeek.task_templates_missing st self)).
  destruct (create_tasks_created self l st) as [K C]. cbv zeta in K, C.
  pose proof (create_tasks_templates self l st) as T.
  set (st1 := fold_left _ l st) in *.
  split; [|split; [reflexivity | exact K]].
  unfold CleaningWeek.task_templates_missing, CleaningWeek.task_set, CleaningWeek.save.
  cbn [tasktemplates tasks with_cleaningweeks cw_schedule cw_pk]. rewrite T.
  destruct (List.filter _ (tasktemplates st)) as [|tt rest] eqn:F; [reflexivity|]. exfalso.
  assert (Htt : In tt (tt :: rest)) by now left.
  rewrite <- F in Htt. apply filter_In in Htt as [Hin Hc].
  apply andb_true_iff in Hc as [Hc Hno]. apply andb_true_iff in Hc as [Hs Hen].
  apply negb_true_iff in Hno.
  assert (Hyes : existsb (fun t => task_template t =? tt_pk tt)
                   (List.filter (fun t => task_cleaning_week t =? cw_pk self) (tasks st1))
                 = true); [|congruence].
  apply existsb_exists.
  destruct (existsb (fun t => task_template t =? tt_pk tt) (CleaningWeek.task_set st self))
    eqn:Had.
  - apply existsb_exists in Had as [t [Ht E]]. exists t. split; [|assumption].
    apply filter_In in Ht as [Ht Hw]. apply filter_In. split; [now apply K | assumption].
  - destruct (C tt) as [t (Ht & Hw & E)].
    { unfold l. apply filter_In. split; [|assumption].
      unfold CleaningWeek.task_templates_missing. apply filter_In. split; [assumption|].
      rewrite Hs, Hen, Had. reflexivity. }
    exists t. split; [|now apply Z.eqb_eq].
    apply filter_In. split; [assumption | now apply Z.eqb_eq].
Qed.

(** ** Deleting *)

(** No duty switch that is left refers to a deleted assignment. *)
Lemma delete_switches_clean (st : db) (doomed : assignment -> bool) (d : dutyswitch)
    (a : assignment) :
  In d (dutyswitches (Assignment.delete st doomed)) ->
  In a (assignments st) -> doomed a = true ->
  ds_requester_assignment d <> asg_pk a /\ ds_acceptor_assignment d <> Some (asg_pk a).
Proof.
  unfold Assignment.delete. cbn [dutyswitches with_dutyswitches with_assignments].
  set (gone := map asg_pk (List.filter doomed (assignments st))).
  intros Hd Ha Hdoomed.
  assert (Hgone : existsb (Z.eqb (asg_pk a)) gone = true).
  { apply existsb_exists. exists (asg_pk a). split; [|apply Z.eqb_refl].
    apply in_map. apply filter_In. now split. }
  apply in_map_iff in Hd as [d0 [<- Hd0]].
  apply filter_In in Hd0 as [Hd0 Hreq]. apply negb_true_iff in Hreq.
  split.
  - destruct (ds_acceptor_assignment d0) as [k|]; [destruct (existsb (Z.eqb k) gone)|];
      cbn; congruence.
  - destruct (ds_acceptor_assignment d0) as [k|] eqn:Ek; [|now rewrite Ek].
    destruct (existsb (Z.eqb k) gone) eqn:G; cbn; [discriminate|].
    rewrite Ek. congruence.
Qed.

(** X14.  Deleting assignments keeps the duty switches consistent
    ([requester_assignment] is [on_delete=CASCADE], [acceptor_assignment] is
    [on_delete=SET_NULL]): no switch that is left refers to a deleted
    assignment, a switch whose requester's assignment is kept is kept with
    its requester, and it keeps its acceptor or loses it. *)
Theorem assignment_delete_cascade (st : db) (doomed : assignment -> bool) :
  let st' := Assignment.delete st doomed in
  (forall d a, In d (dutyswitches st') -> In a (assignments st) -> doomed a = true ->
     ds_requester_assignment d <> asg_pk a /\ ds_acceptor_assignment d <> Some (asg_pk a))
  /\ (forall d, In d (dutyswitches st) ->
        (forall a, In a (assignments st) -> doomed a = true ->
           asg_pk a <> ds_requester_assignment d) ->
        exists d', In d' (dutyswitches st')
          /\ ds_pk d' = ds_pk d
          /\ ds_requester_assignment d' = ds_requester_assignment d
          /\ (ds_acceptor_assignment d' = ds_acceptor_assignment d
              \/ ds_acceptor_assignment d' = None))
  /\ (forall a, In a (assignments st') <-> In a (assignments st) /\ doomed a = false).
Proof.
  cbv zeta. split; [|split].
  - intros d a. apply delete_switches_clean.
  - intros d Hd Hkeep.
    unfold Assignment.delete. cbn [dutyswitches with_dutyswitches with_assignments].
    set (gone := map asg_pk (List.filter doomed (assignments st))).
    eexists. split.
    + apply in_map. apply filter_In. split; [exact Hd|].
      apply negb_true_iff. apply not_true_is_false. intros G.
      apply existsb_exists in G as [k [Hk E]]. apply Z.eqb_eq in E. subst k.
      unfold gone in Hk. apply in_map_iff in Hk as [a [E Ha]].
      apply filter_In in Ha as [Ha Hdo]. now apply (Hkeep a).
    + destruct (ds_acceptor_assignment d) as [k|] eqn:Ek;
        [destruct (existsb (Z.eqb k) gone)|]; cbn; auto.
  - intros a. cbn. rewrite filter_In, negb_true_iff. tauto.
Qed.

Lemma cleaningweek_delete_clean (st : db) (self : cleaningweek) :
  let st' := CleaningWeek.delete st self in
  (forall c, In c (cleaningweeks st') -> cw_pk c <> cw_pk self)
  /\ (forall a, In a (assignments st') -> asg_cleaning_week a <> cw_pk self)
  /\ (forall t, In t (tasks st') -> task_cleaning_week t <> cw_pk self)
  /\ (forall cleaner, (cw_pk self, cleaner) ∉ cleaningweek_excluded st')
  /\ (forall d a, In d (dutyswitches st') -> In a (assignments st) ->
        asg_cleaning_week a = cw_pk self ->
        ds_requester_assignment d <> asg_pk a
        /\ ds_acceptor_assignment d <> Some (asg_pk a)).
Proof.
  cbv zeta. unfold CleaningWeek.delete.
  cbn [cleaningweeks assignments tasks cleaningweek_excluded dutyswitches
       with_cleaningweeks with_cleaningweek_excluded with_tasks].
  split; [|split; [|split; [|split]]].
  - intros c Hc. apply filter_In in Hc as [_ Hc]. apply negb_true_iff in Hc.
    now apply Z.eqb_neq.
  - intros a Ha. cbn in Ha. apply filter_In in Ha as [_ Ha]. apply negb_true_iff in Ha.
    now apply Z.eqb_neq.
  - intros t Ht. cbn in Ht. apply filter_In in Ht as [_ Ht]. apply negb_true_iff in Ht.
    now apply Z.eqb_neq.
  - intros cleaner H. apply elem_of_filter in H as [H _]. now apply H.
  - intros d a Hd Ha Hw.
    apply (delete_switches_clean st (fun a0 => asg_cleaning_week a0 =? cw_pk self) d a);
      [exact Hd | exact Ha | now apply Z.eqb_eq].
Qed.

(** X15.  In a week in which the schedule does not occur, [create_assignment]
    returns [False]; when it finds a cleaning week of the schedule in that
    week it deletes it, and nothing in the store refers to it afterwards: no
    assignment, no task, no exclusion and no duty switch.  When it finds none
    the store is unchanged. *)
Theorem create_assignment_off_cycle (rnd : nat) (st : db) (self : schedule) (week : Z) :
  sch_disabled self = false ->
  Schedule.occurs_in_week self week = false ->
  let out := Schedule.create_assignment rnd st self week in
  let st' := snd out in
  fst out = Ok ReturnFalse
  /\ match List.filter (fun c => cw_week c =? week)
             (Schedule.cleaningweek_set st (sch_pk self)) with
     | [] => st' = st
     | stray :: _ =>
         (forall c, In c (cleaningweeks st') -> cw_pk c <> cw_pk stray)
         /\ (forall a, In a (assignments st') -> asg_cleaning_week a <> cw_pk stray)
         /\ (forall t, In t (tasks st') -> task_cleaning_week t <> cw_pk stray)
         /\ (forall cleaner, (cw_pk stray, cleaner) ∉ cleaningweek_excluded st')
         /\ (forall d a, In d (dutyswitches st') -> In a (assignments st) ->
               asg_cleaning_week a = cw_pk stray ->
               ds_requester_assignment d <> asg_pk a
               /\ ds_acceptor_assignment d <> Some (asg_pk a))
     end.
Proof.
  intros Hd Ho. cbv zeta. rewrite create_assignment_steps, Hd, Ho. cbn [negb fst snd].
  split; [reflexivity|].
  destruct (List.filter (fun c => cw_week c =? week)
              (Schedule.cleaningweek_set st (sch_pk self))) as [|stray rest];
    [reflexivity|].
  apply cleaningweek_delete_clean.
Qed.

Lemma create_assignment_off_cycle_witness :
  fst (Schedule.create_assignment 0 Examples.stale Examples.even_weeks 5) = Ok ReturnFalse
  /\ match List.filter (fun c => cw_week c =? 5)
             (Schedule.cleaningweek_set Examples.stale (sch_pk Examples.even_weeks)) with
     | [] => snd (Schedule.create_assignment 0 Examples.stale Examples.even_weeks 5)
             = Examples.stale
     | stray :: _ =>
         (forall c,
            In c (cleaningweeks
                    (snd (Schedule.create_assignment 0 Examples.stale Examples.even_weeks 5))) ->
            cw_pk c <> cw_pk stray)
         /\ (forall a,
               In a (assignments
                       (snd (Schedule.create_assignment 0 Examples.stale Examples.even_weeks 5))) ->
               asg_cleaning_week a <> cw_pk stray)
         /\ (forall t,
               In t (tasks
                       (snd (Schedule.create_assignment 0 Examples.stale Examples.even_weeks 5))) ->
               task_cleaning_week t <> cw_pk stray)
         /\ (forall cleaner,
               (cw_pk stray, cleaner)
                 ∉ cleaningweek_excluded
                     (snd (Schedule.create_assignment 0 Examples.stale Examples.even_weeks 5)))
         /\ (forall d a,
               In d (dutyswitches
                       (snd (Schedule.create_assignment 0 Examples.stale Examples.even_weeks 5))) ->
               In a (assignments Examples.stale) ->
               asg_cleaning_week a = cw_pk stray ->
               ds_requester_assignment d <> asg_pk a
               /\ ds_acceptor_assignment d <> Some (asg_pk a))
     end.
Proof.
  apply (create_assignment_off_cycle 0 Examples.stale Examples.even_weeks 5); reflexivity.
Defined.

(** ** The affiliation of a cleaner in a week *)

Lemma filter_keeps_keys_distinct {R : Type} (key : R -> pk) (f : R -> bool) (table : list R) :
  List.NoDup (map key table) -> List.NoDup (map key (List.filter f table)).
Proof.
  induction table as [|r table IH]; intros Hnd; [constructor|].
  cbn in Hnd. apply NoDup_cons_iff in Hnd as [Hnot Hnd]. cbn.
  destruct (f r); [|now apply IH]. cbn. constructor; [|now apply IH].
  intros H. apply Hnot. apply in_map_iff in H as [x [E Hx]].
  apply filter_In in Hx as [Hx _]. rewrite <- E. now apply in_map.
Qed.

(** X16.  [affiliation_in_week] under unique primary keys: it returns the
    affiliation of the cleaner that covers the week when there is exactly
    one, [None] when there is none, and it raises [MultipleObjectsReturned],
    which nothing catches, when two affiliations of the cleaner cover the
    week. *)
Theorem affiliation_in_week_cases (st : db) (self : pk) (week : Z) :
  List.NoDup (map aff_pk (affiliations st)) ->
  let covers a := aff_cleaner a = self /\ aff_beginning a <= week <= aff_end a in
  match Cleaner.affiliation_in_week st self week with
  | Ok (Some a) =>
      In a (affiliations st) /\ covers a
      /\ forall b, In b (affiliations st) -> covers b -> b = a
  | Ok None => forall b, In b (affiliations st) -> ~ covers b
  | Raise e =>
      e = MultipleObjectsReturned
      /\ exists a b, In a (affiliations st) /\ In b (affiliations st)
           /\ aff_pk a <> aff_pk b /\ covers a /\ covers b
  end.
Proof.
  intros Hnd covers. unfold Cleaner.affiliation_in_week.
  set (sel := fun a => (aff_cleaner a =? self) && (aff_beginning a <=? week)
                       && (week <=? aff_end a)).
  assert (Hsel : forall a, sel a = true <-> covers a).
  { intros a. unfold sel, covers. rewrite !andb_true_iff, Z.eqb_eq, !Z.leb_le. tauto. }
  pose proof (filter_keeps_keys_distinct aff_pk sel (affiliations st) Hnd) as Hf.
  assert (Hin : forall a, In a (List.filter sel (affiliations st))
                          <-> In a (affiliations st) /\ covers a).
  { intros a. now rewrite filter_In, Hsel. }
  destruct (List.filter sel (affiliations st)) as [|x [|y l]].
  - intros b Hb Hc. now apply (Hin b).
  - destruct (proj1 (Hin x) (or_introl eq_refl)) as [Hx Hcx].
    repeat split; try assumption; try apply Hcx.
    intros b Hb Hc. destruct (proj2 (Hin b) (conj Hb Hc)) as [<- | []]. reflexivity.
  - split; [reflexivity|]. exists x, y.
    destruct (proj1 (Hin x) (or_introl eq_refl)) as [Hx Hcx].
    destruct (proj1 (Hin y) (or_intror (or_introl eq_refl))) as [Hy Hcy].
    repeat split; try assumption; try apply Hcx; try apply Hcy.
    cbn in Hf. apply NoDup_cons_iff in Hf as [Hnot _].
    intros E. apply Hnot. rewrite E. now left.
Qed.

Lemma affiliation_in_week_cases_witness :
  match Cleaner.affiliation_in_week Examples.affiliated 7 5 with
  | Ok (Some a) =>
      In a (affiliations Examples.affiliated)
      /\ (aff_cleaner a = 7 /\ aff_beginning a <= 5 <= aff_end a)
      /\ forall b, In b (affiliations Examples.affiliated) ->
           aff_cleaner b = 7 /\ aff_beginning b <= 5 <= aff_end b -> b = a
  | Ok None =>
      forall b, In b (affiliations Examples.affiliated) ->
        ~ (aff_cleaner b = 7 /\ aff_beginning b <= 5 <= aff_end b)
  | Raise e =>
      e = MultipleObjectsReturned
      /\ exists a b, In a (affiliations Examples.affiliated)
           /\ In b (affiliations Examples.affiliated)
           /\ aff_pk a <> aff_pk b
           /\ (aff_cleaner a = 7 /\ aff_beginning a <= 5 <= aff_end a)
           /\ (aff_cleaner b = 7 /\ aff_beginning b <= 5 <= aff_end b)
  end.
Proof.
  apply (affiliation_in_week_cases Examples.affiliated 7 5).
  cbn. repeat constructor; cbn; intuition lia.
Defined.

(** ** More on the validator of affiliations *)

(** X17.  What [date_validator] accepts, for a new affiliation and for an
    update alike: the beginning is not after the end, and the interval
    overlaps another affiliation of the cleaner only by lying strictly
    inside it. *)
Theorem date_validator_accepts (st : db) (affiliation_pk : option pk)
    (cleaner beginning end_ : Z) (a : affiliation) :
  Affiliation.date_validator st affiliation_pk cleaner beginning end_ = Ok tt ->
  In a (affiliations st) -> aff_cleaner a = cleaner ->
  (forall k, affiliation_pk = Some k -> k <> 0 -> aff_pk a <> k) ->
  beginning <= end_
  /\ (aff_beginning a <= end_ -> beginning <= aff_end a ->
      aff_beginning a < beginning /\ end_ < aff_end a).
Proof.
  unfold Affiliation.date_validator. intros H Hin Hc Hpk.
  destruct (Z.ltb_spec end_ beginning) as [|Hbe]; [discriminate|].
  split; [assumption|]. intros Hb He.
  set (mine := List.filter (fun a0 => aff_cleaner a0 =? cleaner) (affiliations st)) in H.
  set (others := match affiliation_pk with
                 | Some k => if k =? 0 then mine
                             else List.filter (fun a0 => negb (aff_pk a0 =? k)) mine
                 | None => mine
                 end) in H.
  assert (Hm : In a mine).
  { apply filter_In. split; [assumption | now apply Z.eqb_eq]. }
  assert (Ho : In a others).
  { unfold others. destruct affiliation_pk as [k|]; [|assumption].
    destruct (Z.eqb_spec k 0) as [|Hk]; [assumption|].
    apply filter_In. split; [assumption|].
    apply negb_true_iff. apply Z.eqb_neq. now apply Hpk. }
  destruct (existsb (fun a0 => Affiliation.in_range beginning end_ (aff_beginning a0)) others)
    eqn:E1; [discriminate|].
  destruct (existsb (fun a0 => Affiliation.in_range beginning end_ (aff_end a0)) others)
    eqn:E2; [discriminate|].
  assert (N1 : Affiliation.in_range beginning end_ (aff_beginning a) = false).
  { destruct (Affiliation.in_range beginning end_ (aff_beginning a)) eqn:F; [|reflexivity].
    rewrite <- E1. symmetry. apply existsb_exists. eauto. }
  assert (N2 : Affiliation.in_range beginning end_ (aff_end a) = false).
  { destruct (Affiliation.in_range beginning end_ (aff_end a)) eqn:F; [|reflexivity].
    rewrite <- E2. symmetry. apply existsb_exists. eauto. }
  unfold Affiliation.in_range in N1, N2.
  apply andb_false_iff in N1, N2.
  rewrite !Z.leb_gt in N1, N2. lia.
Qed.

Lemma date_validator_accepts_witness :
  3 <= 5
  /\ (aff_beginning (Examples.member 1 7 1 10) <= 5 ->
      3 <= aff_end (Examples.member 1 7 1 10) ->
      aff_beginning (Examples.member 1 7 1 10) < 3
      /\ 5 < aff_end (Examples.member 1 7 1 10)).
Proof.
  apply (date_validator_accepts Examples.affiliated None 7 3 5 (Examples.member 1 7 1 10)).
  - reflexivity.
  - cbn. auto.
  - reflexivity.
  - discriminate.
Defined.

(** X18.  Saving an affiliation whose dates are those the instance was built
    with invalidates nothing.  That is so for every new affiliation: the
    cleaning weeks of the weeks it covers keep their assignments and their
    flag, although there is one more cleaner to choose from. *)
Theorem new_affiliation_invalidates_nothing (st : db) :
  (forall cleaner group beginning end_,
     cleaningweeks (snd (Affiliation.save st (Affiliation.new cleaner group beginning end_)))
     = cleaningweeks st)
  /\ (forall row,
        cleaningweeks (snd (Affiliation.save st (Affiliation.init row))) = cleaningweeks st).
Proof.
  assert (G : forall self, previous_beginning self = ai_beginning self ->
                previous_end self = ai_end self ->
                cleaningweeks (snd (Affiliation.save st self)) = cleaningweeks st).
  { intros self Eb Ee. unfold Affiliation.save.
    destruct (Affiliation.date_validator st (ai_pk self) (ai_cleaner self)
                (ai_beginning self) (ai_end self)); [|reflexivity].
    rewrite Eb, Ee, !Z.eqb_refl. cbn [negb orb].
    destruct (ai_pk self); reflexivity. }
  split; intros; apply G; reflexivity.
Qed.

(** ** Task templates *)

Section Marking.

(** A way of marking a cleaning week that keeps its primary key. *)
Variable mark : cleaningweek -> cleaningweek.
Hypothesis mark_pk : forall c, cw_pk (mark c) = cw_pk c.
Hypothesis mark_twice : forall c, mark (mark c) = mark c.

Lemma mark_one (st : db) (x : cleaningweek) :
  (forall c, In c (cleaningweeks st) -> cw_pk c = cw_pk x -> mark c = mark x) ->
  (exists c, In c (cleaningweeks st) /\ cw_pk c = cw_pk x) ->
  cleaningweeks (CleaningWeek.save st (mark x))
  = map (fun c => if cw_pk c =? cw_pk x then mark c else c) (cleaningweeks st).
Proof.
  intros Hsame [c0 [Hc0 Hk0]]. unfold CleaningWeek.save. cbn [cleaningweeks with_cleaningweeks].
  rewrite save_row_present by (exists c0; rewrite mark_pk; now split).
  apply map_ext_in. intros c Hc. rewrite mark_pk.
  destruct (Z.eqb_spec (cw_pk c) (cw_pk x)) as [E|_]; [|reflexivity].
  symmetry. now apply Hsame.
Qed.

Lemma mark_all (l : list cleaningweek) : forall st : db,
  (forall x c, In x l -> In c (cleaningweeks st) -> cw_pk c = cw_pk x -> mark c = mark x) ->
  (forall x, In x l -> exists c, In c (cleaningweeks st) /\ cw_pk c = cw_pk x) ->
  cleaningweeks (fold_left (fun st c => CleaningWeek.save st (mark c)) l st)
  = map (fun c => if existsb (fun x => cw_pk x =? cw_pk c) l then mark c else c)
      (cleaningweeks st).
Proof.
  induction l as [|x l IH]; intros st Hsame Hex.
  - cbn. symmetry. apply map_id.
  - cbn [fold_left].
    pose proof (mark_one st x (fun c Hc => Hsame x c (or_introl eq_refl) Hc)
                  (Hex x (or_introl eq_refl))) as E1.
    rewrite IH.
    + rewrite E1, map_map. apply map_ext. intros c. cbn [existsb].
      rewrite (Z.eqb_sym (cw_pk x) (cw_pk c)).
      destruct (cw_pk c =? cw_pk x) eqn:E; cbn [orb].
      * rewrite mark_pk, mark_twice.
        destruct (existsb (fun x0 => cw_pk x0 =? cw_pk c) l); reflexivity.
      * reflexivity.
    + intros y c' Hy Hc' Hk. rewrite E1 in Hc'.
      apply in_map_iff in Hc' as [c [<- Hc]].
      destruct (cw_pk c =? cw_pk x).
      * rewrite mark_twice. rewrite mark_pk in Hk. apply Hsame; [now right | exact Hc | exact Hk].
      * apply Hsame; [now right | exact Hc | exact Hk].
    + intros y Hy. destruct (Hex y (or_intror Hy)) as [c [Hc Hk]].
      exists (if cw_pk c =? cw_pk x then mark c else c). split.
      * rewrite E1.
        apply (in_map (fun c0 => if cw_pk c0 =? cw_pk x then mark c0 else c0) _ c Hc).
      * destruct (cw_pk c =? cw_pk x); [now rewrite mark_pk | exact Hk].
Qed.

(** Marking the rows a query selects, under unique primary keys. *)
Lemma mark_selected (sel : cleaningweek -> bool) (st : db) :
  List.NoDup (map cw_pk (cleaningweeks st)) ->
  cleaningweeks (fold_left (fun st c => CleaningWeek.save st (mark c))
                   (List.filter sel (cleaningweeks st)) st)
  = map (fun c => if sel c then mark c else c) (cleaningweeks st).
Proof.
  intros Hnd. rewrite mark_all.
  - apply map_ext_in. intros c Hc.
    now rewrite (existsb_pk_filter sel (cleaningweeks st) c Hnd Hc).
  - intros x c Hx Hc Hk. apply filter_In in Hx as [Hx _].
    now rewrite (key_unique cw_pk c x (cleaningweeks st) Hnd Hc Hx Hk).
  - intros x Hx. apply filter_In in Hx as [Hx _]. exists x. now split.
Qed.

End Marking.

(** X19.  When [task_disabled] of a saved task template differs from the
    value the instance was built with, [save] unsets [tasks_valid] on the
    cleaning weeks of the template's schedule whose week is strictly after
    the current week, and changes no other cleaning week; the cleaning week
    of the current week keeps its tasks as they are. *)
Theorem tasktemplate_save_invalidates_future (today : Time.date) (st : db)
    (self : tasktemplate_instance) (k : pk) :
  tti_pk self = Some k ->
  List.NoDup (map cw_pk (cleaningweeks st)) ->
  previous_disabled self <> tti_task_disabled self ->
  cleaningweeks (snd (TaskTemplate.save today st self))
  = map (fun c => if (cw_schedule c =? tti_schedule self)
                     && (Time.current_epoch_week today <? cw_week c)
                  then tasks_invalidated c else c)
      (cleaningweeks st).
Proof.
  intros Hk Hnd Hch. unfold TaskTemplate.save. rewrite Hk.
  cbn [previous_disabled tti_task_disabled tti_schedule].
  assert (C : negb (Bool.eqb (previous_disabled self) (tti_task_disabled self)) = true).
  { apply negb_true_iff. apply not_true_is_false. intros E. now apply eqb_prop in E. }
  rewrite C. cbn [snd].
  set (st0 := with_tasktemplates _ st).
  unfold Schedule.cleaningweek_set. rewrite filter_twice.
  change (fun st1 x => snd (CleaningWeek.set_tasks_valid_field st1 x false))
    with (fun st1 x => CleaningWeek.save st1 (tasks_invalidated x)).
  apply (mark_selected tasks_invalidated (fun c => eq_refl) (fun c => eq_refl) _ st0 Hnd).
Qed.

Lemma tasktemplate_save_invalidates_future_witness :
  cleaningweeks (snd (TaskTemplate.save 30 Examples.stale Examples.now_disabled))
  = map (fun c => if (cw_schedule c =? tti_schedule Examples.now_disabled)
                     && (Time.current_epoch_week 30 <? cw_week c)
                  then tasks_invalidated c else c)
      (cleaningweeks Examples.stale).
Proof.
  apply (tasktemplate_save_invalidates_future 30 Examples.stale Examples.now_disabled 1).
  - reflexivity.
  - cbn. repeat constructor; cbn; intuition lia.
  - discriminate.
Defined.

(** ** Frequencies *)

(** X20.  Even-week and odd-week schedules alternate, also in weeks before
    1970: in every week exactly one of the two occurs, and a week later it is
    the other one's turn. *)
Theorem occurs_in_week_alternates (even odd : schedule) (week : Z) :
  sch_frequency even = 2 -> sch_frequency odd = 3 ->
  Schedule.occurs_in_week odd week = negb (Schedule.occurs_in_week even week)
  /\ Schedule.occurs_in_week even (week + 1) = Schedule.occurs_in_week odd week.
Proof.
  intros He Ho. unfold Schedule.occurs_in_week. rewrite He, Ho. cbn.
  pose proof (Z.div_mod week 2). pose proof (Z.mod_pos_bound week 2).
  pose proof (Z.div_mod (week + 1) 2). pose proof (Z.mod_pos_bound (week + 1) 2).
  destruct (Z.eqb_spec (week mod 2) 0), (Z.eqb_spec (week mod 2) 1),
    (Z.eqb_spec ((week + 1) mod 2) 0); cbn; split; try reflexivity; lia.
Qed.

Lemma occurs_in_week_alternates_witness :
  Schedule.occurs_in_week Examples.odd_weeks (-3)
  = negb (Schedule.occurs_in_week Examples.even_weeks (-3))
  /\ Schedule.occurs_in_week Examples.even_weeks (-3 + 1)
     = Schedule.occurs_in_week Examples.odd_weeks (-3).
Proof.
  apply (occurs_in_week_alternates Examples.even_weeks Examples.odd_weeks (-3));
    reflexivity.
Defined.

(** ** More on duty switches *)

(** X21.  The assignments [possible_acceptors] lists are exactly those of
    the requester's schedule, in a cleaning week after the requester's, from
    which the requester's cleaner is not excluded, and held by another
    cleaner. *)
Theorem possible_acceptors_cases (st : db) (self : dutyswitch_instance)
    (acceptors : list assignment) :
  DutySwitch.possible_acceptors st self = Ok acceptors ->
  forall a,
    In a acceptors <->
    In a (assignments st)
    /\ asg_schedule a = asg_schedule (requester_assignment self)
    /\ (exists source_week week,
          cleaning_week_of st (requester_assignment self) = Some source_week
          /\ cleaning_week_of st a = Some week
          /\ cw_week source_week < cw_week week)
    /\ ((asg_cleaning_week a, asg_cleaner (requester_assignment self))
          ∉ cleaningweek_excluded st)
    /\ asg_cleaner a <> asg_cleaner (requester_assignment self).
Proof.
  unfold DutySwitch.possible_acceptors,
    AssignmentQuerySet.eligible_switching_destination_candidates.
  destruct (cleaning_week_of st (requester_assignment self)) as [source_week|];
    [|discriminate].
  intros [= <-] a.
  rewrite !filter_In, !negb_true_iff, bool_decide_eq_false, Z.eqb_eq, Z.eqb_neq.
  unfold cleaning_week__week. split.
  - intros [[[[Ha Hs] Hw] Hex] Hc].
    destruct (cleaning_week_of st a) as [week|]; [|discriminate].
    apply Z.ltb_lt in Hw. repeat split; try assumption. now exists source_week, week.
  - intros (Ha & Hs & (sw & week & [= <-] & -> & Hw) & Hex & Hc).
    repeat split; try assumption. now apply Z.ltb_lt.
Qed.

Lemma possible_acceptors_cases_witness :
  In Examples.acceptor [Examples.acceptor] <->
  In Examples.acceptor (assignments Examples.switching)
  /\ asg_schedule Examples.acceptor
     = asg_schedule (requester_assignment Examples.open_switch)
  /\ (exists source_week week,
        cleaning_week_of Examples.switching (requester_assignment Examples.open_switch)
        = Some source_week
        /\ cleaning_week_of Examples.switching Examples.acceptor = Some week
        /\ cw_week source_week < cw_week week)
  /\ ((asg_cleaning_week Examples.acceptor,
       asg_cleaner (requester_assignment Examples.open_switch))
        ∉ cleaningweek_excluded Examples.switching)
  /\ asg_cleaner Examples.acceptor
     <> asg_cleaner (requester_assignment Examples.open_switch).
Proof.
  apply (possible_acceptors_cases Examples.switching Examples.open_switch
           [Examples.acceptor]).
  reflexivity.
Defined.

(** X22.  Saving the same instance a second time undoes the swap: the guard
    of [save] reads the acceptor the instance was built with, which the
    first save does not refresh.  Every assignment is back with the cleaner
    it had, and the acceptor's cleaner is now excluded from the requester's
    cleaning week as well. *)
Theorem second_save_undoes_swap (st : db) (self : dutyswitch_instance) (a : assignment) :
  previous_acceptor self = None ->
  acceptor_assignment self = Some a ->
  List.NoDup (map asg_pk (assignments st)) ->
  In (requester_assignment self) (assignments st) ->
  In a (assignments st) ->
  asg_pk (requester_assignment self) <> asg_pk a ->
  let r := requester_assignment self in
  let first := DutySwitch.save st self in
  let second := DutySwitch.save (snd first) (fst first) in
  assignments (snd first) = map (swap_row r a) (assignments st)
  /\ assignments (snd second) = assignments st
  /\ cleaningweek_excluded (snd second)
     = {[ (asg_cleaning_week r, asg_cleaner a) ]}
       ∪ ({[ (asg_cleaning_week r, asg_cleaner r) ]} ∪ cleaningweek_excluded st).
Proof.
  intros Hp Hacc Hnd Hr Ha Hne r first second.
  destruct (save_open_tables st self a Hp Hacc Hr Ha) as (E1 & E2 & _).
  cbv zeta in E1, E2. fold r in E1, E2. fold first in E1, E2.
  assert (Hfirst : fst first
                   = {| dsi_pk := dsi_pk (fst first);
                        requester_assignment := DutySwitch.with_cleaner r (asg_cleaner a);
                        acceptor_assignment :=
                          Some (DutySwitch.with_cleaner a (asg_cleaner r));
                        previous_acceptor := None |}).
  { unfold first, DutySwitch.save. rewrite Hp, Hacc. unfold DutySwitch.swap, DutySwitch.super_save.
    cbn [dsi_pk requester_assignment acceptor_assignment previous_acceptor].
    rewrite Hp. destruct (dsi_pk self); reflexivity. }
  set (r' := DutySwitch.with_cleaner r (asg_cleaner a)) in *.
  set (a' := DutySwitch.with_cleaner a (asg_cleaner r)) in *.
  assert (Hr' : In r' (assignments (snd first))).
  { rewrite E1. apply in_map_iff. exists r. split; [|exact Hr].
    unfold swap_row. destruct (Z.eqb_spec (asg_pk r) (asg_pk a)); [contradiction|].
    now rewrite Z.eqb_refl. }
  assert (Ha' : In a' (assignments (snd first))).
  { rewrite E1. apply in_map_iff. exists a. split; [|exact Ha].
    unfold swap_row. now rewrite Z.eqb_refl. }
  destruct (save_open_tables (snd first) (fst first) a') as (F1 & F2 & _).
  { now rewrite Hfirst. }
  { now rewrite Hfirst. }
  { now rewrite Hfirst. }
  { exact Ha'. }
  cbv zeta in F1, F2. fold second in F1, F2.
  replace (requester_assignment (fst first)) with r' in F1, F2 by now rewrite Hfirst.
  split; [exact E1|]. split.
  - rewrite F1, E1, map_map. rewrite <- (map_id (assignments st)) at 2.
    apply map_ext_in. intros y Hy. unfold swap_row at 2.
    destruct (Z.eqb_spec (asg_pk y) (asg_pk a)) as [Ea|Na].
    + rewrite (key_unique asg_pk y a (assignments st) Hnd Hy Ha Ea).
      unfold swap_row, r', a'. cbn [asg_pk asg_cleaner DutySwitch.with_cleaner].
      rewrite Z.eqb_refl. now destruct a.
    + destruct (Z.eqb_spec (asg_pk y) (asg_pk r)) as [Er|Nr].
      * rewrite (key_unique asg_pk y r (assignments st) Hnd Hy Hr Er).
        unfold swap_row, r', a'. cbn [asg_pk asg_cleaner DutySwitch.with_cleaner].
        destruct (Z.eqb_spec (asg_pk r) (asg_pk a)); [contradiction|].
        rewrite Z.eqb_refl. now destruct r.
      * unfold swap_row, r', a'. cbn [asg_pk asg_cleaner DutySwitch.with_cleaner].
        destruct (Z.eqb_spec (asg_pk y) (asg_pk a)); [contradiction|].
        destruct (Z.eqb_spec (asg_pk y) (asg_pk r)); [contradiction|]. reflexivity.
  - rewrite F2, E2. reflexivity.
Qed.

Lemma second_save_undoes_swap_witness :
  assignments (snd (DutySwitch.save Examples.switching Examples.accepted_switch))
  = map (swap_row (requester_assignment Examples.accepted_switch) Examples.acceptor)
      (assignments Examples.switching)
  /\ assignments
       (snd (DutySwitch.save
               (snd (DutySwitch.save Examples.switching Examples.accepted_switch))
               (fst (DutySwitch.save Examples.switching Examples.accepted_switch))))
     = assignments Examples.switching
  /\ cleaningweek_excluded
       (snd (DutySwitch.save
               (snd (DutySwitch.save Examples.switching Examples.accepted_switch))
               (fst (DutySwitch.save Examples.switching Examples.accepted_switch))))
     = {[ (asg_cleaning_week (requester_assignment Examples.accepted_switch),
           asg_cleaner Examples.acceptor) ]}
       ∪ ({[ (asg_cleaning_week (requester_assignment Examples.accepted_switch),
              asg_cleaner (requester_assignment Examples.accepted_switch)) ]}
          ∪ cleaningweek_excluded Examples.switching).
Proof.
  apply (second_save_undoes_swap Examples.switching Examples.accepted_switch
           Examples.acceptor).
  - reflexivity.
  - reflexivity.
  - cbn. repeat constructor; cbn; intuition lia.
  - cbn. auto.
  - cbn. auto.
  - cbn. lia.
Defined.

(** X23.  A switch that is read from the store with its acceptor set is
    closed for good: saving the instance [__init__] builds from the row
    changes no assignment and no exclusion. *)
Theorem reloaded_closed_switch_is_idle (st : db) (row : dutyswitch)
    (self : dutyswitch_instance) (k : pk) :
  DutySwitch.init st row = Ok self ->
  ds_acceptor_assignment row = Some k ->
  let st' := snd (DutySwitch.save st self) in
  assignments st' = assignments st
  /\ cleaningweek_excluded st' = cleaningweek_excluded st
  /\ exists acceptor, acceptor_assignment self = Some acceptor /\ asg_pk acceptor = k.
Proof.
  unfold DutySwitch.init. intros Hinit Hk.
  destruct (DutySwitch.find_assignment st (ds_requester_assignment row)) as [requester|];
    [|discriminate].
  rewrite Hk in Hinit.
  destruct (DutySwitch.find_assignment st k) as [acceptor|] eqn:F; [|discriminate].
  injection Hinit as <-.
  destruct (save_built_closed_tables st
              {| dsi_pk := Some (ds_pk row); requester_assignment := requester;
                 acceptor_assignment := Some acceptor;
                 previous_acceptor := Some acceptor |} acceptor eq_refl) as [E1 E2].
  cbv zeta in *. split; [exact E1|]. split; [exact E2|].
  exists acceptor. split; [reflexivity|].
  unfold DutySwitch.find_assignment in F. apply find_some in F as [_ F].
  now apply Z.eqb_eq.
Qed.

Lemma reloaded_closed_switch_is_idle_witness :
  assignments (snd (DutySwitch.save Examples.switching
                      {| dsi_pk := Some 1; requester_assignment := Examples.requester;
                         acceptor_assignment := Some Examples.acceptor;
                         previous_acceptor := Some Examples.acceptor |}))
  = assignments Examples.switching
  /\ cleaningweek_excluded
       (snd (DutySwitch.save Examples.switching
               {| dsi_pk := Some 1; requester_assignment := Examples.requester;
                  acceptor_assignment := Some Examples.acceptor;
                  previous_acceptor := Some Examples.acceptor |}))
     = cleaningweek_excluded Examples.switching
  /\ exists acceptor,
       acceptor_assignment
         {| dsi_pk := Some 1; requester_assignment := Examples.requester;
            acceptor_assignment := Some Examples.acceptor;
            previous_acceptor := Some Examples.acceptor |} = Some acceptor
       /\ asg_pk acceptor = 2.
Proof.
  apply (reloaded_closed_switch_is_idle Examples.switching Examples.closed_row
           {| dsi_pk := Some 1; requester_assignment := Examples.requester;
              acceptor_assignment := Some Examples.acceptor;
              previous_acceptor := Some Examples.acceptor |} 2);
    reflexivity.
Defined.

(** ** The days of a task *)

Lemma valid_date_between (d hi : Time.date) :
  Time.valid_date hi = true -> Time.date_min <= d <= hi -> Time.valid_date d = true.
Proof.
  unfold Time.valid_date. rewrite !andb_true_iff, !Z.leb_le. lia.
Qed.

(** The dates of a task of a cleaning week from epoch week 0 on, with day
    numbers as the choices of the fields allow them, in any time zone: they
    are counted from the date [week_start] returns, which is day
    [7 * week - 3] or the day before it. *)
Lemma task_dates (tz : Time.timezone) (days : day_columns) (st : db) (self : task)
    (cw : cleaningweek) :
  Task.cleaning_week st self = Ok cw ->
  0 <= cw_week cw ->
  0 <= schedule_weekday days (cw_schedule cw) <= 6 ->
  0 <= tasktemplate_start_days_before days (task_template self) <= 6 ->
  0 <= tasktemplate_end_days_after days (task_template self) <= 6 ->
  Time.valid_date (7 * cw_week cw + 9) = true ->
  exists monday,
    monday = 7 * cw_week cw - 3 + Time.ahead tz ((7 * cw_week cw - 3) * 86400) / 86400
    /\ CleaningWeek.week_start tz cw = Ok monday
    /\ CleaningWeek.assignment_date tz days cw
       = Ok (monday + schedule_weekday days (cw_schedule cw))
    /\ Task.start_date tz days st self
       = Ok (monday + schedule_weekday days (cw_schedule cw)
             - tasktemplate_start_days_before days (task_template self))
    /\ Task.end_date tz days st self
       = Ok (monday + schedule_weekday days (cw_schedule cw)
             + tasktemplate_end_days_after days (task_template self)).
Proof.
  intros Hcw Hw Hwd Hs He Hv.
  set (monday := 7 * cw_week cw - 3
                 + Time.ahead tz ((7 * cw_week cw - 3) * 86400) / 86400).
  assert (Hm : 7 * cw_week cw - 4 <= monday <= 7 * cw_week cw - 3).
  { unfold monday. destruct (ahead_days tz ((7 * cw_week cw - 3) * 86400)) as [-> | ->]; lia. }
  assert (V : forall d, -10 <= d <= 7 * cw_week cw + 9 -> Time.valid_date d = true).
  { intros d Hd. apply (valid_date_between d _ Hv). unfold Time.date_min. lia. }
  assert (Hstart : CleaningWeek.week_start tz cw = Ok monday).
  { unfold CleaningWeek.week_start. rewrite epoch_week_to_monday_shift. cbv zeta.
    fold monday. now rewrite (V monday) by lia. }
  exists monday. split; [reflexivity|]. split; [exact Hstart|].
  unfold CleaningWeek.assignment_date, Task.start_date, Task.end_date.
  rewrite Hcw. cbn [bind]. rewrite Hstart.
  unfold CleaningWeek.week_start in Hstart. rewrite Hstart.
  cbn [bind]. unfold Time.add_days.
  rewrite (V (monday + schedule_weekday days (cw_schedule cw))) by lia.
  cbn [bind].
  rewrite (V (monday + schedule_weekday days (cw_schedule cw)
              + - tasktemplate_start_days_before days (task_template self))) by lia.
  rewrite (V (monday + schedule_weekday days (cw_schedule cw)
              + tasktemplate_end_days_after days (task_template self))) by lia.
  repeat split.
Qed.

(** X24.  The days of a task.  For a cleaning week from epoch week 0 on, a
    weekday and day counts between 0 and 6, and a local clock that is not
    behind the time tuple of the Monday of the week: the assignment date
    falls on the weekday of the schedule in the week of the cleaning week,
    the task may be done from [start_days_before] days before it to
    [end_days_after] days after it, [my_time_has_come] holds on exactly
    these days and [has_passed] on exactly the days after them. *)
Theorem task_window (tz : Time.timezone) (days : day_columns) (today : Time.date) (st : db)
    (self : task) (cw : cleaningweek) :
  Task.cleaning_week st self = Ok cw ->
  0 <= cw_week cw ->
  0 <= schedule_weekday days (cw_schedule cw) <= 6 ->
  0 <= tasktemplate_start_days_before days (task_template self) <= 6 ->
  0 <= tasktemplate_end_days_after days (task_template self) <= 6 ->
  Time.valid_date (7 * cw_week cw + 9) = true ->
  0 <= Time.ahead tz ((7 * cw_week cw - 3) * 86400) < 86400 ->
  exists assignment_date start_date end_date,
    CleaningWeek.assignment_date tz days cw = Ok assignment_date
    /\ Task.start_date tz days st self = Ok start_date
    /\ Task.end_date tz days st self = Ok end_date
    /\ Time.date_to_epoch_week assignment_date = cw_week cw
    /\ Time.weekday assignment_date = schedule_weekday days (cw_schedule cw)
    /\ start_date
       = assignment_date - tasktemplate_start_days_before days (task_template self)
    /\ end_date = assignment_date + tasktemplate_end_days_after days (task_template self)
    /\ Task.my_time_has_come tz days today st self
       = Ok ((start_date <=? today) && (today <=? end_date))
    /\ Task.has_passed tz days today st self = Ok (end_date <? today).
Proof.
  intros Hcw Hw Hwd Hs He Hv Hz.
  destruct (task_dates tz days st self cw Hcw Hw Hwd Hs He Hv)
    as (monday & Hm & _ & A & S & E).
  rewrite (Z.div_small _ _ Hz), Z.add_0_r in Hm.
  set (day := monday + schedule_weekday days (cw_schedule cw)) in *.
  exists day, (day - tasktemplate_start_days_before days (task_template self)),
    (day + tasktemplate_end_days_after days (task_template self)).
  split; [exact A|]. split; [exact S|]. split; [exact E|]. split; [|split].
  - rewrite date_to_epoch_week_floor by (unfold day; lia).
    symmetry. apply (Z.div_unique (day + 3) 7 (cw_week cw)
                       (schedule_weekday days (cw_schedule cw))); unfold day; lia.
  - unfold Time.weekday.
    symmetry. apply (Z.mod_unique (day + 3) 7 (cw_week cw)
                       (schedule_weekday days (cw_schedule cw))); unfold day; lia.
  - split; [reflexivity|]. split; [reflexivity|].
    unfold Task.my_time_has_come, Task.has_passed. rewrite S, E. cbn [bind].
    split; [|reflexivity].
    destruct (day - tasktemplate_start_days_before days (task_template self) <=? today);
      reflexivity.
Qed.

(** Week 5 of 1970, in the winter of Europe/Berlin. *)
Lemma task_window_witness :
  exists assignment_date start_date end_date,
    CleaningWeek.assignment_date Examples.berlin Examples.sundays
      (Examples.occurrence 1 5 1 true) = Ok assignment_date
    /\ Task.start_date Examples.berlin Examples.sundays Examples.two_weeks
         Examples.this_task = Ok start_date
    /\ Task.end_date Examples.berlin Examples.sundays Examples.two_weeks
         Examples.this_task = Ok end_date
    /\ Time.date_to_epoch_week assignment_date = cw_week (Examples.occurrence 1 5 1 true)
    /\ Time.weekday assignment_date
       = schedule_weekday Examples.sundays (cw_schedule (Examples.occurrence 1 5 1 true))
    /\ start_date
       = assignment_date
         - tasktemplate_start_days_before Examples.sundays (task_template Examples.this_task)
    /\ end_date
       = assignment_date
         + tasktemplate_end_days_after Examples.sundays (task_template Examples.this_task)
    /\ Task.my_time_has_come Examples.berlin Examples.sundays 37 Examples.two_weeks
         Examples.this_task
       = Ok ((start_date <=? 37) && (37 <=? end_date))
    /\ Task.has_passed Examples.berlin Examples.sundays 37 Examples.two_weeks
         Examples.this_task
       = Ok (end_date <? 37).
Proof.
  apply (task_window Examples.berlin Examples.sundays 37 Examples.two_weeks
           Examples.this_task (Examples.occurrence 1 5 1 true));
    [reflexivity | cbn; lia | cbn; lia | cbn; lia | cbn; lia | reflexivity
    | vm_compute; split; [discriminate | reflexivity]].
Defined.

(** X25.  The tasks of one template in two consecutive cleaning weeks of a
    schedule, where the local clock is not behind the time tuples of the
    Mondays of the two weeks: the days of the earlier task all lie before the
    days of the later one exactly when [start_days_before + end_days_after]
    is at most 6. *)
Theorem task_windows_apart_iff (tz : Time.timezone) (days : day_columns) (st : db)
    (this next : task) (cw cw' : cleaningweek) :
  Task.cleaning_week st this = Ok cw ->
  Task.cleaning_week st next = Ok cw' ->
  cw_schedule cw' = cw_schedule cw ->
  cw_week cw' = cw_week cw + 1 ->
  task_template next = task_template this ->
  0 <= cw_week cw ->
  0 <= schedule_weekday days (cw_schedule cw) <= 6 ->
  0 <= tasktemplate_start_days_before days (task_template this) <= 6 ->
  0 <= tasktemplate_end_days_after days (task_template this) <= 6 ->
  Time.valid_date (7 * cw_week cw' + 9) = true ->
  0 <= Time.ahead tz ((7 * cw_week cw - 3) * 86400) < 86400 ->
  0 <= Time.ahead tz ((7 * cw_week cw' - 3) * 86400) < 86400 ->
  exists end_date start_date,
    Task.end_date tz days st this = Ok end_date
    /\ Task.start_date tz days st next = Ok start_date
    /\ (end_date < start_date
        <-> tasktemplate_start_days_before days (task_template this)
            + tasktemplate_end_days_after days (task_template this) <= 6).
Proof.
  intros Hcw Hcw' Hsch Hweek Htt Hw Hwd Hs He Hv Hz Hz'.
  destruct (task_dates tz days st this cw Hcw Hw Hwd Hs He)
    as (monday & Hm & _ & _ & _ & E).
  { apply (valid_date_between _ _ Hv). unfold Time.date_min. lia. }
  destruct (task_dates tz days st next cw' Hcw') as (monday' & Hm' & _ & _ & S & _);
    try (rewrite ?Hsch, ?Htt; assumption); [lia|].
  rewrite (Z.div_small _ _ Hz), Z.add_0_r in Hm.
  rewrite (Z.div_small _ _ Hz'), Z.add_0_r in Hm'.
  rewrite Hsch, Htt in S.
  eexists. eexists. split; [exact E|]. split; [exact S|]. lia.
Qed.

(** The weeks 5 and 6 of 1970, in the winter of Europe/Berlin. *)
Lemma task_windows_apart_iff_witness :
  exists end_date start_date,
    Task.end_date Examples.berlin Examples.sundays Examples.two_weeks Examples.this_task
    = Ok end_date
    /\ Task.start_date Examples.berlin Examples.sundays Examples.two_weeks
         Examples.next_task = Ok start_date
    /\ (end_date < start_date
        <-> tasktemplate_start_days_before Examples.sundays (task_template Examples.this_task)
            + tasktemplate_end_days_after Examples.sundays (task_template Examples.this_task)
            <= 6).
Proof.
  apply (task_windows_apart_iff Examples.berlin Examples.sundays Examples.two_weeks
           Examples.this_task Examples.next_task
           (Examples.occurrence 1 5 1 true) (Examples.occurrence 2 6 1 true));
    [reflexivity | reflexivity | reflexivity | reflexivity | reflexivity
    | cbn; lia | cbn; lia | cbn; lia | cbn; lia | reflexivity
    | vm_compute; split; [discriminate | reflexivity]
    | vm_compute; split; [discriminate | reflexivity]].
Defined.

(** ** Open and closed switches *)

Lemma save_row_spec {R : Type} (key : R -> pk) (row : R) (table : list R) :
  In row (save_row key row table)
  /\ (forall r, In r (save_row key row table) -> key r = key row -> r = row)
  /\ (forall r, In r table -> key r <> key row -> In r (save_row key row table))
  /\ (forall r, In r (save_row key row table) -> key r <> key row -> In r table).
Proof.
  unfold save_row.
  destruct (existsb (fun r => key r =? key row) table) eqn:E.
  - apply existsb_exists in E as [r0 [Hr0 E0]]. repeat split.
    + apply in_map_iff. exists r0. split; [now rewrite E0 | assumption].
    + intros r Hr Hk. apply in_map_iff in Hr as [r1 [<- Hr1]].
      destruct (Z.eqb_spec (key r1) (key row)) as [|N]; [reflexivity | contradiction].
    + intros r Hr Hk. apply in_map_iff. exists r. split; [|assumption].
      destruct (Z.eqb_spec (key r) (key row)); [contradiction | reflexivity].
    + intros r Hr Hk. apply in_map_iff in Hr as [r1 [<- Hr1]].
      destruct (Z.eqb_spec (key r1) (key row)); [contradiction | assumption].
  - repeat split.
    + apply in_or_app. right. now left.
    + intros r Hr Hk. apply in_app_or in Hr as [Hr | [<- | []]]; [|reflexivity].
      exfalso. apply not_true_iff_false in E. apply E.
      apply existsb_exists. exists r. split; [assumption | now apply Z.eqb_eq].
    + intros r Hr _. apply in_or_app. now left.
    + intros r Hr Hk. apply in_app_or in Hr as [Hr | [<- | []]]; [assumption | contradiction].
Qed.

(** The row [save] writes for a switch whose acceptor is set. *)
Lemma save_switch_table (st : db) (self : dutyswitch_instance) (a : assignment) :
  acceptor_assignment self = Some a ->
  exists k,
    dsi_pk (fst (DutySwitch.save st self)) = Some k
    /\ dutyswitches (snd (DutySwitch.save st self))
       = save_row ds_pk
           {| ds_pk := k;
              ds_requester_assignment := asg_pk (requester_assignment self);
              ds_acceptor_assignment := Some (asg_pk a) |}
           (dutyswitches st).
Proof.
  intros Hacc.
  unfold DutySwitch.save, DutySwitch.swap, DutySwitch.super_save, DutySwitch.row.
  rewrite Hacc.
  destruct (previous_acceptor self), (dsi_pk self);
    cbn; rewrite ?Hacc; eexists; split; reflexivity.
Qed.

(** X26.  A switch that is saved with its acceptor set is stored as closed:
    the row of the instance names the requester's and the acceptor's
    assignment, [closed()] lists it and [open()] does not, and the other
    rows are kept.  When the requester's assignment had no other open switch,
    [switch_requested] of it returns [None] afterwards. *)
Theorem saved_switch_with_acceptor_is_closed (st : db) (self : dutyswitch_instance)
    (a : assignment) :
  acceptor_assignment self = Some a ->
  let out := DutySwitch.save st self in
  exists k,
    dsi_pk (fst out) = Some k
    /\ (exists row, In row (dutyswitches (snd out)) /\ ds_pk row = k)
    /\ (forall row, In row (dutyswitches (snd out)) -> ds_pk row = k ->
          ds_requester_assignment row = asg_pk (requester_assignment self)
          /\ ds_acceptor_assignment row = Some (asg_pk a)
          /\ In row (DutySwitchQuerySet.closed (snd out) None)
          /\ ~ In row (DutySwitchQuerySet.open (snd out) None))
    /\ (forall row, In row (dutyswitches st) -> ds_pk row <> k ->
          In row (dutyswitches (snd out)))
    /\ ((forall d, In d (dutyswitches st) ->
           ds_requester_assignment d = asg_pk (requester_assignment self) ->
           ds_acceptor_assignment d = None -> ds_pk d = k) ->
        Assignment.switch_requested (snd out) (requester_assignment self) = None).
Proof.
  intros Hacc out.
  destruct (save_switch_table st self a Hacc) as (k & Hk & Ht).
  fold out in Hk, Ht. exists k. split; [exact Hk|].
  set (row0 := {| ds_pk := k;
                  ds_requester_assignment := asg_pk (requester_assignment self);
                  ds_acceptor_assignment := Some (asg_pk a) |}) in *.
  destruct (save_row_spec ds_pk row0 (dutyswitches st)) as (S1 & S2 & S3 & S4).
  rewrite <- Ht in S1, S2, S3, S4.
  split; [now exists row0|]. split; [|split].
  - intros row Hrow Hpk. rewrite (S2 row Hrow Hpk). repeat split.
    + unfold DutySwitchQuerySet.closed. apply filter_In. split; [|reflexivity].
      now rewrite <- (S2 row Hrow Hpk).
    + unfold DutySwitchQuerySet.open. intros H. apply filter_In in H as [_ H].
      discriminate H.
  - intros row Hrow Hpk. now apply S3.
  - intros Honly. unfold Assignment.switch_requested.
    destruct (List.filter _ (List.filter _ (dutyswitches (snd out)))) as [|d l] eqn:F;
      [reflexivity|]. exfalso.
    assert (Hd : In d (d :: l)) by now left.
    rewrite <- F in Hd. apply filter_In in Hd as [Hd Hnull].
    apply filter_In in Hd as [Hd Hreq]. apply Z.eqb_eq in Hreq.
    destruct (Z.eq_dec (ds_pk d) k) as [E|N].
    + rewrite (S2 d Hd E) in Hnull. discriminate Hnull.
    + apply N. apply Honly; [now apply S4 | assumption|].
      destruct (ds_acceptor_assignment d); [discriminate | reflexivity].
Qed.

Lemma saved_switch_with_acceptor_is_closed_witness :
  exists k,
    dsi_pk (fst (DutySwitch.save Examples.switching Examples.accepted_switch)) = Some k
    /\ (exists row,
          In row (dutyswitches
                    (snd (DutySwitch.save Examples.switching Examples.accepted_switch)))
          /\ ds_pk row = k)
    /\ (forall row,
          In row (dutyswitches
                    (snd (DutySwitch.save Examples.switching Examples.accepted_switch))) ->
          ds_pk row = k ->
          ds_requester_assignment row
          = asg_pk (requester_assignment Examples.accepted_switch)
          /\ ds_acceptor_assignment row = Some (asg_pk Examples.acceptor)
          /\ In row (DutySwitchQuerySet.closed
                       (snd (DutySwitch.save Examples.switching Examples.accepted_switch))
                       None)
          /\ ~ In row (DutySwitchQuerySet.open
                         (snd (DutySwitch.save Examples.switching Examples.accepted_switch))
                         None))
    /\ (forall row, In row (dutyswitches Examples.switching) -> ds_pk row <> k ->
          In row (dutyswitches
                    (snd (DutySwitch.save Examples.switching Examples.accepted_switch))))
    /\ ((forall d, In d (dutyswitches Examples.switching) ->
           ds_requester_assignment d
           = asg_pk (requester_assignment Examples.accepted_switch) ->
           ds_acceptor_assignment d = None -> ds_pk d = k) ->
        Assignment.switch_requested
          (snd (DutySwitch.save Examples.switching Examples.accepted_switch))
          (requester_assignment Examples.accepted_switch) = None).
Proof.
  apply (saved_switch_with_acceptor_is_closed Examples.switching Examples.accepted_switch
           Examples.acceptor).
  reflexivity.
Defined.

(** ** When an assignment has passed *)





(** ** Who can accept a switch *)

(** X28.  Every assignment [switchable_assignments_for_request] returns for
    a cleaner is held by that cleaner, is one of [possible_acceptors] of the
    switch and lies in a cleaning week of the current week or one of the
    [look_weeks_into_future] weeks after it; the requester's assignment has
    not passed, and in the requester's week the cleaner is affiliated to a
    group of the requester's schedule.  The list is empty for the
    requester's own cleaner. *)
Theorem switchable_assignments_sound (tz : Time.timezone) (days : day_columns)
    (today : Time.date) (st : db) (self : pk) (duty_switch : dutyswitch_instance)
    (look_weeks_into_future : Z) (switchable : list assignment) (a : assignment) :
  CleanerSwitching.switchable_assignments_for_request tz days today st self
    duty_switch look_weeks_into_future = Ok switchable ->
  In a switchable ->
  asg_cleaner a = self
  /\ self <> asg_cleaner (requester_assignment duty_switch)
  /\ (exists requested,
        DutySwitch.possible_acceptors st duty_switch = Ok requested /\ In a requested)
  /\ (exists week,
        cleaning_week_of st a = Some week
        /\ Time.current_epoch_week today <= cw_week week
           <= Time.current_epoch_week today + look_weeks_into_future)
  /\ AssignmentDates.has_passed tz days today st (requester_assignment duty_switch)
     = Ok false
  /\ exists request_week own,
       AssignmentDates.cleaning_week st (requester_assignment duty_switch) = Ok request_week
       /\ Cleaner.affiliation_in_week st self (cw_week request_week) = Ok (Some own)
       /\ (aff_group own, asg_schedule (requester_assignment duty_switch))
            ∈ schedulegroup_schedules st.
Proof.
  unfold CleanerSwitching.switchable_assignments_for_request.
  destruct (AssignmentDates.has_passed tz days today st
              (requester_assignment duty_switch)) as [[|]|] eqn:P; cbn [bind];
    [intros [= <-] [] | | discriminate].
  destruct (AssignmentDates.cleaning_week st (requester_assignment duty_switch))
    as [cw|] eqn:C; cbn [bind]; [|discriminate].
  destruct (Cleaner.affiliation_in_week st self (cw_week cw)) as [[own|]|] eqn:A;
    cbn [bind]; [| intros [= <-] [] | discriminate].
  destruct (bool_decide ((aff_group own, asg_schedule (requester_assignment duty_switch))
                           ∈ schedulegroup_schedules st)) eqn:G; cbn [negb];
    [| intros [= <-] []].
  apply bool_decide_eq_true in G.
  destruct (DutySwitch.possible_acceptors st duty_switch) as [requested|] eqn:R;
    cbn [bind]; [|discriminate].
  intros [= <-] Ha. apply filter_In in Ha as [Ha Hc].
  apply andb_true_iff in Hc as [Hself Hweek]. apply Z.eqb_eq in Hself.
  assert (Hother : asg_cleaner a <> asg_cleaner (requester_assignment duty_switch)).
  { unfold DutySwitch.possible_acceptors in R.
    destruct (AssignmentQuerySet.eligible_switching_destination_candidates st
                (requester_assignment duty_switch)); [|discriminate].
    injection R as <-. apply filter_In in Ha as [_ Ha].
    apply negb_true_iff in Ha. now apply Z.eqb_neq. }
  split; [assumption|]. split; [congruence|]. split; [now exists requested|].
  split; [|split; [reflexivity | now exists cw, own]].
  unfold cleaning_week__week in Hweek.
  destruct (cleaning_week_of st a) as [week|]; [|discriminate].
  exists week. split; [reflexivity|].
  unfold Affiliation.in_range in Hweek. apply andb_true_iff in Hweek as [H1 H2].
  apply Z.leb_le in H1, H2. lia.
Qed.

Lemma switchable_assignments_sound_witness :
  asg_cleaner Examples.acceptor = 8
  /\ 8 <> asg_cleaner (requester_assignment Examples.open_switch)
  /\ (exists requested,
        DutySwitch.possible_acceptors Examples.switching Examples.open_switch = Ok requested
        /\ In Examples.acceptor requested)
  /\ (exists week,
        cleaning_week_of Examples.switching Examples.acceptor = Some week
        /\ Time.current_epoch_week 60 <= cw_week week <= Time.current_epoch_week 60 + 12)
  /\ AssignmentDates.has_passed Examples.berlin Examples.sundays 60 Examples.switching
       (requester_assignment Examples.open_switch) = Ok false
  /\ exists request_week own,
       AssignmentDates.cleaning_week Examples.switching
         (requester_assignment Examples.open_switch) = Ok request_week
       /\ Cleaner.affiliation_in_week Examples.switching 8 (cw_week request_week)
          = Ok (Some own)
       /\ (aff_group own, asg_schedule (requester_assignment Examples.open_switch))
            ∈ schedulegroup_schedules Examples.switching.
Proof.
  apply (switchable_assignments_sound Examples.berlin Examples.sundays 60 Examples.switching 8
           Examples.open_switch 12 [Examples.acceptor] Examples.acceptor).
  - vm_compute. reflexivity.
  - cbn. auto.
Defined.
